(** * Booking estimator of the Tricykol admin scripts

    A shallow embedding of [scripts/create_booking.py] and
    [scripts/create_group_booking.py]: the fare formula, the coarse pickup
    bucket key ("geohash"), and the construction of booking documents.
    Also [scripts/create_passenger.py], [scripts/create_verified_driver.py]
    and [scripts/mapbox_search.py], whose remote services (the identity
    provider, the search service) answer as given functions of the request.

    Python [int] is [Z]; Python [float] is IEEE-754 binary64, taken from the
    executable specification [SpecFloat] of the Standard Library
    ([prec = 53], [emax = 1024]); exceptions are an error monad; the document
    store, the [random] module and [uuid.uuid4] are threaded as explicit
    state.

    A [print] is a call that can raise: the booking and passenger scripts
    are defined on a console, given as a function of the line, and the
    functions the claims of the specification speak of are their runs on a
    console that takes every line.

    Outside the model: the requests of the client library that fail on the
    way (the network, the permissions). *)

From Stdlib Require Import ZArith QArith Qabs Qround Lia SpecFloat Ascii.
From stdpp Require Import base option strings gmap pretty.

Local Open Scope Z_scope.

(** ** IEEE-754 binary64 *)

Module Float64.

Definition prec : Z := 53.
Definition emax : Z := 1024.

Abbreviation float := spec_float.

Definition mul : float -> float -> float := SFmul prec emax.
Definition sub : float -> float -> float := SFsub prec emax.
Definition div : float -> float -> float := SFdiv prec emax.

(** A double proper: zero, infinity, NaN, or a finite number whose mantissa
    and exponent are in canonical binary64 form. *)
Definition is_double (x : float) : bool := valid_binary prec emax x.

Definition is_finite (x : float) : bool :=
  match x with
  | S754_zero _ | S754_finite _ _ _ => true
  | S754_infinity _ | S754_nan => false
  end.

(** The integer [z] as the exact operand [z * 2^0] of a division. *)
Definition exact_int (z : Z) : float :=
  match z with
  | Z0 => S754_zero false
  | Zpos p => S754_finite false p 0
  | Zneg p => S754_finite true p 0
  end.

(** The double nearest to the integer [z] (ties to even), an infinity when
    [z] is out of range. *)
Definition of_int (z : Z) : float := binary_normalize prec emax z 0 false.

(** The double nearest to the quotient [a / b] of two integers: one
    rounding of the exact quotient. *)
Definition div_int (a b : Z) : float := div (exact_int a) (exact_int b).

(** The double denoted by the decimal literal [m * 10^-k], as the parser of
    float literals and of command-line floats computes it: the nearest
    double. *)
Definition of_decimal (m : Z) (k : Z) : float := div_int m (10 ^ k).

(** The exact rational value of a finite double (0 for the others). *)
Definition to_Q (x : float) : Q :=
  match x with
  | S754_finite s m e =>
      match e with
      | Zneg k => Qmake (cond_Zopp s (Zpos m)) (2 ^ k)%positive
      | _ => inject_Z (cond_Zopp s (Zpos m) * 2 ^ e)
      end
  | _ => 0%Q
  end.

(** [x > z] for a double [x] and an integer [z], compared exactly. *)
Definition gt_int (x : float) (z : Z) : bool :=
  match x with
  | S754_nan => false
  | S754_infinity s => negb s
  | S754_zero _ => z <? 0
  | S754_finite s m e =>
      if 0 <=? e then z <? cond_Zopp s (Zpos m) * 2 ^ e
      else z * 2 ^ (- e) <? cond_Zopp s (Zpos m)
  end.

(** Truncation toward zero of a finite double. *)
Definition trunc (x : float) : Z :=
  match x with
  | S754_finite s m e =>
      if 0 <=? e then cond_Zopp s (Zpos m * 2 ^ e)
      else cond_Zopp s (Zpos m / 2 ^ (- e))
  | _ => 0
  end.

(** The integer nearest to the quotient [n / d] (for [0 < d]), a tie going
    to the even integer. *)
Definition div_half_even (n d : Z) : Z :=
  let q := n / d in
  let r := n mod d in
  if 2 * r <? d then q
  else if d <? 2 * r then q + 1
  else if Z.even q then q else q + 1.

(** The integer nearest to a finite double, ties to the even integer. *)
Definition round_half_even (x : float) : Z :=
  match x with
  | S754_finite s m e =>
      if 0 <=? e then cond_Zopp s (Zpos m * 2 ^ e)
      else cond_Zopp s (div_half_even (Zpos m) (2 ^ (- e)))
  | _ => 0
  end.

End Float64.

Import Float64.

(** ** Python values, exceptions and built-ins *)

Module Py.

Inductive exn : Type :=
| OverflowError (msg : string)
| ValueError (msg : string)
| ZeroDivisionError (msg : string)
| AttributeError (msg : string).

(** [str(e)] *)
Definition str_exn (e : exn) : string :=
  match e with
  | OverflowError msg | ValueError msg
  | ZeroDivisionError msg | AttributeError msg => msg
  end.

Inductive result (A : Type) : Type :=
| Ok (a : A)
| Raise (e : exn).
Arguments Ok {A} a.
Arguments Raise {A} e.

#[global] Instance result_ret : MRet result := fun _ a => Ok a.
#[global] Instance result_bind : MBind result := fun _ _ f r =>
  match r with
  | Ok a => f a
  | Raise e => Raise e
  end.

(** A number: [int] or [float]. *)
Inductive num : Type :=
| PInt (z : Z)
| PFloat (x : float).

(** [float(z)] for an int, as the mixed arithmetic operators convert
    their int operand. *)
Definition float_of_int (z : Z) : result float :=
  let x := of_int z in
  if is_finite x then Ok x
  else Raise (OverflowError "int too large to convert to float").

(** [a / b] on two ints: true division, correctly rounded. *)
Definition int_truediv (a b : Z) : result float :=
  if b =? 0 then Raise (ZeroDivisionError "division by zero")
  else
    let x := div_int a b in
    if is_finite x then Ok x
    else Raise (OverflowError "integer division result too large for a float").

(** [x - z] and [x * z] on a float and an int. *)
Definition float_sub_int (x : float) (z : Z) : result float :=
  y ← float_of_int z; Ok (sub x y).

Definition float_mul_int (x : float) (z : Z) : result float :=
  y ← float_of_int z; Ok (mul x y).

(** [n * z] on a number and an int. *)
Definition num_mul_int (n : num) (z : Z) : result num :=
  match n with
  | PInt a => Ok (PInt (a * z))
  | PFloat x => y ← float_mul_int x z; Ok (PFloat y)
  end.

(** [max(z, x)] on an int and a float: the first argument unless the
    second is strictly greater; the result keeps its own type. *)
Definition max_int_float (z : Z) (x : float) : num :=
  if gt_int x z then PFloat x else PInt z.

(** [round(n)] with one argument: an int is returned as it is, a float
    is rounded half to even to an int. *)
Definition round (n : num) : result Z :=
  match n with
  | PInt z => Ok z
  | PFloat S754_nan => Raise (ValueError "cannot convert float NaN to integer")
  | PFloat (S754_infinity _) =>
      Raise (OverflowError "cannot convert float infinity to integer")
  | PFloat x => Ok (round_half_even x)
  end.

(** [int(x)] on a float: truncation toward zero. *)
Definition int (x : float) : result Z :=
  match x with
  | S754_nan => Raise (ValueError "cannot convert float NaN to integer")
  | S754_infinity _ =>
      Raise (OverflowError "cannot convert float infinity to integer")
  | _ => Ok (trunc x)
  end.

(** [str(z)] on an int. *)
Definition str_int (z : Z) : string := pretty z.

(** [f"{x:.6f}"] on a float: six decimals, correctly rounded. *)
Definition pad6 (n : Z) : string := String.substring 1 6 (pretty (1000000 + n)).

Definition format_6f (x : float) : string :=
  match x with
  | S754_nan => "nan"
  | S754_infinity s => if s then "-inf" else "inf"
  | S754_zero s => (if s then "-" else "") +:+ "0.000000"
  | S754_finite s m e =>
      let n := if 0 <=? e then Zpos m * 2 ^ e * 1000000
               else div_half_even (Zpos m * 1000000) (2 ^ (- e)) in
      (if s then "-" else "")
        +:+ pretty (n / 1000000) +:+ "." +:+ pad6 (n mod 1000000)
  end.

End Py.

Import Py.

(** ** [create_group_booking.py]: the fare *)

Definition calculate_fare (distance_meters passenger_count : Z) : result Z :=
  (* Convert to kilometers *)
  distance_km ← int_truediv distance_meters 1000;
  (* Base calculation *)
  let base_fare := 25 in
  over ← float_sub_int distance_km 1;
  let additional_km := max_int_float 0 over in
  per_km ← num_mul_int additional_km 8;
  additional_fare ← round per_km;
  (* Additional passenger fare *)
  let additional_passenger_fare := (passenger_count - 1) * 10 in
  let total_fare := base_fare + additional_fare + additional_passenger_fare in
  round (PInt total_fare).

(** ** Documents of the store *)

Module Firestore.

(** A field value as [DocumentSnapshot.to_dict] returns it: null, boolean,
    integer, double, string, timestamp, array or map. (Bytes, geo points
    and document references do not occur in the documents of these
    scripts and are left out.) *)
#[warnings="-register-all"] Inductive value : Type :=
| VNone
| VBool (b : bool)
| VInt (z : Z)
| VFloat (x : float)
| VStr (s : string)
| VTimestamp (seconds : Z)
| VList (l : list value)
| VDict (d : gmap string value).

Abbreviation dict := (gmap string value).

(** [bool(v)] *)
Definition truthy (v : value) : bool :=
  match v with
  | VNone => false
  | VBool b => b
  | VInt z => negb (z =? 0)
  | VFloat (S754_zero _) => false
  | VFloat _ => true
  | VStr s => negb (String.eqb s "")
  | VTimestamp _ => true
  | VList l => match l with [] => false | _ :: _ => true end
  | VDict d => negb (Nat.eqb (size d) 0)
  end.

(** [type(v).__name__] *)
Definition type_name (v : value) : string :=
  match v with
  | VNone => "NoneType"
  | VBool _ => "bool"
  | VInt _ => "int"
  | VFloat _ => "float"
  | VStr _ => "str"
  | VTimestamp _ => "DatetimeWithNanoseconds"
  | VList _ => "list"
  | VDict _ => "dict"
  end.

(** [v.get(key, dflt)]: only a dict has the method. *)
Definition get (v : value) (key : string) (dflt : value) : result value :=
  match v with
  | VDict d => Ok (default dflt (d !! key))
  | _ => Raise (AttributeError
                  ("'" +:+ type_name v +:+ "' object has no attribute 'get'"))
  end.

(** The sentinel [firestore.SERVER_TIMESTAMP]. *)
Inductive sentinel : Type := SERVER_TIMESTAMP.

End Firestore.

Import Firestore.

(** ** The world of the scripts: store, random generator, identifiers *)

Record PickupLocation : Type := {
  pickup_latitude : float;
  pickup_longitude : float;
  pickup_name : string;
  geohash : string
}.

Record DropoffLocation : Type := {
  dropoff_latitude : float;
  dropoff_longitude : float;
  dropoff_name : string
}.

Record GuardianNotification : Type := {
  guardian_name : value;
  guardian_phoneNumber : value;
  relationship : value;
  notified : bool
}.

(** The booking document. [passengerCount] and [isGroupBooking] are keys of
    group bookings only; [driverId] is always written, as [None];
    [guardianNotification] is a key added after the literal, or absent. *)
Record Booking : Type := {
  id : string;
  passengerId : string;
  passengerName : value;
  passengerPhone : value;
  passengerCount : option Z;
  pickupLocation : PickupLocation;
  dropoffLocation : DropoffLocation;
  status : string;
  dateTime : sentinel;
  estimatedDistance : Z;
  estimatedDuration : Z;
  estimatedFare : Z;
  isGroupBooking : option bool;
  driverId : option string;
  createdAt : sentinel;
  updatedAt : sentinel;
  guardianNotification : option GuardianNotification
}.

(** [passengers] and [bookings] are the two collections; [entropy] with its
    cursor [drawn] is the state of the [random] module; [uuids] with its
    cursor [generated] is the source of [uuid.uuid4]. *)
Record World : Type := {
  passengers : gmap string dict;
  bookings : gmap string Booking;
  entropy : nat -> Z;
  drawn : nat;
  uuids : nat -> string;
  generated : nat
}.

(** Computations of the scripts: they read and write the world and may
    raise; what was written before an exception stays written. *)
Definition M (A : Type) : Type := World -> result A * World.

#[global] Instance M_ret : MRet M := fun _ a w => (Ok a, w).
#[global] Instance M_bind : MBind M := fun _ _ f m w =>
  match m w with
  | (Ok a, w') => f a w'
  | (Raise e, w') => (Raise e, w')
  end.

Definition lift {A : Type} (r : result A) : M A := fun w => (r, w).

(** The number of slashes of a key. *)
Fixpoint slashes (key : string) : nat :=
  match key with
  | EmptyString => 0%nat
  | String c rest =>
      ((if Ascii.eqb c "/"%char then 1 else 0) + slashes rest)%nat
  end.

(** [collection.document(key)], as the client library builds the
    reference: the path of the collection and the key are joined and split
    at the slashes, and the path of a document has an even number of
    elements. A key with an odd number of slashes is refused with a
    [ValueError], before any request is made. *)
Definition document (key : string) : result string :=
  if Nat.even (slashes key) then Ok key
  else Raise (ValueError
                "A document must have an even number of path elements").

(** [db.collection('passengers').document(key).get()]: [None] when the
    snapshot does not exist, its [to_dict()] otherwise. [passengers] holds
    the documents by their path below the collection, so a key that is
    found is the path of a document; for a key that is not found, the
    check of the path decides between the [ValueError] and a snapshot that
    does not exist. A path with an empty element, which the client lets
    through to the server, reads here as a snapshot that does not exist. *)
Definition get_passenger (key : string) : M (option dict) :=
  fun w =>
    match passengers w !! key with
    | Some passenger_data => (Ok (Some passenger_data), w)
    | None => (_ ← document key; Ok None, w)
    end.

(** [db.collection('bookings').document(key).set(data)] *)
Definition set_booking (key : string) (data : Booking) : M unit :=
  fun w => (Ok tt,
            {| passengers := passengers w;
               bookings := <[key := data]> (bookings w);
               entropy := entropy w; drawn := drawn w;
               uuids := uuids w; generated := generated w |}).

(** [random.randint(a, b)]: an integer [N] with [a <= N <= b], taken from
    the next raw draw of the generator. *)
Definition randint (a b : Z) : M Z :=
  fun w => (Ok (a + entropy w (drawn w) mod (b - a + 1)),
            {| passengers := passengers w; bookings := bookings w;
               entropy := entropy w; drawn := S (drawn w);
               uuids := uuids w; generated := generated w |}).

(** [str(uuid.uuid4())] *)
Definition uuid4_str : M string :=
  fun w => (Ok (uuids w (generated w)),
            {| passengers := passengers w; bookings := bookings w;
               entropy := entropy w; drawn := drawn w;
               uuids := uuids w; generated := S (generated w) |}).

(** The dict a script returns: [{'success': True, 'bookingId': ...,
    'message': ...}] (a group booking adds ['passengerCount'] and
    ['estimatedFare']) or [{'success': False, 'error': ...}]. *)
Inductive response : Type :=
| Success (bookingId : string) (passengerCount : option Z)
          (estimatedFare : option Z) (message : string)
| Failure (error : string).

Definition success (r : response) : bool :=
  match r with
  | Success _ _ _ _ => true
  | Failure _ => false
  end.

(** The console: what [print(text)] does. The stream takes the line, or
    the call raises (the stream is closed, or its encoding has no code for
    a character of the line). A text is the sequence of its UTF-8 bytes. *)
Definition Console : Type := string -> option exn.

Definition print (console : Console) (text : string) : M unit :=
  fun w => (match console text with None => Ok tt | Some e => Raise e end, w).

(** A console that takes every line. *)
Definition accepting : Console := fun _ => None.

(** [try: body except Exception as e: print(f"{prefix}{str(e)}"); return
    {'success': False, 'error': str(e)}], [failure] building the dict. An
    exception of the handler's own [print] leaves the function. *)
Definition try_except {R : Type} (console : Console) (prefix : string)
    (failure : string -> R) (body : M R) : M R :=
  fun w =>
    match body w with
    | (Ok r, w') => (Ok r, w')
    | (Raise e, w') =>
        (print console (prefix +:+ str_exn e);;
         mret (failure (str_exn e))) w'
    end.

(** The dict a call returns. No exception leaves a call on the accepting
    console, where the second case is never taken. *)
Definition returned {R : Type} (failure : string -> R) (call : M R)
  : World -> R * World :=
  fun w =>
    match call w with
    | (Ok r, w') => (r, w')
    | (Raise e, w') => (failure (str_exn e), w')
    end.

(** ** Pieces shared by the two scripts *)

(** [int(x * 1000)]: one component of the bucket key. *)
Definition key_component (x : float) : result Z :=
  y ← float_mul_int x 1000; int y.

(** [f"{int(pickup_lat * 1000)}-{int(pickup_lng * 1000)}"] *)
Definition simplified_geohash (pickup_lat pickup_lng : float) : result string :=
  a ← key_component pickup_lat;
  b ← key_component pickup_lng;
  Ok (str_int a +:+ "-" +:+ str_int b).

(** The [if 'guardian' in passenger_data and
    passenger_data['guardian'].get('phoneNumber'):] block: the sub-record
    to add, if any. *)
Definition guardian_block (passenger_data : dict)
  : result (option GuardianNotification) :=
  match passenger_data !! "guardian" with
  | None => Ok None
  | Some guardian =>
      phone ← get guardian "phoneNumber" VNone;
      if truthy phone then
        name ← get guardian "name" (VStr "Guardian");
        phoneNumber ← get guardian "phoneNumber" VNone;
        rel ← get guardian "relationship" (VStr "Guardian");
        Ok (Some {| guardian_name := name;
                    guardian_phoneNumber := phoneNumber;
                    relationship := rel;
                    notified := false |})
      else Ok None
  end.

Definition with_guardian (b : Booking) (g : option GuardianNotification)
  : Booking :=
  {| id := id b; passengerId := passengerId b;
     passengerName := passengerName b; passengerPhone := passengerPhone b;
     passengerCount := passengerCount b;
     pickupLocation := pickupLocation b;
     dropoffLocation := dropoffLocation b;
     status := status b; dateTime := dateTime b;
     estimatedDistance := estimatedDistance b;
     estimatedDuration := estimatedDuration b;
     estimatedFare := estimatedFare b;
     isGroupBooking := isGroupBooking b;
     driverId := driverId b;
     createdAt := createdAt b; updatedAt := updatedAt b;
     guardianNotification := g |}.

(** ** [create_booking.py] *)

Definition create_booking_on (console : Console) (passenger_id : string)
    (pickup_lat pickup_lng dropoff_lat dropoff_lng : float)
  : M response :=
  try_except console "Error creating booking: " Failure (
    (* Verify passenger exists *)
    passenger ← get_passenger passenger_id;
    match passenger with
    | None =>
        mret (Failure ("Passenger with ID " +:+ passenger_id
                         +:+ " does not exist"))
    | Some passenger_data =>
        (* Generate a unique ID for the booking *)
        booking_id ← uuid4_str;
        (* Generate a geohash for the pickup location (simplified version) *)
        geohash ← lift (simplified_geohash pickup_lat pickup_lng);
        (* Create booking document *)
        distance ← randint 1000 5000;
        duration ← randint 300 1200;
        fare ← randint 25 100;
        let booking_data :=
          {| id := booking_id;
             passengerId := passenger_id;
             passengerName :=
               default (VStr "Unknown Passenger") (passenger_data !! "name");
             passengerPhone :=
               default (VStr "Unknown") (passenger_data !! "phoneNumber");
             passengerCount := None;
             pickupLocation :=
               {| pickup_latitude := pickup_lat;
                  pickup_longitude := pickup_lng;
                  pickup_name := "Pickup at " +:+ format_6f pickup_lat
                                   +:+ ", " +:+ format_6f pickup_lng;
                  geohash := geohash |};
             dropoffLocation :=
               {| dropoff_latitude := dropoff_lat;
                  dropoff_longitude := dropoff_lng;
                  dropoff_name := "Dropoff at " +:+ format_6f dropoff_lat
                                    +:+ ", " +:+ format_6f dropoff_lng |};
             status := "pending";
             dateTime := SERVER_TIMESTAMP;
             estimatedDistance := distance;
             estimatedDuration := duration;
             estimatedFare := fare;
             isGroupBooking := None;
             driverId := None;
             createdAt := SERVER_TIMESTAMP;
             updatedAt := SERVER_TIMESTAMP;
             guardianNotification := None |} in
        (* Add guardian notification info if available *)
        g ← lift (guardian_block passenger_data);
        let booking_data := with_guardian booking_data g in
        (* Create booking document *)
        set_booking booking_id booking_data;;
        print console ("Created booking with ID: " +:+ booking_id);;
        mret (Success booking_id None None "Booking created successfully")
    end).

(** [create_booking] on a console that takes every line. *)
Definition create_booking (passenger_id : string)
    (pickup_lat pickup_lng dropoff_lat dropoff_lng : float)
  : World -> response * World :=
  returned Failure
    (create_booking_on accepting passenger_id pickup_lat pickup_lng
       dropoff_lat dropoff_lng).

(** ** [create_group_booking.py] *)

(** The three characters before the fare in the last line the script
    prints, as the source file has them: U+00E2, U+201A and U+00B1. *)
Definition fare_sign : string :=
  String "195" (String "162" (String "226" (String "128"
    (String "154" (String "194" (String "177" EmptyString)))))).

Definition create_group_booking_on (console : Console) (passenger_id : string)
    (pickup_lat pickup_lng dropoff_lat dropoff_lng : float)
    (passenger_count : Z)
  : M response :=
  try_except console "Error creating group booking: " Failure (
    (* Validate passenger count *)
    if negb ((passenger_count =? 2) || (passenger_count =? 3)) then
      mret (Failure "Passenger count must be 2 or 3")
    else
    (* Verify passenger exists *)
    passenger ← get_passenger passenger_id;
    match passenger with
    | None =>
        mret (Failure ("Passenger with ID " +:+ passenger_id
                         +:+ " does not exist"))
    | Some passenger_data =>
        (* Generate booking ID *)
        booking_id ← uuid4_str;
        (* Generate simplified geohash *)
        geohash ← lift (simplified_geohash pickup_lat pickup_lng);
        (* Generate random distance (1-5 km in meters) *)
        estimated_distance ← randint 1000 5000;
        (* Calculate fare based on distance and passenger count *)
        estimated_fare ← lift (calculate_fare estimated_distance passenger_count);
        (* Create booking document *)
        duration ← randint 300 1200;
        let booking_data :=
          {| id := booking_id;
             passengerId := passenger_id;
             passengerName :=
               default (VStr "Unknown Passenger") (passenger_data !! "name");
             passengerPhone :=
               default (VStr "Unknown") (passenger_data !! "phoneNumber");
             passengerCount := Some passenger_count;
             pickupLocation :=
               {| pickup_latitude := pickup_lat;
                  pickup_longitude := pickup_lng;
                  pickup_name := "Pickup at " +:+ format_6f pickup_lat
                                   +:+ ", " +:+ format_6f pickup_lng;
                  geohash := geohash |};
             dropoffLocation :=
               {| dropoff_latitude := dropoff_lat;
                  dropoff_longitude := dropoff_lng;
                  dropoff_name := "Dropoff at " +:+ format_6f dropoff_lat
                                    +:+ ", " +:+ format_6f dropoff_lng |};
             status := "pending";
             dateTime := SERVER_TIMESTAMP;
             estimatedDistance := estimated_distance;
             estimatedDuration := duration;
             estimatedFare := estimated_fare;
             isGroupBooking := Some true;
             driverId := None;
             createdAt := SERVER_TIMESTAMP;
             updatedAt := SERVER_TIMESTAMP;
             guardianNotification := None |} in
        (* Add guardian notification info if available *)
        g ← lift (guardian_block passenger_data);
        let booking_data := with_guardian booking_data g in
        (* Create booking document *)
        set_booking booking_id booking_data;;
        print console ("Created group booking with ID: " +:+ booking_id);;
        print console ("Passenger count: " +:+ str_int passenger_count);;
        print console ("Estimated fare: " +:+ fare_sign
                         +:+ str_int estimated_fare);;
        mret (Success booking_id (Some passenger_count) (Some estimated_fare)
                "Group booking created successfully")
    end).

(** [create_group_booking] on a console that takes every line. *)
Definition create_group_booking (passenger_id : string)
    (pickup_lat pickup_lng dropoff_lat dropoff_lng : float)
    (passenger_count : Z)
  : World -> response * World :=
  returned Failure
    (create_group_booking_on accepting passenger_id pickup_lat pickup_lng
       dropoff_lat dropoff_lng passenger_count).

(** ** Vocabulary of the properties *)

(** *** Numbers *)

(** The exact value of a number. *)
Definition num_value (n : num) : Q :=
  match n with
  | PInt z => inject_Z z
  | PFloat x => to_Q x
  end.

(** [n] is the rounding of [q] to the nearest integer, a tie going to the
    even one. *)
Definition is_round_half_even (q : Q) (n : Z) : Prop :=
  (Qabs (inject_Z n - q) <= 1 # 2)%Q /\
  ((Qabs (inject_Z n - q) == 1 # 2)%Q -> Z.even n = true).

(** [n] is [q] truncated toward zero. *)
Definition is_trunc (q : Q) (n : Z) : Prop :=
  ((0 <= q)%Q -> (inject_Z n <= q)%Q /\ (q < inject_Z n + 1)%Q) /\
  ((q <= 0)%Q -> (inject_Z n - 1 < q)%Q /\ (q <= inject_Z n)%Q).

(** *** The fare *)

(** [max(0, distance_meters / 1000 - 1) * 8]: the per-km term, before it is
    rounded. *)
Definition per_km_term (distance_meters : Z) : result num :=
  distance_km ← int_truediv distance_meters 1000;
  over ← float_sub_int distance_km 1;
  num_mul_int (max_int_float 0 over) 8.

(** [round(max(0, distance_meters / 1000 - 1) * 8)] *)
Definition additional_fare (distance_meters : Z) : result Z :=
  x ← per_km_term distance_meters; round x.

(** The fare as the specification writes it, in one expression:
    [round(25 + round(max(0, d / 1000 - 1) * 8) + (p - 1) * 10)]. *)
Definition fare_formula (d p : Z) : result Z :=
  n ← additional_fare d; round (PInt (25 + n + (p - 1) * 10)).

(** The same fare in exact integer arithmetic: no binary64 in between. *)
Definition fare_exact (d p : Z) : Z :=
  25 + div_half_even (Z.max 0 (d - 1000) * 8) 1000 + (p - 1) * 10.

Fixpoint forall_range (f : Z -> bool) (lo : Z) (n : nat) : bool :=
  match n with
  | O => true
  | S n' => f lo && forall_range f (lo + 1) n'
  end.

Definition result_eqb (r : result Z) (z : Z) : bool :=
  match r with
  | Ok v => v =? z
  | Raise _ => false
  end.

(** *** Runs of the two scripts *)

(** The world after [draws] more random draws and [ids] more identifiers. *)
Definition advance (draws ids : nat) (w : World) : World :=
  {| passengers := passengers w; bookings := bookings w;
     entropy := entropy w; drawn := draws + drawn w;
     uuids := uuids w; generated := ids + generated w |}.

(** The world after [data] was written under [key]. *)
Definition store (key : string) (data : Booking) (w : World) : World :=
  {| passengers := passengers w;
     bookings := <[key := data]> (bookings w);
     entropy := entropy w; drawn := drawn w;
     uuids := uuids w; generated := generated w |}.

(** The [k]-th next value of [random.randint(a, b)]. *)
Definition next_randint (w : World) (k : nat) (a b : Z) : Z :=
  a + entropy w (k + drawn w) mod (b - a + 1).

(** The document of a run that reaches [set]: [group] is [None] for
    [create_booking], the passenger count and the fare for
    [create_group_booking]. *)
Definition booking_document (w : World) (passenger_id : string)
    (pickup_lat pickup_lng dropoff_lat dropoff_lng : float)
    (passenger_data : dict) (key : string)
    (group : option (Z * Z)) (g : option GuardianNotification) : Booking :=
  {| id := uuids w (generated w);
     passengerId := passenger_id;
     passengerName :=
       default (VStr "Unknown Passenger") (passenger_data !! "name");
     passengerPhone :=
       default (VStr "Unknown") (passenger_data !! "phoneNumber");
     passengerCount := fst <$> group;
     pickupLocation :=
       {| pickup_latitude := pickup_lat;
          pickup_longitude := pickup_lng;
          pickup_name := "Pickup at " +:+ format_6f pickup_lat
                           +:+ ", " +:+ format_6f pickup_lng;
          geohash := key |};
     dropoffLocation :=
       {| dropoff_latitude := dropoff_lat;
          dropoff_longitude := dropoff_lng;
          dropoff_name := "Dropoff at " +:+ format_6f dropoff_lat
                            +:+ ", " +:+ format_6f dropoff_lng |};
     status := "pending";
     dateTime := SERVER_TIMESTAMP;
     estimatedDistance := next_randint w 0 1000 5000;
     estimatedDuration := next_randint w 1 300 1200;
     estimatedFare :=
       match group with
       | None => next_randint w 2 25 100
       | Some (_, fare) => fare
       end;
     isGroupBooking := match group with None => None | Some _ => Some true end;
     driverId := None;
     createdAt := SERVER_TIMESTAMP;
     updatedAt := SERVER_TIMESTAMP;
     guardianNotification := g |}.

Definition not_found (passenger_id : string) : response :=
  Failure ("Passenger with ID " +:+ passenger_id +:+ " does not exist").

(** The error of a run for a passenger identifier that has no document:
    the client's, when the identifier is not the path of a document, and
    the script's own otherwise. *)
Definition absent_message (passenger_id : string) : string :=
  match document passenger_id with
  | Ok _ => "Passenger with ID " +:+ passenger_id +:+ " does not exist"
  | Raise e => str_exn e
  end.

(** [key] is the identifier of a document, as the store accepts them: not
    empty, without a slash, not [.] nor [..], not of the form [__.*__], and
    of at most 1500 bytes. *)
Definition document_id (key : string) : bool :=
  negb (String.eqb key "")
  && Nat.eqb (slashes key) 0
  && negb (String.eqb key ".")
  && negb (String.eqb key "..")
  && negb (Nat.leb 4 (String.length key)
           && String.prefix "__" key
           && String.prefix "__" (String.rev key))
  && Nat.leb (String.length key) 1500.

(** The exception of the client for a key that is not the path of a
    document. *)
Definition bad_path : exn :=
  ValueError "A document must have an even number of path elements".

(** What the handler of a script does with the exception [e]: it prints
    the line of the error and returns the failure, unless the console
    refuses that line too. *)
Definition handled {R : Type} (console : Console) (prefix : string)
    (failure : string -> R) (e : exn) : result R :=
  match console (prefix +:+ str_exn e) with
  | None => Ok (failure (str_exn e))
  | Some e' => Raise e'
  end.

(** The exception of the first line of [lines] the console refuses. *)
Fixpoint refusal (console : Console) (lines : list string) : option exn :=
  match lines with
  | [] => None
  | line :: rest =>
      match console line with
      | Some e => Some e
      | None => refusal console rest
      end
  end.

(** The lines a script prints once the booking is written. *)
Definition booking_lines (booking_id : string) : list string :=
  ["Created booking with ID: " +:+ booking_id].

Definition group_booking_lines (booking_id : string)
    (passenger_count estimated_fare : Z) : list string :=
  ["Created group booking with ID: " +:+ booking_id;
   "Passenger count: " +:+ str_int passenger_count;
   "Estimated fare: " +:+ fare_sign +:+ str_int estimated_fare].

(** The call returned, and returned a success. *)
Definition succeeded (r : result response) : bool :=
  match r with
  | Ok r => success r
  | Raise _ => false
  end.

(** The message of the passenger-count validation. *)
Definition count_message : string := "Passenger count must be 2 or 3".

Definition valid_count (passenger_count : Z) : bool :=
  (passenger_count =? 2) || (passenger_count =? 3).

(** [b] is the document a run from [w] stored under the identifier its
    successful response returns. *)
Definition created (run : World -> response * World) (w : World) (b : Booking)
  : Prop :=
  exists key count fare msg,
    fst (run w) = Success key count fare msg /\
    bookings (snd (run w)) !! key = Some b.

(** The passenger record has a ['guardian'] entry whose [phoneNumber] is
    present and truthy. *)
Definition has_guardian_phone (passenger_data : dict) : Prop :=
  exists guardian phone,
    passenger_data !! "guardian" = Some (VDict guardian) /\
    guardian !! "phoneNumber" = Some phone /\
    truthy phone = true.

(** *** The bucket key *)

(** The cell of a coordinate, in the words of the specification: the
    coordinate cut to three decimals, that is the whole part of its exact
    product by 1000 (the part toward zero). *)
Definition cell (x : float) : Z :=
  let q := (1000 * to_Q x)%Q in
  if Qle_bool 0 q then Qfloor q else Qceiling q.

(** Two pickups are in the same cell of 0.001 degree. *)
Definition same_cell (lat1 lng1 lat2 lng2 : float) : Prop :=
  cell lat1 = cell lat2 /\ cell lng1 = cell lng2.

(** A coordinate of real-world size: a finite double of at most 1000000
    in absolute value. *)
Definition coordinate (x : float) : Prop :=
  is_double x = true /\ is_finite x = true /\
  (Qabs (to_Q x) <= 1000000)%Q.

Fixpoint no_dash (s : string) : bool :=
  match s with
  | EmptyString => true
  | String c s' => negb (Ascii.eqb c "-"%char) && no_dash s'
  end.

(** *** A world and coordinates to run the scripts on *)

(** A small world to run the scripts in: one passenger with a guardian, one
    without. *)
Definition demo_world : World :=
  {| passengers :=
       {[ "p1" := {[ "name" := VStr "Test Passenger";
                     "phoneNumber" := VStr "09670575500";
                     "guardian" :=
                       VDict {[ "name" := VStr "Test Guardian";
                                "relationship" := VStr "Parent";
                                "phoneNumber" := VStr "09670575500" ]} ]};
          "p2" := {[ "name" := VStr "Solo Passenger" ]} ]};
     bookings := ∅;
     entropy := fun n => 7919 * Z.of_nat n + 12345;
     drawn := 0;
     uuids := fun n => "booking-" +:+ pretty n;
     generated := 0 |}.

(** Pickups of the examples: (14.1234, 121.5678), (14.1239, 121.5671) and
    (14.1250, 121.5678); a dropoff at (14.2, 121.6). *)
Definition lat_14_1234 : float := of_decimal 141234 4.
Definition lng_121_5678 : float := of_decimal 1215678 4.
Definition lat_14_1239 : float := of_decimal 141239 4.
Definition lng_121_5671 : float := of_decimal 1215671 4.
Definition lat_14_1250 : float := of_decimal 141250 4.
Definition lat_14_2 : float := of_decimal 142 1.

(** A console whose encoding is ASCII: it refuses a line with a byte
    above 127. *)
Fixpoint is_ascii (text : string) : bool :=
  match text with
  | EmptyString => true
  | String c rest => (nat_of_ascii c <? 128)%nat && is_ascii rest
  end.

Definition ascii_console : Console :=
  fun text =>
    if is_ascii text then None
    else Some (ValueError "ordinal not in range(128)").

(** Two latitudes of one cell, [14.122 <= x < 14.123]: the doubles nearest
    to 14.123, which is below it, and to 14.1225. *)
Definition lat_14_123 : float := of_decimal 14123 3.
Definition lat_14_1225 : float := of_decimal 141225 4.
Definition lng_121_6 : float := of_decimal 1216 1.

Definition demo_single_booking : Booking :=
  booking_document demo_world "p1" lat_14_1234 lng_121_5678 lat_14_2 lng_121_6
    {[ "name" := VStr "Test Passenger";
       "phoneNumber" := VStr "09670575500";
       "guardian" :=
         VDict {[ "name" := VStr "Test Guardian";
                  "relationship" := VStr "Parent";
                  "phoneNumber" := VStr "09670575500" ]} ]}
    "14123-121567" None
    (Some {| guardian_name := VStr "Test Guardian";
             guardian_phoneNumber := VStr "09670575500";
             relationship := VStr "Parent";
             notified := false |}).

(** ** [create_passenger.py] *)

(** The dict [create_passenger] returns: [{'success': True, 'passengerId':
    ..., 'message': ...}] or [{'success': False, 'error': ...}]. *)
Inductive passenger_response : Type :=
| PassengerCreated (passengerId : string) (message : string)
| PassengerFailure (error : string).

(** [db.collection('passengers').document(key).set(data)], [data] being
    the document as a later [to_dict()] returns it. *)
Definition set_passenger (key : string) (data : dict) : M unit :=
  fun w => (Ok tt,
            {| passengers := <[key := data]> (passengers w);
               bookings := bookings w;
               entropy := entropy w; drawn := drawn w;
               uuids := uuids w; generated := generated w |}).

(** The guardian every test passenger gets. *)
Definition test_guardian : dict :=
  {[ "name" := VStr "Test Guardian";
     "relationship" := VStr "Parent";
     "phoneNumber" := VStr "09670575500" ]}.

(** The passenger document; [datetime(1990, 1, 1, tzinfo=timezone.utc)] is
    631152000 seconds after the epoch, and the server puts its own time,
    [server_time], where the script writes [SERVER_TIMESTAMP]. *)
Definition passenger_document (server_time : Z)
    (passenger_id phone_number : string) : dict :=
  {[ "id" := VStr passenger_id;
     "name" := VStr "Test Passenger";
     "email" := VNone;
     "phoneNumber" := VStr phone_number;
     "sex" := VStr "Male";
     "dateOfBirth" := VTimestamp 631152000;
     "guardian" := VDict test_guardian;
     "createdAt" := VTimestamp server_time;
     "updatedAt" := VTimestamp server_time ]}.

Definition create_passenger_on (console : Console) (server_time : Z)
    (phone_number : string) : M passenger_response :=
  try_except console "Error creating passenger: " PassengerFailure (
    (* Generate a unique ID for the passenger *)
    passenger_id ← uuid4_str;
    (* Create passenger document *)
    let passenger_data :=
      passenger_document server_time passenger_id phone_number in
    set_passenger passenger_id passenger_data;;
    print console ("Created passenger account with ID: " +:+ passenger_id);;
    mret (PassengerCreated passenger_id
            "Passenger account created successfully")).

(** [create_passenger] on a console that takes every line. *)
Definition create_passenger (server_time : Z) (phone_number : string)
  : World -> passenger_response * World :=
  returned PassengerFailure
    (create_passenger_on accepting server_time phone_number).

(** The sub-record a booking of a test passenger carries. *)
Definition test_guardian_notification : GuardianNotification :=
  {| guardian_name := VStr "Test Guardian";
     guardian_phoneNumber := VStr "09670575500";
     relationship := VStr "Parent";
     notified := false |}.

(** ** [mapbox_search.py] *)

Module Mapbox.

(** An optional string argument inside an f-string: [None] prints as
    "None". *)
Definition str_optional (o : option string) : string := default "None" o.

(** [bool(x)] of an optional string. *)
Definition truthy_optional (o : option string) : bool :=
  match o with
  | Some s => negb (String.eqb s "")
  | None => false
  end.

Definition base_url : string :=
  "https://api.mapbox.com/search/searchbox/v1/suggest".

(** The URL [search_mapbox] requests. *)
Definition search_url (MAPBOX_ACCESS_TOKEN : option string)
    (query language : string) (proximity session_token : option string)
  : string :=
  let url := base_url +:+ "?q=" +:+ query +:+ "&language=" +:+ language
               +:+ "&access_token=" +:+ str_optional MAPBOX_ACCESS_TOKEN in
  let url := if truthy_optional proximity
             then url +:+ "&proximity=" +:+ str_optional proximity
             else url in
  if truthy_optional session_token
  then url +:+ "&session_token=" +:+ str_optional session_token
  else url.

(** The exceptions the body can raise that its [except] does not catch. *)
Inductive uncaught : Type :=
| AttributeError (msg : string)
| TypeError (msg : string).

Inductive res (A : Type) : Type :=
| Done (a : A)
| Raised (e : uncaught).
Arguments Done {A} a.
Arguments Raised {A} e.

#[global] Instance res_ret : MRet res := fun _ a => Done a.
#[global] Instance res_bind : MBind res := fun _ _ f r =>
  match r with
  | Done a => f a
  | Raised e => Raised e
  end.

(** What [requests.get(url)], [raise_for_status()] and [json()] give: a
    [RequestException], or the decoded body. *)
Inductive http_answer : Type :=
| RequestException (msg : string)
| Json (data : value).

Record place : Type := {
  name : value;
  full_address : value;
  place_formatted : value;
  mapbox_id : value
}.

(** [v.get(key, dflt)] on a decoded JSON value. *)
Definition get (v : value) (key : string) (dflt : value) : res value :=
  match v with
  | VDict d => Done (default dflt (d !! key))
  | _ => Raised (AttributeError
                   ("'" +:+ type_name v +:+ "' object has no attribute 'get'"))
  end.

(** The items [for suggestion in v] visits: the elements of a list, the
    keys of a dict, the characters of a string; the other values are not
    iterable. The keys come in the order of the map, not in the order of
    the JSON text: each is a [str], on which the first turn of the loop
    fails whatever the order. *)
Definition iterate (v : value) : res (list value) :=
  match v with
  | VList l => Done l
  | VDict d => Done ((fun kv => VStr (fst kv)) <$> map_to_list d)
  | VStr s => Done ((fun c => VStr (String c "")) <$> String.list_ascii_of_string s)
  | _ => Raised (TypeError
                   ("'" +:+ type_name v +:+ "' object is not iterable"))
  end.

(** [v] can be iterated over. *)
Definition iterable (v : value) : bool :=
  match v with
  | VList _ | VDict _ | VStr _ => true
  | _ => false
  end.

(** One turn of the loop: the [place_data] of a suggestion. *)
Definition place_of (suggestion : value) : res place :=
  n ← get suggestion "name" VNone;
  a ← get suggestion "full_address" VNone;
  f ← get suggestion "place_formatted" VNone;
  i ← get suggestion "mapbox_id" VNone;
  Done {| name := n; full_address := a; place_formatted := f; mapbox_id := i |}.

(** The loop [for suggestion in ...: places.append(place_data)]. *)
Fixpoint collect (suggestions : list value) : res (list place) :=
  match suggestions with
  | [] => Done []
  | suggestion :: rest =>
      place_data ← place_of suggestion;
      places ← collect rest;
      Done (place_data :: places)
  end.

(** [search_mapbox]: [Done None] is the [return None] of the handler,
    [Raised] an exception that leaves the function. *)
Definition search_mapbox (MAPBOX_ACCESS_TOKEN : option string)
    (http : string -> http_answer)
    (query language : string) (proximity session_token : option string)
  : res (option (list place)) :=
  let url := search_url MAPBOX_ACCESS_TOKEN query language
               proximity session_token in
  match http url with
  | RequestException _ => Done None
  | Json data =>
      suggestions ← get data "suggestions" (VList []);
      items ← iterate suggestions;
      places ← collect items;
      Done (Some places)
  end.

(** The place a well-formed suggestion gives. *)
Definition place_of_dict (d : dict) : place :=
  {| name := default VNone (d !! "name");
     full_address := default VNone (d !! "full_address");
     place_formatted := default VNone (d !! "place_formatted");
     mapbox_id := default VNone (d !! "mapbox_id") |}.

End Mapbox.

(** ** [create_verified_driver.py] *)

Module Driver.

(** [phone_number.startswith('+')] *)
Definition startswith_plus (phone_number : string) : bool :=
  match phone_number with
  | String "+" _ => true
  | _ => false
  end.

(** [if not phone_number.startswith('+'): phone_number = '+' + phone_number] *)
Definition e164 (phone_number : string) : string :=
  if negb (startswith_plus phone_number) then "+" +:+ phone_number
  else phone_number.

(** What [auth.get_user_by_phone_number] answers: the user's [uid],
    [UserNotFoundError], or another exception, kept as its [str(e)]. *)
Inductive lookup_answer : Type :=
| UserFound (uid : string)
| UserNotFoundError
| LookupRaises (msg : string).

(** What a call of the identity provider answers: a value, or an
    exception, kept as its [str(e)]. *)
Inductive answer (A : Type) : Type :=
| Answers (a : A)
| Raises (msg : string).
Arguments Answers {A} a.
Arguments Raises {A} msg.

(** The identity provider, as the script uses it: looking a user up by
    phone number, creating a user with a phone number and a display name,
    and setting the claims [{'role': 'driver', 'verified': True}] of a
    user. *)
Record Auth : Type := {
  get_user_by_phone_number : string -> lookup_answer;
  create_user : string -> string -> answer string;
  set_custom_user_claims : string -> answer unit
}.

(** The collections ['drivers'] and ['wallets']; a [set] on them is taken
    to succeed, as for the bookings. *)
Record Store : Type := {
  drivers : gmap string dict;
  wallets : gmap string dict
}.

(** The driver document as a later [to_dict()] returns it, the server
    having put [server_time] for [SERVER_TIMESTAMP]. *)
Definition driver_document (server_time : Z)
    (driver_id name phone_number : string) : dict :=
  <["id" := VStr driver_id]> (<["name" := VStr name]>
  {[ "profilePicture" := VNone;
     "email" := VNone;
     "sex" := VStr "Male";
     "dateOfBirth" := VTimestamp 631152000;
     "phoneNumber" := VStr phone_number;
     "plateNumber" := VStr "ABC123";
     "licenseNumber" := VStr "LIC123456";
     "permitDocument" := VNone;
     "isVerified" := VBool true;
     "permitVerified" := VBool true;
     "status" := VStr "offline";
     "createdAt" := VTimestamp server_time;
     "updatedAt" := VTimestamp server_time ]}).

(** The wallet document: a balance of [300.0]. *)
Definition wallet_document (server_time : Z) (driver_id : string) : dict :=
  {[ "driverId" := VStr driver_id;
     "balance" := VFloat (of_int 300);
     "createdAt" := VTimestamp server_time;
     "updatedAt" := VTimestamp server_time ]}.

(** The dict [create_verified_driver] returns. *)
Inductive response : Type :=
| DriverCreated (driverId phoneNumber message : string)
| DriverFailure (error : string).

Definition create_verified_driver (auth : Auth)
    (driver_time wallet_time : Z) (phone_number name : string)
  : Store -> response * Store :=
  fun s =>
    (* Format phone number to ensure it has the correct format *)
    let phone_number := e164 phone_number in
    (* First, create or get the Firebase Auth user with this phone number *)
    let user :=
      match get_user_by_phone_number auth phone_number with
      | UserFound uid => Answers uid
      | UserNotFoundError => create_user auth phone_number name
      | LookupRaises msg => Raises msg
      end in
    match user with
    | Raises msg => (DriverFailure msg, s)
    | Answers driver_id =>
        (* Create driver document with the same ID as the Auth UID *)
        let s :=
          {| drivers :=
               <[driver_id := driver_document driver_time driver_id name
                                phone_number]> (drivers s);
             wallets := wallets s |} in
        (* Create wallet document *)
        let s :=
          {| drivers := drivers s;
             wallets :=
               <[driver_id := wallet_document wallet_time driver_id]>
                 (wallets s) |} in
        (* Set custom claims for the user to identify as a driver *)
        match set_custom_user_claims auth driver_id with
        | Raises msg => (DriverFailure msg, s)
        | Answers _ =>
            (DriverCreated driver_id phone_number
               "Verified driver account and wallet created successfully", s)
        end
    end.

(** The [uid] the script works with, when the identity provider gives
    one. *)
Definition resolved_uid (auth : Auth) (phone_number name : string)
  : answer string :=
  match get_user_by_phone_number auth (e164 phone_number) with
  | UserFound uid => Answers uid
  | UserNotFoundError => create_user auth (e164 phone_number) name
  | LookupRaises msg => Raises msg
  end.

End Driver.

(** ** Vocabulary of the further properties *)

(** [int(x)] fails on this double with this message. *)
Definition nonfinite_message (x : float) : string :=
  match x with
  | S754_nan => "cannot convert float NaN to integer"
  | _ => "cannot convert float infinity to integer"
  end.

(** [isinstance(v, dict)] *)
Definition is_dict (v : value) : bool :=
  match v with
  | VDict _ => true
  | _ => false
  end.

Definition demo_nan_dropoff_booking : Booking :=
  booking_document demo_world "p2" lat_14_1234 lng_121_5678
    S754_nan (S754_infinity false)
    {[ "name" := VStr "Solo Passenger" ]} "14123-121567" None None.

(** A world whose passenger has a null guardian. *)
Definition demo_null_guardian_world : World :=
  {| passengers :=
       {[ "p3" := {[ "name" := VStr "Ward"; "guardian" := VNone ]} ]};
     bookings := ∅;
     entropy := fun n => 7919 * Z.of_nat n + 12345;
     drawn := 0;
     uuids := fun n => "booking-" +:+ pretty n;
     generated := 0 |}.

Definition demo_second_booking : Booking :=
  booking_document
    (snd (create_booking "p1" lat_14_1234 lng_121_5678 lat_14_2 lng_121_6
            demo_world))
    "p2" lat_14_1250 lng_121_5678 lat_14_2 lng_121_6
    {[ "name" := VStr "Solo Passenger" ]} "14125-121567" None None.

(** Two suggestions, the second without any of the four keys. *)
Definition demo_suggestions : list value :=
  [VDict {[ "name" := VStr "St. Paul"; "mapbox_id" := VStr "id-1" ]};
   VDict ∅].

(** A service that answers every request with [body]. *)
Definition demo_http (body : value) : string -> Mapbox.http_answer :=
  fun _ => Mapbox.Json body.

(** An identity provider that knows one phone number, creates a user for a
    second one, fails on the others, and refuses the claims of the known
    user. *)
Definition demo_auth : Driver.Auth :=
  {| Driver.get_user_by_phone_number := fun phone_number =>
       if String.eqb phone_number "+639170000001"
       then Driver.UserFound "uid-1"
       else if String.eqb phone_number "+639170000002"
            then Driver.UserNotFoundError
            else Driver.LookupRaises "invalid phone number";
     Driver.create_user := fun phone_number _ =>
       Driver.Answers ("uid-of-" +:+ phone_number);
     Driver.set_custom_user_claims := fun uid =>
       if String.eqb uid "uid-1" then Driver.Raises "claims refused"
       else Driver.Answers tt |}.

(** A store that holds a driver [uid-1] whose wallet is empty. *)
Definition demo_store : Driver.Store :=
  {| Driver.drivers := {[ "uid-1" := {[ "name" := VStr "Old Name" ]} ]};
     Driver.wallets :=
       {[ "uid-1" := {[ "balance" := VFloat (of_int 0) ]} ]} |}.

(** * Properties *)

(** ** Rounding and truncation of doubles *)

Lemma div_half_even_spec (n d : Z) :
  0 < d ->
  2 * Z.abs (div_half_even n d * d - n) <= d /\
  (2 * Z.abs (div_half_even n d * d - n) = d ->
   Z.even (div_half_even n d) = true).
Proof.
  intros Hd. unfold div_half_even.
  pose proof (Z.div_mod n d ltac:(lia)) as Hdm.
  pose proof (Z.mod_pos_bound n d Hd) as Hr.
  set (q := n / d) in *. set (r := n mod d) in *.
  destruct (Z.ltb_spec (2 * r) d) as [Hlt|Hge].
  - split; [nia|]. intros Habs. exfalso. nia.
  - destruct (Z.ltb_spec d (2 * r)) as [Hgt|Hle].
    + split; [nia|]. intros Habs. exfalso. nia.
    + assert (Hhalf : 2 * r = d) by lia.
      destruct (Z.even q) eqn:Hq.
      * split; [nia|]. intros _. exact Hq.
      * split; [nia|]. intros _.
        rewrite Z.even_add, Hq. reflexivity.
Qed.

Lemma is_round_half_even_int (z n : Z) :
  is_round_half_even (inject_Z z) n <-> n = z.
Proof.
  unfold is_round_half_even. split.
  - intros [Hle _]. revert Hle.
    unfold Qle, Qabs, Qminus, Qplus, Qopp, inject_Z. simpl. lia.
  - intros ->. split.
    + unfold Qle, Qabs, Qminus, Qplus, Qopp, inject_Z. simpl. lia.
    + unfold Qeq, Qabs, Qminus, Qplus, Qopp, inject_Z. simpl. lia.
Qed.

Lemma round_half_even_spec (x : float) :
  is_round_half_even (to_Q x) (round_half_even x).
Proof.
  destruct x as [s|s| |s m e]; try (apply is_round_half_even_int; reflexivity).
  unfold round_half_even, to_Q.
  destruct e as [|e|k].
  - apply is_round_half_even_int. destruct s; simpl; lia.
  - apply is_round_half_even_int. destruct s; simpl; lia.
  - change (0 <=? Z.neg k) with false. cbv iota.
    change (- Z.neg k) with (Z.pos k).
    assert (HD : 2 ^ Z.pos k = Z.pos (2 ^ k)) by (rewrite Pos2Z.inj_pow; reflexivity).
    rewrite HD.
    destruct (div_half_even_spec (Z.pos m) (Z.pos (2 ^ k)) ltac:(lia)) as [H1 H2].
    set (r := div_half_even (Z.pos m) (Z.pos (2 ^ k))) in *.
    unfold is_round_half_even, Qle, Qeq, Qabs, Qminus, Qplus, Qopp, inject_Z.
    cbn [Qnum Qden]. rewrite !Pos.mul_1_l.
    destruct s; cbn [cond_Zopp].
    + rewrite Z.even_opp. split; [lia|]. intros H. apply H2. lia.
    + split; [lia|]. intros H. apply H2. lia.
Qed.

Lemma round_spec (x : num) (n : Z) :
  round x = Ok n -> is_round_half_even (num_value x) n.
Proof.
  destruct x as [z|x]; cbn [round num_value].
  - intros [= ->]. apply is_round_half_even_int. reflexivity.
  - destruct x; intros [= <-]; apply round_half_even_spec.
Qed.

Lemma is_round_half_even_unique (q : Q) (n n' : Z) :
  is_round_half_even q n -> is_round_half_even q n' -> n = n'.
Proof.
  destruct q as [a b]. unfold is_round_half_even.
  unfold Qle, Qeq, Qabs, Qminus, Qplus, Qopp, inject_Z. cbn [Qnum Qden].
  rewrite !Pos.mul_1_l, !Z.mul_1_l, !Z.mul_1_r.
  intros [H1 E1] [H2 E2].
  assert (Hd : n = n' \/ n' = n + 1 \/ n = n' + 1) by nia.
  destruct Hd as [Hd|[Hd|Hd]]; [exact Hd| |]; exfalso; subst.
  - assert (Ha : Z.abs (n * Z.pos b + - a) * 2 = Z.pos b) by nia.
    assert (Hb : Z.abs ((n + 1) * Z.pos b + - a) * 2 = Z.pos b) by nia.
    specialize (E1 Ha). specialize (E2 Hb).
    rewrite Z.even_add, E1 in E2. discriminate.
  - assert (Ha : Z.abs (n' * Z.pos b + - a) * 2 = Z.pos b) by nia.
    assert (Hb : Z.abs ((n' + 1) * Z.pos b + - a) * 2 = Z.pos b) by nia.
    specialize (E1 Hb). specialize (E2 Ha).
    rewrite Z.even_add, E2 in E1. discriminate.
Qed.

(** ** The fare *)

Lemma float_of_int_1 :
  float_of_int 1 = Ok (S754_finite false 4503599627370496 (-52)).
Proof. reflexivity. Qed.

Lemma float_of_int_8 :
  float_of_int 8 = Ok (S754_finite false 4503599627370496 (-49)).
Proof. reflexivity. Qed.

Lemma float_of_int_1000 :
  float_of_int 1000 = Ok (S754_finite false 8796093022208000 (-43)).
Proof. reflexivity. Qed.

Lemma calculate_fare_split (d p : Z) :
  calculate_fare d p = (n ← additional_fare d; Ok (25 + n + (p - 1) * 10)).
Proof.
  unfold calculate_fare, additional_fare, per_km_term.
  destruct (int_truediv d 1000) as [km|e]; [|reflexivity]. cbn [mbind result_bind].
  destruct (float_sub_int km 1) as [over|e]; [|reflexivity]. cbn [mbind result_bind].
  destruct (num_mul_int (max_int_float 0 over) 8) as [x|e]; [|reflexivity].
  cbn [mbind result_bind].
  destruct (round x) as [n|e]; reflexivity.
Qed.

Lemma forall_range_spec (f : Z -> bool) (n : nat) :
  forall lo, forall_range f lo n = true ->
  forall z, lo <= z < lo + Z.of_nat n -> f z = true.
Proof.
  induction n as [|n IH]; intros lo H z Hz; [lia|].
  cbn [forall_range] in H. apply andb_prop in H as [H0 H1].
  destruct (Z.eq_dec z lo) as [->|Hne]; [exact H0|].
  apply (IH (lo + 1) H1). lia.
Qed.

Lemma result_eqb_spec (r : result Z) (z : Z) : result_eqb r z = true -> r = Ok z.
Proof.
  destruct r as [v|e]; cbn; [|discriminate].
  intros H. apply Z.eqb_eq in H. congruence.
Qed.

(** Up to ten kilometres the binary64 computation and exact arithmetic give
    the same per-km term. *)
Lemma additional_fare_exact (d : Z) :
  0 <= d <= 10000 ->
  additional_fare d = Ok (div_half_even (Z.max 0 (d - 1000) * 8) 1000).
Proof.
  intros Hd. apply result_eqb_spec.
  apply (forall_range_spec
           (fun d => result_eqb (additional_fare d)
                       (div_half_even (Z.max 0 (d - 1000) * 8) 1000))
           (Z.to_nat 10001) 0); [vm_compute; reflexivity | lia].
Qed.

Lemma binary_round_aux_sign (s : bool) (m e : Z) (l : location) :
  match binary_round_aux prec emax s m e l with
  | S754_zero s' | S754_infinity s' | S754_finite s' _ _ => s' = s
  | S754_nan => True
  end.
Proof.
  unfold binary_round_aux.
  destruct (shr_fexp prec emax m e l) as [mrs' e'].
  destruct (shr_fexp prec emax _ e' loc_Exact) as [mrs'' e''].
  destruct (shr_m mrs''); [reflexivity| |exact I].
  destruct (e'' <=? emax - prec); reflexivity.
Qed.

Lemma div_half_even_nonneg (n d : Z) :
  0 <= n -> 0 < d -> 0 <= div_half_even n d.
Proof.
  intros Hn Hd. unfold div_half_even.
  pose proof (Z.div_pos n d Hn Hd).
  repeat match goal with |- context [if ?b then _ else _] => destruct b end; lia.
Qed.

Lemma round_half_even_nonneg (m : positive) (e : Z) :
  0 <= round_half_even (S754_finite false m e).
Proof.
  unfold round_half_even. destruct (0 <=? e) eqn:He; cbn [cond_Zopp].
  - apply Z.leb_le in He. pose proof (Z.pow_nonneg 2 e ltac:(lia)). nia.
  - apply Z.leb_gt in He. apply div_half_even_nonneg; [lia|].
    apply Z.pow_pos_nonneg; lia.
Qed.

Lemma gt_int_0_positive (x : float) :
  gt_int x 0 = true ->
  x = S754_infinity false \/ exists m e, x = S754_finite false m e.
Proof.
  destruct x as [s|s| |s m e]; cbn [gt_int]; try discriminate.
  - destruct s; [discriminate|]. intros _. left. reflexivity.
  - intros H. right. exists m, e. destruct s; [exfalso|reflexivity].
    destruct (0 <=? e) eqn:He; cbn [cond_Zopp] in H.
    + apply Z.leb_le in He. apply Z.ltb_lt in H.
      pose proof (Z.pow_nonneg 2 e ltac:(lia)). nia.
    + apply Z.ltb_lt in H. lia.
Qed.

(** The per-km surcharge is never negative, whatever the distance. *)
Lemma additional_fare_nonneg (d n : Z) :
  additional_fare d = Ok n -> 0 <= n.
Proof.
  unfold additional_fare, per_km_term.
  destruct (int_truediv d 1000) as [km|e]; [|discriminate].
  cbn [mbind result_bind]. unfold float_sub_int. rewrite float_of_int_1.
  cbn [mbind result_bind].
  generalize (sub km (S754_finite false 4503599627370496 (-52))). intros over.
  unfold max_int_float. destruct (gt_int over 0) eqn:Hgt.
  - unfold num_mul_int, float_mul_int. rewrite float_of_int_8.
    cbn [mbind result_bind].
    apply gt_int_0_positive in Hgt as [->|(m & e & ->)].
    + cbn. discriminate.
    + unfold mul, SFmul. cbn [xorb].
      pose proof (binary_round_aux_sign false
                    (Z.pos (m * 4503599627370496)) (e + -49) loc_Exact) as Hs.
      destruct (binary_round_aux prec emax false _ _ loc_Exact) as [s|s| |s m' e'];
        cbn [round]; try discriminate.
      * intros [= <-]. cbn. lia.
      * subst s. intros [= <-]. apply round_half_even_nonneg.
  - cbn. intros [= <-]. lia.
Qed.

Lemma calculate_fare_exact_near (d p : Z) :
  0 <= d <= 10000 -> calculate_fare d p = Ok (fare_exact d p).
Proof.
  intros Hd. rewrite calculate_fare_split, (additional_fare_exact d Hd).
  reflexivity.
Qed.

(** C1: for every distance and passenger count, [calculate_fare] returns
    [round(25 + round(max(0, distance_meters / 1000 - 1) * 8)
    + (passenger_count - 1) * 10)] (and raises exactly when that expression
    raises); whenever it returns, the per-km term was rounded first and the
    grand total second, each to the nearest integer with a tie going to the
    even one; and up to ten kilometres the fare is the one exact arithmetic
    gives for the same expression. *)
Theorem calculate_fare_two_roundings (distance_meters passenger_count : Z) :
  calculate_fare distance_meters passenger_count
    = fare_formula distance_meters passenger_count /\
  (forall fare, calculate_fare distance_meters passenger_count = Ok fare ->
    exists per_km n,
      per_km_term distance_meters = Ok per_km /\
      round per_km = Ok n /\
      is_round_half_even (num_value per_km) n /\
      round (PInt (25 + n + (passenger_count - 1) * 10)) = Ok fare /\
      is_round_half_even
        (inject_Z (25 + n + (passenger_count - 1) * 10)) fare) /\
  (0 <= distance_meters <= 10000 ->
   calculate_fare distance_meters passenger_count
     = Ok (fare_exact distance_meters passenger_count)).
Proof.
  split; [|split; [|apply calculate_fare_exact_near]].
  - unfold calculate_fare, fare_formula, additional_fare, per_km_term.
    destruct (int_truediv distance_meters 1000) as [km|e]; [|reflexivity].
    cbn [mbind result_bind].
    destruct (float_sub_int km 1) as [over|e]; [|reflexivity].
    cbn [mbind result_bind].
    destruct (num_mul_int (max_int_float 0 over) 8) as [x|e]; reflexivity.
  - intros fare. rewrite calculate_fare_split. unfold additional_fare.
    destruct (per_km_term distance_meters) as [per_km|e]; [|discriminate].
    cbn [mbind result_bind].
    destruct (round per_km) as [n|e] eqn:Hn; [|discriminate].
    cbn [mbind result_bind]. intros [= <-].
    exists per_km, n. repeat split.
    + exact Hn.
    + apply (round_spec per_km n Hn).
    + apply (round_spec per_km n Hn).
    + apply is_round_half_even_int. reflexivity.
    + apply is_round_half_even_int. reflexivity.
Qed.

Lemma calculate_fare_two_roundings_witness :
  exists per_km n,
    per_km_term 2500 = Ok per_km /\
    round per_km = Ok n /\
    is_round_half_even (num_value per_km) n /\
    round (PInt (25 + n + (3 - 1) * 10)) = Ok 57 /\
    is_round_half_even (inject_Z (25 + n + (3 - 1) * 10)) 57.
Proof.
  apply (proj1 (proj2 (calculate_fare_two_roundings 2500 3)) 57). reflexivity.
Defined.

(** Beyond the range of real trips binary64 shows: at this distance the
    quotient by 1000 is rounded onto a tie of the per-km term, and the fare
    is one more than exact arithmetic gives. *)
Remark calculate_fare_binary64_far :
  calculate_fare 100000000000001187 1 = Ok 800000000000027 /\
  fare_exact 100000000000001187 1 = 800000000000026.
Proof. split; vm_compute; reflexivity. Qed.

(** C4: [calculate_fare(1000, 2) = 35], [calculate_fare(2000, 2) = 43] and
    [calculate_fare(2500, 3) = 57]; at exactly 1 km the per-km term is the
    int 0 (no surcharge), and at 2.5 km the per-km term 12.0 is rounded to
    12 before it is added. *)
Theorem calculate_fare_examples :
  calculate_fare 1000 2 = Ok 35 /\
  calculate_fare 2000 2 = Ok 43 /\
  calculate_fare 2500 3 = Ok 57 /\
  per_km_term 1000 = Ok (PInt 0) /\
  additional_fare 2000 = Ok 8 /\
  additional_fare 2500 = Ok 12.
Proof.
  repeat match goal with |- _ /\ _ => split end; vm_compute; reflexivity.
Qed.

(** C5: for every passenger count in {2, 3} and every distance in
    [0, 10000], [calculate_fare] returns a fare, and that fare is at least
    [25 + (passenger_count - 1) * 10]. *)
Theorem calculate_fare_lower_bound (distance_meters passenger_count : Z) :
  passenger_count = 2 \/ passenger_count = 3 ->
  0 <= distance_meters <= 10000 ->
  exists fare,
    calculate_fare distance_meters passenger_count = Ok fare /\
    25 + (passenger_count - 1) * 10 <= fare.
Proof.
  intros _ Hd. rewrite calculate_fare_split.
  pose proof (additional_fare_exact distance_meters Hd) as Hn.
  pose proof (additional_fare_nonneg distance_meters _ Hn) as Hpos.
  rewrite Hn. cbn [mbind result_bind].
  eexists. split; [reflexivity|]. lia.
Qed.

Lemma calculate_fare_lower_bound_witness :
  exists fare, calculate_fare 2500 3 = Ok fare /\ 25 + (3 - 1) * 10 <= fare.
Proof.
  apply (calculate_fare_lower_bound 2500 3); [right; reflexivity | lia].
Defined.

(** ** Runs of the two scripts *)

Lemma create_booking_on_run (console : Console) (passenger_id : string)
    (pickup_lat pickup_lng dropoff_lat dropoff_lng : float) (w : World) :
  create_booking_on console passenger_id pickup_lat pickup_lng
    dropoff_lat dropoff_lng w =
  let handler := handled console "Error creating booking: " Failure in
  match passengers w !! passenger_id with
  | None =>
      match document passenger_id with
      | Raise e => (handler e, w)
      | Ok _ => (Ok (not_found passenger_id), w)
      end
  | Some passenger_data =>
      match simplified_geohash pickup_lat pickup_lng with
      | Raise e => (handler e, advance 0 1 w)
      | Ok key =>
          match guardian_block passenger_data with
          | Raise e => (handler e, advance 3 1 w)
          | Ok g =>
              (match refusal console
                       (booking_lines (uuids w (generated w))) with
               | Some e => handler e
               | None =>
                   Ok (Success (uuids w (generated w)) None None
                         "Booking created successfully")
               end,
               store (uuids w (generated w))
                 (booking_document w passenger_id pickup_lat pickup_lng
                    dropoff_lat dropoff_lng passenger_data key None g)
                 (advance 3 1 w))
          end
      end
  end.
Proof.
  cbv zeta.
  unfold create_booking_on, try_except, handled, print, mbind, M_bind,
    get_passenger, mret, M_ret.
  destruct (passengers w !! passenger_id) as [passenger_data|].
  2: { destruct (document passenger_id) as [k|e]; cbn [mbind result_bind];
         [reflexivity|].
       destruct (console _); reflexivity. }
  unfold uuid4_str, lift.
  destruct (simplified_geohash pickup_lat pickup_lng) as [key|e].
  2: { destruct (console _); reflexivity. }
  unfold randint.
  destruct (guardian_block passenger_data) as [g|e].
  2: { destruct (console _); reflexivity. }
  unfold set_booking, booking_lines, refusal.
  destruct (console ("Created booking with ID: " +:+ _)) as [e|];
    [|reflexivity].
  destruct (console ("Error creating booking: " +:+ _)); reflexivity.
Qed.

Lemma create_booking_run (passenger_id : string)
    (pickup_lat pickup_lng dropoff_lat dropoff_lng : float) (w : World) :
  create_booking passenger_id pickup_lat pickup_lng dropoff_lat dropoff_lng w =
  match passengers w !! passenger_id with
  | None => (Failure (absent_message passenger_id), w)
  | Some passenger_data =>
      match simplified_geohash pickup_lat pickup_lng with
      | Raise e => (Failure (str_exn e), advance 0 1 w)
      | Ok key =>
          match guardian_block passenger_data with
          | Raise e => (Failure (str_exn e), advance 3 1 w)
          | Ok g =>
              (Success (uuids w (generated w)) None None
                 "Booking created successfully",
               store (uuids w (generated w))
                 (booking_document w passenger_id pickup_lat pickup_lng
                    dropoff_lat dropoff_lng passenger_data key None g)
                 (advance 3 1 w))
          end
      end
  end.
Proof.
  unfold create_booking, returned. rewrite create_booking_on_run. cbv zeta.
  unfold absent_message, handled, accepting, not_found.
  destruct (passengers w !! passenger_id) as [passenger_data|].
  2: { destruct (document passenger_id); reflexivity. }
  destruct (simplified_geohash pickup_lat pickup_lng) as [key|e]; [|reflexivity].
  destruct (guardian_block passenger_data) as [g|e]; reflexivity.
Qed.

Lemma create_group_booking_on_run (console : Console) (passenger_id : string)
    (pickup_lat pickup_lng dropoff_lat dropoff_lng : float)
    (passenger_count : Z) (w : World) :
  create_group_booking_on console passenger_id pickup_lat pickup_lng
    dropoff_lat dropoff_lng passenger_count w =
  let handler := handled console "Error creating group booking: " Failure in
  if negb (valid_count passenger_count)
  then (Ok (Failure "Passenger count must be 2 or 3"), w)
  else
  match passengers w !! passenger_id with
  | None =>
      match document passenger_id with
      | Raise e => (handler e, w)
      | Ok _ => (Ok (not_found passenger_id), w)
      end
  | Some passenger_data =>
      match simplified_geohash pickup_lat pickup_lng with
      | Raise e => (handler e, advance 0 1 w)
      | Ok key =>
          match calculate_fare (next_randint w 0 1000 5000) passenger_count with
          | Raise e => (handler e, advance 1 1 w)
          | Ok fare =>
              match guardian_block passenger_data with
              | Raise e => (handler e, advance 2 1 w)
              | Ok g =>
                  (match refusal console
                           (group_booking_lines (uuids w (generated w))
                              passenger_count fare) with
                   | Some e => handler e
                   | None =>
                       Ok (Success (uuids w (generated w))
                             (Some passenger_count) (Some fare)
                             "Group booking created successfully")
                   end,
                   store (uuids w (generated w))
                     (booking_document w passenger_id pickup_lat pickup_lng
                        dropoff_lat dropoff_lng passenger_data key
                        (Some (passenger_count, fare)) g)
                     (advance 2 1 w))
              end
          end
      end
  end.
Proof.
  cbv zeta.
  unfold create_group_booking_on, try_except, handled, print, valid_count.
  destruct (negb _); [reflexivity|].
  unfold mbind, M_bind, get_passenger, mret, M_ret.
  destruct (passengers w !! passenger_id) as [passenger_data|].
  2: { destruct (document passenger_id) as [k|e]; cbn [mbind result_bind];
         [reflexivity|].
       destruct (console _); reflexivity. }
  unfold uuid4_str, lift.
  destruct (simplified_geohash pickup_lat pickup_lng) as [key|e].
  2: { destruct (console _); reflexivity. }
  unfold randint. cbn [fst snd drawn entropy].
  change (1000 + entropy w (drawn w) mod (5000 - 1000 + 1))
    with (next_randint w 0 1000 5000).
  destruct (calculate_fare (next_randint w 0 1000 5000) passenger_count)
    as [fare|e].
  2: { destruct (console _); reflexivity. }
  destruct (guardian_block passenger_data) as [g|e].
  2: { destruct (console _); reflexivity. }
  unfold set_booking, group_booking_lines, refusal.
  cbn [uuids generated].
  destruct (console ("Created group booking with ID: " +:+ _)) as [e|].
  { destruct (console ("Error creating group booking: " +:+ _)); reflexivity. }
  destruct (console ("Passenger count: " +:+ _)) as [e|].
  { destruct (console ("Error creating group booking: " +:+ _)); reflexivity. }
  destruct (console ("Estimated fare: " +:+ _)) as [e|]; [|reflexivity].
  destruct (console ("Error creating group booking: " +:+ _)); reflexivity.
Qed.

Lemma create_group_booking_run (passenger_id : string)
    (pickup_lat pickup_lng dropoff_lat dropoff_lng : float)
    (passenger_count : Z) (w : World) :
  create_group_booking passenger_id pickup_lat pickup_lng
    dropoff_lat dropoff_lng passenger_count w =
  if negb (valid_count passenger_count)
  then (Failure "Passenger count must be 2 or 3", w)
  else
  match passengers w !! passenger_id with
  | None => (Failure (absent_message passenger_id), w)
  | Some passenger_data =>
      match simplified_geohash pickup_lat pickup_lng with
      | Raise e => (Failure (str_exn e), advance 0 1 w)
      | Ok key =>
          match calculate_fare (next_randint w 0 1000 5000) passenger_count with
          | Raise e => (Failure (str_exn e), advance 1 1 w)
          | Ok fare =>
              match guardian_block passenger_data with
              | Raise e => (Failure (str_exn e), advance 2 1 w)
              | Ok g =>
                  (Success (uuids w (generated w)) (Some passenger_count)
                     (Some fare) "Group booking created successfully",
                   store (uuids w (generated w))
                     (booking_document w passenger_id pickup_lat pickup_lng
                        dropoff_lat dropoff_lng passenger_data key
                        (Some (passenger_count, fare)) g)
                     (advance 2 1 w))
              end
          end
      end
  end.
Proof.
  unfold create_group_booking, returned. rewrite create_group_booking_on_run.
  cbv zeta. unfold absent_message, handled, accepting, not_found.
  destruct (negb _); [reflexivity|].
  destruct (passengers w !! passenger_id) as [passenger_data|].
  2: { destruct (document passenger_id); reflexivity. }
  destruct (simplified_geohash pickup_lat pickup_lng) as [key|e]; [|reflexivity].
  destruct (calculate_fare (next_randint w 0 1000 5000) passenger_count)
    as [fare|e]; [|reflexivity].
  destruct (guardian_block passenger_data) as [g|e]; reflexivity.
Qed.

(** On the console that takes every line no exception leaves a call: the
    call is the function of the claims, with its response and its world. *)
Lemma on_accepting_console (passenger_id : string)
    (pickup_lat pickup_lng dropoff_lat dropoff_lng : float)
    (passenger_count : Z) (w : World) :
  create_booking_on accepting passenger_id pickup_lat pickup_lng
    dropoff_lat dropoff_lng w
  = (Ok (fst (create_booking passenger_id pickup_lat pickup_lng
                dropoff_lat dropoff_lng w)),
     snd (create_booking passenger_id pickup_lat pickup_lng
            dropoff_lat dropoff_lng w)) /\
  create_group_booking_on accepting passenger_id pickup_lat pickup_lng
    dropoff_lat dropoff_lng passenger_count w
  = (Ok (fst (create_group_booking passenger_id pickup_lat pickup_lng
                dropoff_lat dropoff_lng passenger_count w)),
     snd (create_group_booking passenger_id pickup_lat pickup_lng
            dropoff_lat dropoff_lng passenger_count w)).
Proof.
  rewrite create_booking_run, create_group_booking_run,
    create_booking_on_run, create_group_booking_on_run.
  cbv zeta. unfold absent_message, handled, accepting, not_found. split.
  - destruct (passengers w !! passenger_id) as [pd|];
      [|destruct (document passenger_id); reflexivity].
    destruct (simplified_geohash pickup_lat pickup_lng) as [k|e];
      [|reflexivity].
    destruct (guardian_block pd) as [g|e]; reflexivity.
  - destruct (negb (valid_count passenger_count)); [reflexivity|].
    destruct (passengers w !! passenger_id) as [pd|];
      [|destruct (document passenger_id); reflexivity].
    destruct (simplified_geohash pickup_lat pickup_lng) as [k|e];
      [|reflexivity].
    destruct (calculate_fare _ passenger_count) as [f|e]; [|reflexivity].
    destruct (guardian_block pd) as [g|e]; reflexivity.
Qed.

Lemma created_single_inv (passenger_id : string)
    (pickup_lat pickup_lng dropoff_lat dropoff_lng : float)
    (w : World) (b : Booking) :
  created (create_booking passenger_id pickup_lat pickup_lng
             dropoff_lat dropoff_lng) w b ->
  exists passenger_data key g,
    passengers w !! passenger_id = Some passenger_data /\
    simplified_geohash pickup_lat pickup_lng = Ok key /\
    guardian_block passenger_data = Ok g /\
    b = booking_document w passenger_id pickup_lat pickup_lng
          dropoff_lat dropoff_lng passenger_data key None g.
Proof.
  intros (k & c & f & msg & Hr & Hb). rewrite create_booking_run in Hr, Hb.
  destruct (passengers w !! passenger_id) as [pd|] eqn:Hpd; [|discriminate].
  destruct (simplified_geohash pickup_lat pickup_lng) as [key|e] eqn:Hkey;
    [|discriminate].
  destruct (guardian_block pd) as [g|e] eqn:Hg; [|discriminate].
  cbn [fst snd] in Hr, Hb. injection Hr as <- _ _ _.
  unfold store in Hb. cbn [bookings] in Hb.
  rewrite lookup_insert_eq in Hb. injection Hb as <-.
  exists pd, key, g. repeat split; assumption || reflexivity.
Qed.

Lemma created_group_inv (passenger_id : string)
    (pickup_lat pickup_lng dropoff_lat dropoff_lng : float)
    (passenger_count : Z) (w : World) (b : Booking) :
  created (create_group_booking passenger_id pickup_lat pickup_lng
             dropoff_lat dropoff_lng passenger_count) w b ->
  exists passenger_data key fare g,
    valid_count passenger_count = true /\
    passengers w !! passenger_id = Some passenger_data /\
    simplified_geohash pickup_lat pickup_lng = Ok key /\
    calculate_fare (next_randint w 0 1000 5000) passenger_count = Ok fare /\
    guardian_block passenger_data = Ok g /\
    b = booking_document w passenger_id pickup_lat pickup_lng
          dropoff_lat dropoff_lng passenger_data key
          (Some (passenger_count, fare)) g.
Proof.
  intros (k & c & f & msg & Hr & Hb). rewrite create_group_booking_run in Hr, Hb.
  destruct (valid_count passenger_count) eqn:Hv; [|discriminate]. cbn [negb] in Hr, Hb.
  destruct (passengers w !! passenger_id) as [pd|] eqn:Hpd; [|discriminate].
  destruct (simplified_geohash pickup_lat pickup_lng) as [key|e] eqn:Hkey;
    [|discriminate].
  destruct (calculate_fare _ passenger_count) as [fare|e] eqn:Hfare;
    [|discriminate].
  destruct (guardian_block pd) as [g|e] eqn:Hg; [|discriminate].
  cbn [fst snd] in Hr, Hb. injection Hr as <- _ _ _.
  unfold store in Hb. cbn [bookings] in Hb.
  rewrite lookup_insert_eq in Hb. injection Hb as <-.
  exists pd, key, fare, g. repeat split; assumption || reflexivity.
Qed.

Lemma next_randint_range (w : World) (k : nat) (a b : Z) :
  a <= b -> a <= next_randint w k a b <= b.
Proof.
  intros Hab. unfold next_randint.
  pose proof (Z.mod_pos_bound (entropy w (k + drawn w)) (b - a + 1) ltac:(lia)).
  lia.
Qed.

Lemma valid_count_spec (passenger_count : Z) :
  valid_count passenger_count = true <->
  passenger_count = 2 \/ passenger_count = 3.
Proof. unfold valid_count. rewrite orb_true_iff, !Z.eqb_eq. reflexivity. Qed.

Lemma demo_group_created :
  exists b,
    created (create_group_booking "p2" lat_14_1234 lng_121_5678
               lat_14_2 lng_121_6 3) demo_world b.
Proof.
  eexists. unfold created. do 4 eexists. split; vm_compute; reflexivity.
Qed.

(** ** Validation and lookup failures *)

Lemma int_raise (x : float) (e : exn) :
  int x = Raise e -> str_exn e <> count_message.
Proof.
  destruct x; cbn [int]; intros [= <-]; discriminate.
Qed.

Lemma key_component_raise (x : float) (e : exn) :
  key_component x = Raise e -> str_exn e <> count_message.
Proof.
  unfold key_component, float_mul_int. rewrite float_of_int_1000.
  cbn [mbind result_bind]. apply int_raise.
Qed.

Lemma simplified_geohash_raise (lat lng : float) (e : exn) :
  simplified_geohash lat lng = Raise e -> str_exn e <> count_message.
Proof.
  unfold simplified_geohash.
  destruct (key_component lat) as [a|e1] eqn:Ha.
  - destruct (key_component lng) as [b|e2] eqn:Hb; [discriminate|].
    cbn [mbind result_bind]. intros [= <-]. exact (key_component_raise _ _ Hb).
  - cbn [mbind result_bind]. intros [= <-]. exact (key_component_raise _ _ Ha).
Qed.

Lemma get_raise (v : value) (key : string) (dflt : value) (e : exn) :
  get v key dflt = Raise e -> str_exn e <> count_message.
Proof.
  destruct v; cbn; intros [= <-]; discriminate.
Qed.

Lemma guardian_block_raise (passenger_data : dict) (e : exn) :
  guardian_block passenger_data = Raise e -> str_exn e <> count_message.
Proof.
  unfold guardian_block.
  destruct (passenger_data !! "guardian") as [gv|]; [|discriminate].
  destruct (get gv "phoneNumber" VNone) as [phone|e1] eqn:H1;
    cbn [mbind result_bind]; [|intros [= <-]; exact (get_raise _ _ _ _ H1)].
  destruct (truthy phone); [|discriminate].
  destruct (get gv "name" (VStr "Guardian")) as [name|e2] eqn:H2;
    cbn [mbind result_bind]; [|intros [= <-]; exact (get_raise _ _ _ _ H2)].
  destruct (get gv "relationship" (VStr "Guardian")) as [rel|e3] eqn:H3;
    cbn [mbind result_bind]; [discriminate|].
  intros [= <-]. exact (get_raise _ _ _ _ H3).
Qed.

Lemma absent_message_not_count (passenger_id : string) :
  Failure (absent_message passenger_id) <> Failure count_message.
Proof.
  unfold absent_message, document, count_message.
  destruct (Nat.even (slashes passenger_id)); cbn; discriminate.
Qed.

Lemma document_id_path (key : string) :
  document_id key = true -> document key = Ok key.
Proof.
  unfold document_id, document. rewrite !andb_true_iff.
  intros [[[[[_ H] _] _] _] _]. apply Nat.eqb_eq in H. rewrite H. reflexivity.
Qed.

Lemma valid_count_passes (passenger_id : string)
    (pickup_lat pickup_lng dropoff_lat dropoff_lng : float)
    (passenger_count : Z) (w : World) :
  valid_count passenger_count = true ->
  fst (create_group_booking passenger_id pickup_lat pickup_lng
         dropoff_lat dropoff_lng passenger_count w)
    <> Failure count_message.
Proof.
  intros Hv. rewrite create_group_booking_run, Hv. cbn [negb].
  destruct (passengers w !! passenger_id) as [pd|].
  - destruct (simplified_geohash pickup_lat pickup_lng) as [key|e] eqn:Hkey.
    + pose proof (next_randint_range w 0 1000 5000 ltac:(lia)) as Hd.
      rewrite calculate_fare_exact_near by lia.
      destruct (guardian_block pd) as [g|e] eqn:Hg; cbn [fst].
      * discriminate.
      * intros [= H]. exact (guardian_block_raise _ _ Hg H).
    + cbn [fst]. intros [= H]. exact (simplified_geohash_raise _ _ _ Hkey H).
  - cbn [fst]. apply absent_message_not_count.
Qed.

(** C2 (as amended): a group booking validates its passenger count against
    {2, 3}. With 2 or 3 the validation never fails, whatever the other
    arguments and the world, and the run goes on to the estimate: for a
    known passenger whose bucket key and guardian block evaluate, it draws
    a distance, computes the fare of that distance and stores the booking.
    With any other count (1 and 4 included) it returns the validation
    failure and leaves the world as it was: no record, no identifier, no
    draw. *)
Theorem group_passenger_count_validation (passenger_id : string)
    (pickup_lat pickup_lng dropoff_lat dropoff_lng : float)
    (passenger_count : Z) (w : World) :
  (passenger_count = 2 \/ passenger_count = 3 ->
   fst (create_group_booking passenger_id pickup_lat pickup_lng
          dropoff_lat dropoff_lng passenger_count w)
     <> Failure "Passenger count must be 2 or 3") /\
  (passenger_count = 2 \/ passenger_count = 3 ->
   forall passenger_data key g,
     passengers w !! passenger_id = Some passenger_data ->
     simplified_geohash pickup_lat pickup_lng = Ok key ->
     guardian_block passenger_data = Ok g ->
     exists fare,
       calculate_fare (next_randint w 0 1000 5000) passenger_count = Ok fare /\
       create_group_booking passenger_id pickup_lat pickup_lng
         dropoff_lat dropoff_lng passenger_count w =
       (Success (uuids w (generated w)) (Some passenger_count) (Some fare)
          "Group booking created successfully",
        store (uuids w (generated w))
          (booking_document w passenger_id pickup_lat pickup_lng
             dropoff_lat dropoff_lng passenger_data key
             (Some (passenger_count, fare)) g)
          (advance 2 1 w))) /\
  (~ (passenger_count = 2 \/ passenger_count = 3) ->
   create_group_booking passenger_id pickup_lat pickup_lng
     dropoff_lat dropoff_lng passenger_count w =
   (Failure "Passenger count must be 2 or 3", w)).
Proof.
  split; [|split].
  - intros Hc. apply valid_count_spec in Hc.
    apply valid_count_passes. exact Hc.
  - intros Hc pd key g Hpd Hkey Hg.
    apply valid_count_spec in Hc.
    pose proof (next_randint_range w 0 1000 5000 ltac:(lia)) as Hd.
    exists (fare_exact (next_randint w 0 1000 5000) passenger_count).
    assert (Hfare : calculate_fare (next_randint w 0 1000 5000) passenger_count
                    = Ok (fare_exact (next_randint w 0 1000 5000) passenger_count))
      by (apply calculate_fare_exact_near; lia).
    split; [exact Hfare|].
    rewrite create_group_booking_run, Hc, Hpd, Hkey, Hfare, Hg. reflexivity.
  - intros Hc. rewrite create_group_booking_run.
    destruct (valid_count passenger_count) eqn:Hv; [|reflexivity].
    apply valid_count_spec in Hv. contradiction.
Qed.

(** The count 1 of the claim as first stated is refused. *)
Lemma group_count_1_refused :
  create_group_booking "p1" lat_14_1234 lng_121_5678 lat_14_2 lng_121_6 1
    demo_world
  = (Failure "Passenger count must be 2 or 3", demo_world).
Proof. reflexivity. Qed.

Lemma group_passenger_count_validation_witness :
  (exists fare,
     create_group_booking "p2" lat_14_1234 lng_121_5678 lat_14_2 lng_121_6 3
       demo_world
     = (Success "booking-0" (Some 3) (Some fare)
          "Group booking created successfully",
        store "booking-0"
          (booking_document demo_world "p2" lat_14_1234 lng_121_5678
             lat_14_2 lng_121_6 {[ "name" := VStr "Solo Passenger" ]}
             "14123-121567" (Some (3, fare)) None)
          (advance 2 1 demo_world))) /\
  create_group_booking "p2" lat_14_1234 lng_121_5678 lat_14_2 lng_121_6 4
    demo_world
  = (Failure "Passenger count must be 2 or 3", demo_world).
Proof.
  split.
  - destruct (proj1 (proj2 (group_passenger_count_validation "p2"
                              lat_14_1234 lng_121_5678 lat_14_2 lng_121_6 3
                              demo_world))
                (or_intror eq_refl)
                {[ "name" := VStr "Solo Passenger" ]} "14123-121567" None
                eq_refl eq_refl eq_refl) as [fare [_ Hrun]].
    exists fare. exact Hrun.
  - apply (proj2 (proj2 (group_passenger_count_validation "p2" lat_14_1234
                           lng_121_5678 lat_14_2 lng_121_6 4 demo_world))).
    intros [H|H]; discriminate H.
Defined.

(** C3 (as amended): for a passenger identifier that has no document in
    the directory, neither script succeeds, writes a record or generates an
    identifier: the world is left as it was, on every console. For the
    identifier of a document (not empty, without a slash) the call returns
    the structured not-found failure, and prints nothing; except that a
    group booking whose count is not 2 or 3 never reaches the lookup and
    returns the failure of the count. An identifier with an odd number of
    slashes, such as [a/b], is not the path of a document: the client
    raises a [ValueError], which the handler returns as a structured
    failure with the client's message, after it has printed it. On a
    console that takes every line the call always returns a structured
    failure. *)
Theorem unknown_passenger_failure (console : Console) (passenger_id : string)
    (pickup_lat pickup_lng dropoff_lat dropoff_lng : float)
    (passenger_count : Z) (w : World) :
  passengers w !! passenger_id = None ->
  let single := create_booking_on console passenger_id pickup_lat pickup_lng
                  dropoff_lat dropoff_lng w in
  let group := create_group_booking_on console passenger_id
                 pickup_lat pickup_lng dropoff_lat dropoff_lng
                 passenger_count w in
  (snd single = w /\ succeeded (fst single) = false) /\
  (snd group = w /\ succeeded (fst group) = false) /\
  (valid_count passenger_count = false ->
   fst group = Ok (Failure "Passenger count must be 2 or 3")) /\
  (document_id passenger_id = true ->
   fst single = Ok (not_found passenger_id) /\
   (valid_count passenger_count = true ->
    fst group = Ok (not_found passenger_id))) /\
  (Nat.even (slashes passenger_id) = false ->
   fst single = handled console "Error creating booking: " Failure bad_path /\
   (valid_count passenger_count = true ->
    fst group
    = handled console "Error creating group booking: " Failure bad_path)) /\
  (exists error,
     create_booking passenger_id pickup_lat pickup_lng
       dropoff_lat dropoff_lng w = (Failure error, w)) /\
  (exists error,
     create_group_booking passenger_id pickup_lat pickup_lng
       dropoff_lat dropoff_lng passenger_count w = (Failure error, w)).
Proof.
  intros Hpd. cbv zeta.
  rewrite create_booking_on_run, create_group_booking_on_run,
    create_booking_run, create_group_booking_run, Hpd.
  cbv zeta. unfold handled, document, bad_path.
  assert (Hid : document_id passenger_id = true ->
                Nat.even (slashes passenger_id) = true).
  { intros H. apply document_id_path in H. unfold document in H.
    destruct (Nat.even (slashes passenger_id)); [reflexivity|discriminate]. }
  repeat match goal with |- _ /\ _ => split end.
  - destruct (Nat.even (slashes passenger_id)); [reflexivity|].
    destruct (console _); reflexivity.
  - destruct (Nat.even (slashes passenger_id)); [reflexivity|].
    destruct (console _); reflexivity.
  - destruct (negb (valid_count passenger_count)); [reflexivity|].
    destruct (Nat.even (slashes passenger_id)); [reflexivity|].
    destruct (console _); reflexivity.
  - destruct (negb (valid_count passenger_count)); [reflexivity|].
    destruct (Nat.even (slashes passenger_id)); [reflexivity|].
    destruct (console _); reflexivity.
  - intros ->. reflexivity.
  - intros H. rewrite (Hid H). split; [reflexivity|]. intros ->. reflexivity.
  - intros ->. split; [reflexivity|]. intros ->. reflexivity.
  - destruct (Nat.even (slashes passenger_id)); eexists; reflexivity.
  - destruct (negb (valid_count passenger_count)); eexists; reflexivity.
Qed.

Lemma unknown_passenger_failure_witness :
  create_booking_on accepting "p9" lat_14_1234 lng_121_5678 lat_14_2 lng_121_6
    demo_world
    = (Ok (Failure "Passenger with ID p9 does not exist"), demo_world) /\
  create_group_booking_on accepting "p9" lat_14_1234 lng_121_5678
    lat_14_2 lng_121_6 2 demo_world
    = (Ok (Failure "Passenger with ID p9 does not exist"), demo_world).
Proof.
  destruct (unknown_passenger_failure accepting "p9" lat_14_1234 lng_121_5678
              lat_14_2 lng_121_6 2 demo_world eq_refl)
    as ((Hw1 & _) & (Hw2 & _) & _ & Hid & _).
  destruct (Hid eq_refl) as [H1 H2]. specialize (H2 eq_refl).
  split; apply injective_projections; cbn [fst snd]; assumption.
Defined.

(** An identifier that is not the path of a document: the failure is the
    client's, not the not-found one. *)
Lemma unknown_passenger_bad_path :
  passengers demo_world !! "a/b" = None /\
  create_booking "a/b" lat_14_1234 lng_121_5678 lat_14_2 lng_121_6 demo_world
    = (Failure "A document must have an even number of path elements",
       demo_world) /\
  not_found "a/b"
    <> Failure "A document must have an even number of path elements".
Proof. split; [reflexivity|split; [reflexivity|discriminate]]. Qed.

(** An unknown passenger with a count of 4: the failure is the validation
    one, not the not-found one. *)
Lemma unknown_passenger_bad_count :
  passengers demo_world !! "p9" = None /\
  fst (create_group_booking "p9" lat_14_1234 lng_121_5678 lat_14_2 lng_121_6 4
         demo_world)
    = Failure "Passenger count must be 2 or 3" /\
  not_found "p9" <> Failure "Passenger count must be 2 or 3".
Proof. split; [reflexivity|split; [reflexivity|discriminate]]. Qed.

(** ** The stored booking *)

Lemma demo_single_booking_created :
  created (create_booking "p1" lat_14_1234 lng_121_5678 lat_14_2 lng_121_6)
    demo_world demo_single_booking.
Proof.
  exists "booking-0", None, None, "Booking created successfully".
  split; vm_compute; reflexivity.
Defined.

(** C7: in the single-passenger script every stored booking has its
    estimated distance in [1000, 5000], its duration in [300, 1200] and its
    fare in [25, 100]; the three are the next three draws of the generator,
    one each, so no coordinate changes them. *)
Theorem single_estimates_in_range (passenger_id : string)
    (pickup_lat pickup_lng dropoff_lat dropoff_lng : float)
    (w : World) (b : Booking) :
  created (create_booking passenger_id pickup_lat pickup_lng
             dropoff_lat dropoff_lng) w b ->
  1000 <= estimatedDistance b <= 5000 /\
  300 <= estimatedDuration b <= 1200 /\
  25 <= estimatedFare b <= 100 /\
  estimatedDistance b = next_randint w 0 1000 5000 /\
  estimatedDuration b = next_randint w 1 300 1200 /\
  estimatedFare b = next_randint w 2 25 100 /\
  forall pickup_lat' pickup_lng' dropoff_lat' dropoff_lng' b',
    created (create_booking passenger_id pickup_lat' pickup_lng'
               dropoff_lat' dropoff_lng') w b' ->
    estimatedDistance b' = estimatedDistance b /\
    estimatedDuration b' = estimatedDuration b /\
    estimatedFare b' = estimatedFare b.
Proof.
  intros Hb.
  apply created_single_inv in Hb as (pd & key & g & _ & _ & _ & ->).
  cbn [booking_document estimatedDistance estimatedDuration estimatedFare].
  pose proof (next_randint_range w 0 1000 5000 ltac:(lia)).
  pose proof (next_randint_range w 1 300 1200 ltac:(lia)).
  pose proof (next_randint_range w 2 25 100 ltac:(lia)).
  repeat match goal with |- _ /\ _ => split end; try lia; try reflexivity.
  intros lat' lng' dlat' dlng' b' Hb'.
  apply created_single_inv in Hb' as (pd' & key' & g' & _ & _ & _ & ->).
  repeat split.
Qed.

Lemma single_estimates_in_range_witness :
  1000 <= estimatedDistance demo_single_booking <= 5000 /\
  300 <= estimatedDuration demo_single_booking <= 1200 /\
  25 <= estimatedFare demo_single_booking <= 100.
Proof.
  destruct (single_estimates_in_range "p1" lat_14_1234 lng_121_5678
              lat_14_2 lng_121_6 demo_world demo_single_booking
              demo_single_booking_created) as (H1 & H2 & H3 & _).
  split; [exact H1|split; [exact H2|exact H3]].
Defined.

Lemma group_fare_positive (d p fare : Z) :
  valid_count p = true -> calculate_fare d p = Ok fare -> 35 <= fare.
Proof.
  intros Hp. apply valid_count_spec in Hp.
  rewrite calculate_fare_split.
  destruct (additional_fare d) as [n|e] eqn:Hn; [|discriminate].
  cbn [mbind result_bind]. intros [= <-].
  pose proof (additional_fare_nonneg d n Hn). lia.
Qed.

(** C8: every stored booking, of either script, has status "pending", no
    driver ([driverId] is [None]), and estimated distance, duration and fare
    that are positive integers. *)
Theorem stored_booking_invariant (passenger_id : string)
    (pickup_lat pickup_lng dropoff_lat dropoff_lng : float)
    (passenger_count : Z) (w : World) (b : Booking) :
  created (create_booking passenger_id pickup_lat pickup_lng
             dropoff_lat dropoff_lng) w b \/
  created (create_group_booking passenger_id pickup_lat pickup_lng
             dropoff_lat dropoff_lng passenger_count) w b ->
  status b = "pending" /\
  driverId b = None /\
  0 < estimatedDistance b /\
  0 < estimatedDuration b /\
  0 < estimatedFare b.
Proof.
  pose proof (next_randint_range w 0 1000 5000 ltac:(lia)).
  pose proof (next_randint_range w 1 300 1200 ltac:(lia)).
  pose proof (next_randint_range w 2 25 100 ltac:(lia)).
  intros [Hb|Hb].
  - apply created_single_inv in Hb as (pd & key & g & _ & _ & _ & ->).
    cbn [booking_document status driverId
         estimatedDistance estimatedDuration estimatedFare].
    repeat split; lia.
  - apply created_group_inv in Hb
      as (pd & key & fare & g & Hv & _ & _ & Hfare & _ & ->).
    cbn [booking_document status driverId
         estimatedDistance estimatedDuration estimatedFare].
    pose proof (group_fare_positive _ _ _ Hv Hfare).
    repeat split; lia.
Qed.

Lemma stored_booking_invariant_witness :
  status demo_single_booking = "pending" /\
  driverId demo_single_booking = None /\
  0 < estimatedDistance demo_single_booking /\
  0 < estimatedDuration demo_single_booking /\
  0 < estimatedFare demo_single_booking.
Proof.
  apply (stored_booking_invariant "p1" lat_14_1234 lng_121_5678
           lat_14_2 lng_121_6 1 demo_world demo_single_booking).
  left. exact demo_single_booking_created.
Defined.

Lemma guardian_block_spec (passenger_data : dict)
    (g : option GuardianNotification) :
  guardian_block passenger_data = Ok g ->
  (is_Some g <-> has_guardian_phone passenger_data) /\
  forall n, g = Some n ->
    notified n = false /\
    exists guardian,
      passenger_data !! "guardian" = Some (VDict guardian) /\
      guardian !! "phoneNumber" = Some (guardian_phoneNumber n) /\
      guardian_name n = default (VStr "Guardian") (guardian !! "name") /\
      relationship n = default (VStr "Guardian") (guardian !! "relationship").
Proof.
  unfold guardian_block, has_guardian_phone.
  destruct (passenger_data !! "guardian") as [gv|] eqn:Hgv.
  - destruct gv as [ | | | | | | |d]; try (cbn; discriminate).
    cbn [get mbind result_bind].
    destruct (d !! "phoneNumber") as [phone|] eqn:Hphone;
      cbn [default from_option Datatypes.id].
    + destruct (truthy phone) eqn:Htruthy; intros [= <-].
      * split.
        -- split; [|intros _; eexists; reflexivity].
           intros _. exists d, phone. repeat split; assumption.
        -- intros n [= <-]. cbn. split; [reflexivity|].
           exists d. repeat split; assumption.
      * split; [|intros n Hn; discriminate Hn].
        split; [intros [n Hn]; discriminate Hn|].
        intros (d' & phone' & [= <-] & Hphone' & Htruthy').
        rewrite Hphone in Hphone'. injection Hphone' as <-.
        rewrite Htruthy in Htruthy'. discriminate.
    + cbn [truthy]. intros [= <-].
      split; [|intros n Hn; discriminate Hn].
      split; [intros [n Hn]; discriminate Hn|].
      intros (d' & phone' & [= <-] & Hphone' & _).
      rewrite Hphone in Hphone'. discriminate.
  - intros [= <-].
    split; [|intros n Hn; discriminate Hn].
    split; [intros [n Hn]; discriminate Hn|].
    intros (d' & phone' & Hd' & _). discriminate.
Qed.

(** C9: the stored booking of either script has a [guardianNotification]
    sub-record if and only if the passenger record has a ['guardian'] entry
    whose [phoneNumber] is present and truthy; the sub-record then has
    [notified = False], the guardian's phone number, and the guardian's
    name and relationship, each the string "Guardian" when the key is
    missing. *)
Theorem guardian_notification_iff (passenger_id : string)
    (pickup_lat pickup_lng dropoff_lat dropoff_lng : float)
    (passenger_count : Z) (w : World) (b : Booking) :
  created (create_booking passenger_id pickup_lat pickup_lng
             dropoff_lat dropoff_lng) w b \/
  created (create_group_booking passenger_id pickup_lat pickup_lng
             dropoff_lat dropoff_lng passenger_count) w b ->
  exists passenger_data,
    passengers w !! passenger_id = Some passenger_data /\
    (is_Some (guardianNotification b) <-> has_guardian_phone passenger_data) /\
    forall n, guardianNotification b = Some n ->
      notified n = false /\
      exists guardian,
        passenger_data !! "guardian" = Some (VDict guardian) /\
        guardian !! "phoneNumber" = Some (guardian_phoneNumber n) /\
        guardian_name n = default (VStr "Guardian") (guardian !! "name") /\
        relationship n
          = default (VStr "Guardian") (guardian !! "relationship").
Proof.
  intros [Hb|Hb].
  - apply created_single_inv in Hb as (pd & key & g & Hpd & _ & Hg & ->).
    exists pd. split; [exact Hpd|]. exact (guardian_block_spec pd g Hg).
  - apply created_group_inv in Hb
      as (pd & key & fare & g & _ & Hpd & _ & _ & Hg & ->).
    exists pd. split; [exact Hpd|]. exact (guardian_block_spec pd g Hg).
Qed.

Lemma guardian_notification_iff_witness :
  exists passenger_data,
    passengers demo_world !! "p1" = Some passenger_data /\
    (is_Some (guardianNotification demo_single_booking)
     <-> has_guardian_phone passenger_data).
Proof.
  destruct (guardian_notification_iff "p1" lat_14_1234 lng_121_5678
              lat_14_2 lng_121_6 1 demo_world demo_single_booking
              (or_introl demo_single_booking_created))
    as (pd & Hpd & Hiff & _).
  exists pd. split; [exact Hpd | exact Hiff].
Defined.

(** ** Rounding to binary64, step by step *)

Lemma fexp_eq (z : Z) : fexp prec emax z = Z.max (z - 53) (-1074).
Proof. reflexivity. Qed.

Lemma digits2_pos_bounds (p : positive) :
  2 ^ (Z.pos (digits2_pos p) - 1) <= Z.pos p < 2 ^ Z.pos (digits2_pos p).
Proof.
  induction p as [p IH|p IH|]; cbn [digits2_pos].
  - rewrite Pos2Z.inj_succ, Z.pow_succ_r by lia.
    replace (Z.succ (Z.pos (digits2_pos p)) - 1)
      with (Z.succ (Z.pos (digits2_pos p) - 1)) by lia.
    rewrite Z.pow_succ_r by lia. lia.
  - rewrite Pos2Z.inj_succ, Z.pow_succ_r by lia.
    replace (Z.succ (Z.pos (digits2_pos p)) - 1)
      with (Z.succ (Z.pos (digits2_pos p) - 1)) by lia.
    rewrite Z.pow_succ_r by lia. lia.
  - cbn. lia.
Qed.

Lemma shr_1_m (r : shr_record) :
  0 <= shr_m r -> shr_m (shr_1 r) = shr_m r / 2 /\ 0 <= shr_m (shr_1 r).
Proof.
  destruct r as [m rb sb]. cbn [shr_m]. intros Hm.
  destruct m as [|p|p]; [| |lia].
  - cbn. split; [reflexivity|lia].
  - destruct p as [p|p|]; cbn [shr_1 shr_m].
    + split; [|lia]. apply Z.div_unique with (r := 1); lia.
    + split; [|lia]. apply Z.div_unique with (r := 0); lia.
    + split; [reflexivity|lia].
Qed.

Lemma iter_pos_shr_m (p : positive) :
  forall r, 0 <= shr_m r ->
  shr_m (SpecFloat.iter_pos shr_1 p r) = shr_m r / 2 ^ Z.pos p /\
  0 <= shr_m (SpecFloat.iter_pos shr_1 p r).
Proof.
  induction p as [p IH|p IH|]; intros r Hr; cbn [SpecFloat.iter_pos].
  - destruct (shr_1_m r Hr) as [E1 P1].
    destruct (IH _ P1) as [E2 P2]. destruct (IH _ P2) as [E3 P3].
    split; [|exact P3]. rewrite E3, E2, E1.
    pose proof (Z.pow_pos_nonneg 2 (Z.pos p) ltac:(lia) ltac:(lia)) as Hp.
    rewrite !Z.div_div by lia. f_equal.
    replace (Z.pos p~1) with (1 + Z.pos p + Z.pos p) by lia.
    rewrite !Z.pow_add_r by lia. lia.
  - destruct (IH _ Hr) as [E2 P2]. destruct (IH _ P2) as [E3 P3].
    split; [|exact P3]. rewrite E3, E2.
    pose proof (Z.pow_pos_nonneg 2 (Z.pos p) ltac:(lia) ltac:(lia)) as Hp.
    rewrite !Z.div_div by lia. f_equal.
    replace (Z.pos p~0) with (Z.pos p + Z.pos p) by lia.
    rewrite !Z.pow_add_r by lia. lia.
  - destruct (shr_1_m r Hr) as [E1 P1]. split; [|exact P1].
    rewrite E1. reflexivity.
Qed.

(** Shifting right by [n] places divides the mantissa by [2^n]. *)
Lemma shr_m_shr (r : shr_record) (e n : Z) :
  0 <= shr_m r ->
  shr_m (fst (shr r e n)) = shr_m r / 2 ^ Z.max 0 n /\
  snd (shr r e n) = e + Z.max 0 n.
Proof.
  intros Hr. destruct n as [|p|p]; cbn [shr fst snd].
  - rewrite Z.div_1_r. split; [reflexivity|lia].
  - destruct (iter_pos_shr_m p r Hr) as [E _]. split; [exact E|lia].
  - replace (Z.max 0 (Z.neg p)) with 0 by lia.
    rewrite Z.div_1_r. split; [reflexivity|lia].
Qed.

Lemma shr_fexp_m (m e : Z) (l : location) :
  0 <= m ->
  shr_m (fst (shr_fexp prec emax m e l))
    = m / 2 ^ Z.max 0 (fexp prec emax (Zdigits2 m + e) - e) /\
  snd (shr_fexp prec emax m e l)
    = e + Z.max 0 (fexp prec emax (Zdigits2 m + e) - e).
Proof.
  intros Hm. unfold shr_fexp.
  assert (Hr : shr_m (shr_record_of_loc m l) = m)
    by (destruct l as [|[ | | ]]; reflexivity).
  destruct (shr_m_shr (shr_record_of_loc m l) e
              (fexp prec emax (Zdigits2 m + e) - e) ltac:(lia)) as [E1 E2].
  rewrite Hr in E1. split; assumption.
Qed.

Lemma round_nearest_even_bounds (m : Z) (l : location) :
  m <= round_nearest_even m l <= m + 1.
Proof.
  destruct l as [|[ | | ]]; cbn [round_nearest_even]; try lia.
  destruct (Z.even m); lia.
Qed.

(** What [binary_round_aux] returns for a positive mantissa: the mantissa
    is cut at the exponent of its binade, moved by at most one unit, and
    cut again if that carried into the next binade. *)
Lemma binary_round_aux_shape (s : bool) (mx ex : Z) (l : location) :
  0 < mx ->
  exists mr,
    let e1 := ex + Z.max 0 (fexp prec emax (Zdigits2 mx + ex) - ex) in
    let e2 := e1 + Z.max 0 (fexp prec emax (Zdigits2 mr + e1) - e1) in
    mx / 2 ^ (e1 - ex) <= mr <= mx / 2 ^ (e1 - ex) + 1 /\
    binary_round_aux prec emax s mx ex l =
      match mr / 2 ^ (e2 - e1) with
      | Z0 => S754_zero s
      | Z.pos m => if e2 <=? emax - prec then S754_finite s m e2
                   else S754_infinity s
      | Z.neg _ => S754_nan
      end.
Proof.
  intros Hmx. unfold binary_round_aux.
  destruct (shr_fexp_m mx ex l ltac:(lia)) as [Em Ee].
  destruct (shr_fexp prec emax mx ex l) as [mrs' e']. cbn [fst snd] in Em, Ee.
  set (mr := round_nearest_even (shr_m mrs') (loc_of_shr_record mrs')).
  exists mr. cbv zeta.
  pose proof (round_nearest_even_bounds (shr_m mrs') (loc_of_shr_record mrs'))
    as Hmr. fold mr in Hmr.
  pose proof (Z.pow_pos_nonneg 2
                (Z.max 0 (fexp prec emax (Zdigits2 mx + ex) - ex))
                ltac:(lia) ltac:(lia)) as Hp.
  assert (Hq : 0 <= shr_m mrs') by (rewrite Em; apply Z.div_pos; lia).
  replace (ex + Z.max 0 (fexp prec emax (Zdigits2 mx + ex) - ex) - ex)
    with (Z.max 0 (fexp prec emax (Zdigits2 mx + ex) - ex)) by lia.
  rewrite <- Em, <- Ee. split; [lia|].
  destruct (shr_fexp_m mr e' loc_Exact ltac:(lia)) as [Em2 Ee2].
  destruct (shr_fexp prec emax mr e' loc_Exact) as [mrs'' e''].
  cbn [fst snd] in Em2, Ee2.
  replace (e' + Z.max 0 (fexp prec emax (Zdigits2 mr + e') - e') - e')
    with (Z.max 0 (fexp prec emax (Zdigits2 mr + e') - e')) by lia.
  rewrite <- Em2, <- Ee2. reflexivity.
Qed.

Lemma small_mantissa (s : bool) (m : positive) (e : Z) :
  (- (1 # 1000) < to_Q (S754_finite s m e))%Q ->
  (to_Q (S754_finite s m e) < 1 # 1000)%Q ->
  e < 0 /\ Z.pos m * 1000 < 2 ^ (- e).
Proof.
  unfold to_Q. destruct e as [|e|k].
  - unfold Qlt, inject_Z. cbn [Qnum Qden Qopp]. destruct s; cbn [cond_Zopp]; lia.
  - unfold Qlt, inject_Z. cbn [Qnum Qden Qopp].
    pose proof (Z.pow_pos_nonneg 2 (Z.pos e) ltac:(lia) ltac:(lia)).
    destruct s; cbn [cond_Zopp]; nia.
  - unfold Qlt. cbn [Qnum Qden Qopp].
    change (- Z.neg k) with (Z.pos k).
    rewrite Pos2Z.inj_pow.
    destruct s; cbn [cond_Zopp]; lia.
Qed.

Lemma pow2_lt_inv (a b : Z) : 0 <= b -> 2 ^ a < 2 ^ b -> a < b.
Proof. intros Hb H. apply (Z.pow_lt_mono_r_iff 2 a b); lia. Qed.

Lemma pow2_le_mono (a b : Z) : a <= b -> 2 ^ a <= 2 ^ b.
Proof. intros H. apply Z.pow_le_mono_r; lia. Qed.

Lemma pow2_pos (a : Z) : 0 <= a -> 0 < 2 ^ a.
Proof. intros H. apply Z.pow_pos_nonneg; lia. Qed.

Lemma Zdigits2_bounds (m : Z) :
  0 < m -> 0 < Zdigits2 m /\ 2 ^ (Zdigits2 m - 1) <= m < 2 ^ Zdigits2 m.
Proof.
  destruct m as [|p|p]; try lia. intros _. cbn [Zdigits2].
  split; [lia|apply digits2_pos_bounds].
Qed.

Lemma bounded_spec (m : positive) (e : Z) :
  bounded prec emax m e = true ->
  Z.max (Z.pos (digits2_pos m) + e - 53) (-1074) = e /\ e <= 971.
Proof.
  unfold bounded, canonical_mantissa. rewrite andb_true_iff, fexp_eq.
  rewrite Z.eqb_eq, Z.leb_le. intros [H1 H2]. split; [exact H1|].
  exact H2.
Qed.

Lemma mul_1000_trunc_zero (s : bool) (m : positive) (e : Z) :
  bounded prec emax m e = true ->
  e < 0 -> Z.pos m * 1000 < 2 ^ (- e) ->
  int (mul (S754_finite s m e) (S754_finite false 8796093022208000 (-43)))
    = Ok 0.
Proof.
  intros Hb He Hsmall.
  apply bounded_spec in Hb as [Hcan Hemax].
  pose proof (digits2_pos_bounds m) as Hdm.
  set (dm := Z.pos (digits2_pos m)) in *.
  assert (Hdm0 : 0 < dm) by (unfold dm; lia).
  unfold mul, SFmul.
  destruct (binary_round_aux_shape (xorb s false)
              (Z.pos (m * 8796093022208000)) (e + -43) loc_Exact ltac:(lia))
    as (mr & Hmr & ->).
  cbv zeta in Hmr.
  destruct (Zdigits2_bounds (Z.pos (m * 8796093022208000)) ltac:(lia))
    as [Hd0 Hd].
  set (d := Zdigits2 (Z.pos (m * 8796093022208000))) in *.
  rewrite Pos2Z.inj_mul in *.
  set (mx := Z.pos m * 8796093022208000) in *.
  rewrite !fexp_eq in *.
  set (k := - e) in *.
  assert (Hk : e = - k) by (unfold k; lia).
  (* the exact product is below one *)
  assert (Hmx : mx < 2 ^ (k + 43)).
  { rewrite Z.pow_add_r by lia. unfold mx.
    change (2 ^ 43) with 8796093022208. lia. }
  assert (Hd_hi : d <= k + 43).
  { assert (2 ^ (d - 1) < 2 ^ (k + 43)) by lia.
    apply pow2_lt_inv in H; lia. }
  assert (Hd_lo : 53 <= d).
  { assert (2 ^ 52 < 2 ^ d).
    { change (2 ^ 52) with 4503599627370496. unfold mx in Hd. lia. }
    apply pow2_lt_inv in H; lia. }
  set (e1 := e + -43 + Z.max 0 (Z.max (d + (e + -43) - 53) (-1074) - (e + -43))) in *.
  assert (He1 : e1 = Z.max (d - k - 96) (-1074)) by lia.
  assert (He1_hi : e1 <= -53) by lia.
  assert (Hshift : d - 53 <= e1 - (e + -43)) by lia.
  set (q := mx / 2 ^ (e1 - (e + -43))) in *.
  assert (Hq : 0 <= q < 2 ^ 53).
  { split.
    - apply Z.div_pos; [unfold mx; lia|apply pow2_pos; lia].
    - apply Z.div_lt_upper_bound; [apply pow2_pos; lia|].
      rewrite <- Z.pow_add_r by lia.
      pose proof (pow2_le_mono d (e1 - (e + -43) + 53) ltac:(lia)). lia. }
  assert (Hmr_hi : mr < 2 ^ (- e1)).
  { destruct (Z.eq_dec e1 (-53)) as [E|E].
    - (* the binade just below one *)
      assert (Hdk : d = k + 43) by lia.
      assert (Hdm53 : dm <= 53) by lia.
      assert (Hm53 : Z.pos m < 2 ^ 53).
      { pose proof (pow2_le_mono dm 53 ltac:(lia)). lia. }
      assert (Hk_hi : k <= 63).
      { assert (2 ^ (k + 42) < 2 ^ 106).
        { rewrite Hdk in Hd. replace (k + 43 - 1) with (k + 42) in Hd by lia.
          change (2 ^ 106) with 81129638414606681695789005144064.
          change (2 ^ 53) with 9007199254740992 in Hm53.
          unfold mx in Hd. lia. }
        apply pow2_lt_inv in H; lia. }
      assert (Hdm_eq : dm = 53) by lia.
      assert (Hk_lo : 62 <= k).
      { rewrite Hdm_eq in Hdm. change (2 ^ (53 - 1)) with 4503599627370496 in Hdm.
        assert (2 ^ 61 < 2 ^ k).
        { change (2 ^ 61) with 2305843009213693952. lia. }
        apply pow2_lt_inv in H; lia. }
      rewrite E. change (2 ^ (- -53)) with 9007199254740992.
      change (2 ^ 53) with 9007199254740992 in *.
      assert (Hq2 : q < 9007199254740991).
      { unfold q. apply Z.div_lt_upper_bound; [apply pow2_pos; lia|].
        replace (e1 - (e + -43)) with (k - 10) by lia.
        assert (Hkk : k = 62 \/ k = 63) by lia.
        destruct Hkk as [Hkk|Hkk]; rewrite Hkk in *.
        + change (2 ^ (62 - 10)) with 4503599627370496.
          change (2 ^ 62) with 4611686018427387904 in Hsmall.
          unfold mx. lia.
        + change (2 ^ (63 - 10)) with 9007199254740992.
          unfold mx. lia. }
      lia.
    - pose proof (pow2_le_mono 54 (- e1) ltac:(lia)).
      change (2 ^ 54) with 18014398509481984 in *.
      change (2 ^ 53) with 9007199254740992 in *. lia. }
  (* the second cut *)
  assert (Hmr0 : 0 <= mr) by lia.
  set (e2 := e1 + Z.max 0 (Z.max (Zdigits2 mr + e1 - 53) (-1074) - e1)) in *.
  assert (He2 : e1 <= e2 <= -53).
  { split; [lia|].
    destruct (Z.eq_dec mr 0) as [->|Hne].
    - cbn [Zdigits2] in e2. lia.
    - destruct (Zdigits2_bounds mr ltac:(lia)) as [Hr0 Hr].
      assert (2 ^ (Zdigits2 mr - 1) < 2 ^ (- e1)) by lia.
      apply pow2_lt_inv in H; lia. }
  assert (Hm2 : 0 <= mr / 2 ^ (e2 - e1) < 2 ^ (- e2)).
  { split.
    - apply Z.div_pos; [lia|apply pow2_pos; lia].
    - apply Z.div_lt_upper_bound; [apply pow2_pos; lia|].
      rewrite <- Z.pow_add_r by lia.
      replace (e2 - e1 + - e2) with (- e1) by lia. lia. }
  destruct (mr / 2 ^ (e2 - e1)) as [|m2|m2] eqn:Em2; [reflexivity| |lia].
  assert (Hle : (e2 <=? emax - prec) = true) by (apply Z.leb_le; unfold emax, prec; lia).
  rewrite Hle. cbn [int trunc].
  assert (Hneg : (0 <=? e2) = false) by (apply Z.leb_gt; lia).
  rewrite Hneg. rewrite Z.div_small by lia.
  destruct (xorb s false); reflexivity.
Qed.

Lemma is_trunc_int (z : Z) : is_trunc (inject_Z z) z.
Proof.
  unfold is_trunc, Qle, Qlt, Qminus, Qplus, Qopp, inject_Z. cbn [Qnum Qden].
  split; intros _; split; lia.
Qed.

Lemma trunc_spec (x : float) : is_trunc (to_Q x) (trunc x).
Proof.
  destruct x as [s|s| |s m e]; try apply (is_trunc_int 0).
  unfold to_Q, trunc. destruct e as [|e|k].
  - replace (cond_Zopp s (Z.pos m * 2 ^ 0)) with (cond_Zopp s (Z.pos m) * 2 ^ 0)
      by (destruct s; cbn; lia).
    apply is_trunc_int.
  - change (0 <=? Z.pos e) with true. cbv iota.
    replace (cond_Zopp s (Z.pos m * 2 ^ Z.pos e))
      with (cond_Zopp s (Z.pos m) * 2 ^ Z.pos e)
      by (destruct s; cbn [cond_Zopp]; lia).
    apply is_trunc_int.
  - change (0 <=? Z.neg k) with false. cbv iota.
    change (- Z.neg k) with (Z.pos k).
    assert (HD : 2 ^ Z.pos k = Z.pos (2 ^ k))
      by (rewrite Pos2Z.inj_pow; reflexivity).
    rewrite HD.
    pose proof (Z.div_mod (Z.pos m) (Z.pos (2 ^ k)) ltac:(lia)) as Hdm.
    pose proof (Z.mod_pos_bound (Z.pos m) (Z.pos (2 ^ k)) ltac:(lia)) as Hr.
    set (q := Z.pos m / Z.pos (2 ^ k)) in *.
    unfold is_trunc, Qle, Qlt, Qminus, Qplus, Qopp, inject_Z. cbn [Qnum Qden].
    destruct s; cbn [cond_Zopp]; split; intros H; split; nia.
Qed.

Lemma int_spec (x : float) (n : Z) : int x = Ok n -> is_trunc (to_Q x) n.
Proof.
  destruct x; cbn [int]; intros [= <-]; apply trunc_spec.
Qed.

Lemma key_component_small (x : float) :
  is_double x = true -> is_finite x = true ->
  (- (1 # 1000) < to_Q x)%Q -> (to_Q x < 1 # 1000)%Q ->
  key_component x = Ok 0.
Proof.
  intros Hd Hf Hlo Hhi. unfold key_component, float_mul_int.
  rewrite float_of_int_1000. cbn [mbind result_bind].
  destruct x as [s|s| |s m e]; try discriminate Hf.
  - destruct s; reflexivity.
  - destruct (small_mantissa s m e Hlo Hhi) as [He Hm].
    apply mul_1000_trunc_zero; assumption.
Qed.

Lemma moderate_exponent (s : bool) (m : positive) (e : Z) :
  (Qabs (to_Q (S754_finite s m e)) <= 1000000)%Q -> e < 20.
Proof.
  unfold to_Q. destruct e as [|e|k]; [lia| |lia].
  unfold Qle, Qabs, inject_Z. cbn [Qnum Qden]. intros H.
  destruct (Z.lt_ge_cases (Z.pos e) 20) as [Hlt|Hge]; [exact Hlt|exfalso].
  pose proof (pow2_le_mono 20 (Z.pos e) Hge) as Hp.
  change (2 ^ 20) with 1048576 in Hp.
  destruct s; cbn [cond_Zopp] in H; nia.
Qed.

Lemma mul_1000_finite (s : bool) (m : positive) (e : Z) :
  bounded prec emax m e = true -> e < 20 ->
  is_finite (mul (S754_finite s m e)
               (S754_finite false 8796093022208000 (-43))) = true.
Proof.
  intros Hb He.
  apply bounded_spec in Hb as [Hcan Hemax].
  pose proof (digits2_pos_bounds m) as Hdm.
  set (dm := Z.pos (digits2_pos m)) in *.
  assert (Hdm0 : 0 < dm) by (unfold dm; lia).
  assert (Hdm53 : dm <= 53) by lia.
  unfold mul, SFmul.
  destruct (binary_round_aux_shape (xorb s false)
              (Z.pos (m * 8796093022208000)) (e + -43) loc_Exact ltac:(lia))
    as (mr & Hmr & ->).
  cbv zeta in Hmr.
  destruct (Zdigits2_bounds (Z.pos (m * 8796093022208000)) ltac:(lia))
    as [Hd0 Hd].
  set (d := Zdigits2 (Z.pos (m * 8796093022208000))) in *.
  rewrite Pos2Z.inj_mul in *.
  set (mx := Z.pos m * 8796093022208000) in *.
  rewrite !fexp_eq in *.
  assert (Hd_hi : d <= 106).
  { assert (2 ^ (d - 1) < 2 ^ 106).
    { pose proof (pow2_le_mono dm 53 Hdm53) as Hp.
      change (2 ^ 53) with 9007199254740992 in Hp.
      change (2 ^ 106) with 81129638414606681695789005144064.
      unfold mx in Hd. nia. }
    apply pow2_lt_inv in H; lia. }
  set (e1 := e + -43 + Z.max 0 (Z.max (d + (e + -43) - 53) (-1074) - (e + -43))) in *.
  assert (He1 : -1074 <= e1 <= 30) by lia.
  assert (Hshift : 0 <= e1 - (e + -43) /\ d - 53 <= e1 - (e + -43)) by lia.
  set (q := mx / 2 ^ (e1 - (e + -43))) in *.
  assert (Hq : 0 <= q < 2 ^ 53).
  { split.
    - apply Z.div_pos; [unfold mx; lia|apply pow2_pos; lia].
    - apply Z.div_lt_upper_bound; [apply pow2_pos; lia|].
      rewrite <- Z.pow_add_r by lia.
      pose proof (pow2_le_mono d (e1 - (e + -43) + 53) ltac:(lia)). lia. }
  set (e2 := e1 + Z.max 0 (Z.max (Zdigits2 mr + e1 - 53) (-1074) - e1)) in *.
  assert (He2 : e2 <= 971).
  { destruct (Z.eq_dec mr 0) as [->|Hne].
    - cbn [Zdigits2] in e2. lia.
    - destruct (Zdigits2_bounds mr ltac:(lia)) as [Hr0 Hr].
      assert (2 ^ (Zdigits2 mr - 1) < 2 ^ 54).
      { change (2 ^ 54) with 18014398509481984.
        change (2 ^ 53) with 9007199254740992 in Hq. lia. }
      apply pow2_lt_inv in H; lia. }
  assert (Hm2 : 0 <= mr / 2 ^ (e2 - e1)).
  { apply Z.div_pos; [lia|apply pow2_pos; lia]. }
  destruct (mr / 2 ^ (e2 - e1)) as [|m2|m2]; [reflexivity| |lia].
  assert (Hle : (e2 <=? emax - prec) = true)
    by (apply Z.leb_le; unfold emax, prec; lia).
  rewrite Hle. reflexivity.
Qed.

(** The key component of a coordinate of any real-world size is defined:
    the multiplication does not overflow. *)
Lemma key_component_defined (x : float) :
  is_double x = true -> is_finite x = true ->
  (Qabs (to_Q x) <= 1000000)%Q ->
  exists n, key_component x = Ok n.
Proof.
  intros Hd Hf Hx. unfold key_component, float_mul_int.
  rewrite float_of_int_1000. cbn [mbind result_bind].
  destruct x as [s|s| |s m e]; try discriminate Hf.
  - exists 0. destruct s; reflexivity.
  - pose proof (mul_1000_finite s m e Hd (moderate_exponent s m e Hx)) as Hfin.
    destruct (mul (S754_finite s m e) _) as [s'|s'| |s' m' e'];
      try discriminate Hfin; eexists; reflexivity.
Qed.

Lemma simplified_geohash_defined (pickup_lat pickup_lng : float) :
  is_double pickup_lat = true -> is_finite pickup_lat = true ->
  (Qabs (to_Q pickup_lat) <= 1000000)%Q ->
  is_double pickup_lng = true -> is_finite pickup_lng = true ->
  (Qabs (to_Q pickup_lng) <= 1000000)%Q ->
  exists key, simplified_geohash pickup_lat pickup_lng = Ok key.
Proof.
  intros Hd1 Hf1 Hx1 Hd2 Hf2 Hx2. unfold simplified_geohash.
  destruct (key_component_defined pickup_lat Hd1 Hf1 Hx1) as [a ->].
  destruct (key_component_defined pickup_lng Hd2 Hf2 Hx2) as [b ->].
  eexists. reflexivity.
Qed.

(** A known passenger whose guardian entry, if any, is a map, and a pickup
    at coordinates of real-world size: [create_booking] succeeds. *)
Lemma create_booking_succeeds (passenger_id : string)
    (pickup_lat pickup_lng dropoff_lat dropoff_lng : float)
    (w : World) (passenger_data : dict) (g : option GuardianNotification) :
  passengers w !! passenger_id = Some passenger_data ->
  guardian_block passenger_data = Ok g ->
  is_double pickup_lat = true -> is_finite pickup_lat = true ->
  (Qabs (to_Q pickup_lat) <= 1000000)%Q ->
  is_double pickup_lng = true -> is_finite pickup_lng = true ->
  (Qabs (to_Q pickup_lng) <= 1000000)%Q ->
  exists b,
    created (create_booking passenger_id pickup_lat pickup_lng
               dropoff_lat dropoff_lng) w b.
Proof.
  intros Hpd Hg Hd1 Hf1 Hx1 Hd2 Hf2 Hx2.
  destruct (simplified_geohash_defined pickup_lat pickup_lng
              Hd1 Hf1 Hx1 Hd2 Hf2 Hx2) as [key Hkey].
  eexists. unfold created. rewrite create_booking_run, Hpd, Hkey, Hg.
  do 4 eexists. cbn [fst snd]. split; [reflexivity|].
  unfold store. cbn [bookings]. apply lookup_insert_eq.
Qed.

Lemma coordinate_exponent (s : bool) (m : positive) (e : Z) :
  bounded prec emax m e = true ->
  (Qabs (to_Q (S754_finite s m e)) <= 1000000)%Q -> e <= -33.
Proof.
  intros Hb Hx. apply bounded_spec in Hb as [Hcan _].
  pose proof (digits2_pos_bounds m) as Hdm.
  set (dm := Z.pos (digits2_pos m)) in *.
  destruct (Z.le_gt_cases e (-33)) as [Hle|Hgt]; [exact Hle|exfalso].
  assert (Hdm53 : dm = 53) by lia.
  rewrite Hdm53 in Hdm. change (2 ^ (53 - 1)) with 4503599627370496 in Hdm.
  unfold to_Q in Hx. destruct e as [|e|k].
  - unfold Qle, Qabs, inject_Z in Hx. cbn [Qnum Qden] in Hx.
    destruct s; cbn [cond_Zopp] in Hx; lia.
  - unfold Qle, Qabs, inject_Z in Hx. cbn [Qnum Qden] in Hx.
    pose proof (pow2_pos (Z.pos e) ltac:(lia)).
    destruct s; cbn [cond_Zopp] in Hx; nia.
  - unfold Qle, Qabs in Hx. cbn [Qnum Qden] in Hx.
    assert (HD : Z.pos (2 ^ k) = 2 ^ Z.pos k)
      by (rewrite Pos2Z.inj_pow; reflexivity).
    rewrite HD in Hx.
    pose proof (pow2_le_mono (Z.pos k) 32 ltac:(lia)) as Hp.
    change (2 ^ 32) with 4294967296 in Hp.
    pose proof (pow2_pos (Z.pos k) ltac:(lia)).
    destruct s; cbn [cond_Zopp] in Hx; nia.
Qed.

Lemma mul_1000_trunc_floor (s : bool) (m : positive) (e : Z) :
  bounded prec emax m e = true -> e <= -33 ->
  exists t,
    int (mul (S754_finite s m e) (S754_finite false 8796093022208000 (-43)))
      = Ok (cond_Zopp s t) /\
    Z.pos m * 1000 / 2 ^ (- e) <= t <= Z.pos m * 1000 / 2 ^ (- e) + 1.
Proof.
  intros Hb He.
  apply bounded_spec in Hb as [Hcan Hemax].
  pose proof (digits2_pos_bounds m) as Hdm.
  set (dm := Z.pos (digits2_pos m)) in *.
  assert (Hdm0 : 0 < dm) by (unfold dm; lia).
  assert (Hdm53 : dm <= 53) by lia.
  unfold mul, SFmul.
  destruct (binary_round_aux_shape (xorb s false)
              (Z.pos (m * 8796093022208000)) (e + -43) loc_Exact ltac:(lia))
    as (mr & Hmr & ->).
  cbv zeta in Hmr.
  destruct (Zdigits2_bounds (Z.pos (m * 8796093022208000)) ltac:(lia))
    as [Hd0 Hd].
  set (d := Zdigits2 (Z.pos (m * 8796093022208000))) in *.
  rewrite Pos2Z.inj_mul in *.
  set (mx := Z.pos m * 8796093022208000) in *.
  rewrite !fexp_eq in *.
  assert (Hd_hi : d <= 106).
  { assert (2 ^ (d - 1) < 2 ^ 106).
    { pose proof (pow2_le_mono dm 53 Hdm53) as Hp.
      change (2 ^ 53) with 9007199254740992 in Hp.
      change (2 ^ 106) with 81129638414606681695789005144064.
      unfold mx in Hd. nia. }
    apply pow2_lt_inv in H; lia. }
  set (e1 := e + -43 + Z.max 0 (Z.max (d + (e + -43) - 53) (-1074) - (e + -43))) in *.
  assert (He1 : e + -43 <= e1 <= -23) by lia.
  assert (Hshift : d - 53 <= e1 - (e + -43)) by lia.
  set (q := mx / 2 ^ (e1 - (e + -43))) in *.
  assert (Hq : 0 <= q < 2 ^ 53).
  { split.
    - apply Z.div_pos; [unfold mx; lia|apply pow2_pos; lia].
    - apply Z.div_lt_upper_bound; [apply pow2_pos; lia|].
      rewrite <- Z.pow_add_r by lia.
      pose proof (pow2_le_mono d (e1 - (e + -43) + 53) ltac:(lia)). lia. }
  set (e2 := e1 + Z.max 0 (Z.max (Zdigits2 mr + e1 - 53) (-1074) - e1)) in *.
  assert (He2 : e1 <= e2 <= -22).
  { split; [lia|].
    destruct (Z.eq_dec mr 0) as [->|Hne].
    - cbn [Zdigits2] in e2. lia.
    - destruct (Zdigits2_bounds mr ltac:(lia)) as [Hr0 Hr].
      assert (2 ^ (Zdigits2 mr - 1) < 2 ^ 54).
      { change (2 ^ 54) with 18014398509481984.
        change (2 ^ 53) with 9007199254740992 in Hq. lia. }
      apply pow2_lt_inv in H; lia. }
  (* the truncation of the result is the rounded mantissa cut at the unit *)
  assert (Hcut : mr / 2 ^ (e2 - e1) / 2 ^ (- e2) = mr / 2 ^ (- e1)).
  { rewrite Z.div_div by (try apply pow2_pos; lia).
    rewrite <- Z.pow_add_r by lia. f_equal. f_equal. lia. }
  (* the exact product cut at the unit *)
  assert (Hn : q / 2 ^ (- e1) = Z.pos m * 1000 / 2 ^ (- e)).
  { unfold q. rewrite Z.div_div by (try apply pow2_pos; lia).
    rewrite <- Z.pow_add_r by lia.
    replace (e1 - (e + -43) + - e1) with (- e + 43) by lia.
    rewrite Z.pow_add_r by lia. unfold mx.
    change 8796093022208000 with (1000 * 2 ^ 43).
    rewrite Z.mul_assoc.
    apply Z.div_mul_cancel_r; [pose proof (pow2_pos (- e) ltac:(lia)); lia|].
    discriminate. }
  exists (mr / 2 ^ (- e1)). split.
  - assert (Hm2 : 0 <= mr / 2 ^ (e2 - e1)).
    { apply Z.div_pos; [lia|apply pow2_pos; lia]. }
    rewrite <- Hcut.
    destruct (mr / 2 ^ (e2 - e1)) as [|m2|m2] eqn:Em2; [| |lia].
    + cbn [int trunc]. rewrite Z.div_0_l by
        (pose proof (pow2_pos (- e2) ltac:(lia)); lia).
      destruct s; reflexivity.
    + assert (Hle : (e2 <=? emax - prec) = true)
        by (apply Z.leb_le; unfold emax, prec; lia).
      rewrite Hle. cbn [int trunc].
      assert (Hneg : (0 <=? e2) = false) by (apply Z.leb_gt; lia).
      rewrite Hneg. destruct s; reflexivity.
  - rewrite <- Hn.
    pose proof (pow2_pos (- e1) ltac:(lia)) as HG.
    split.
    + apply Z.div_le_mono; lia.
    + apply Z.le_trans with ((q + 1) / 2 ^ (- e1)).
      * apply Z.div_le_mono; lia.
      * apply Z.le_trans with ((q + 1 * 2 ^ (- e1)) / 2 ^ (- e1)).
        -- apply Z.div_le_mono; lia.
        -- rewrite Z.div_add by lia. lia.
Qed.

Lemma cell_finite (s : bool) (m : positive) (k : positive) :
  cell (S754_finite s m (Z.neg k))
  = cond_Zopp s (Z.pos m * 1000 / 2 ^ Z.pos k).
Proof.
  assert (HD : Z.pos (2 ^ k) = 2 ^ Z.pos k)
    by (rewrite Pos2Z.inj_pow; reflexivity).
  rewrite <- HD.
  unfold cell, to_Q. cbv zeta.
  unfold Qceiling, Qle_bool, Qmult, Qopp, inject_Z. cbn [Qnum Qden].
  unfold Qfloor.
  replace (1 * 2 ^ k)%positive with (2 ^ k)%positive by lia.
  destruct s; cbn [cond_Zopp].
  - destruct (Z.leb_spec (0 * Z.pos (2 ^ k)) (1000 * - Z.pos m * 1)); [lia|].
    replace (- (1000 * - Z.pos m)) with (Z.pos m * 1000) by lia. reflexivity.
  - destruct (Z.leb_spec (0 * Z.pos (2 ^ k)) (1000 * Z.pos m * 1)); [|lia].
    replace (1000 * Z.pos m) with (Z.pos m * 1000) by lia. reflexivity.
Qed.

(** The component of a coordinate of real-world size is its cell, or the
    next one away from zero: the product can round up to a whole number. *)
Lemma key_component_cell (x : float) :
  coordinate x ->
  exists n,
    key_component x = Ok n /\
    (n = cell x \/
     (0 < cell x /\ n = cell x + 1) \/
     (cell x < 0 /\ n = cell x - 1)).
Proof.
  intros (Hd & Hf & Hx). unfold key_component, float_mul_int.
  rewrite float_of_int_1000. cbn [mbind result_bind].
  destruct x as [s|s| |s m e]; try discriminate Hf.
  - exists 0. split; [destruct s; reflexivity|]. left. reflexivity.
  - pose proof (coordinate_exponent s m e Hd Hx) as He.
    destruct e as [|e|k]; try lia.
    rewrite cell_finite.
    pose proof (pow2_pos (Z.pos k) ltac:(lia)) as Hp.
    assert (H0 : 0 <= Z.pos m * 1000 / 2 ^ Z.pos k)
      by (apply Z.div_pos; lia).
    destruct (Z.eq_dec (Z.pos m * 1000 / 2 ^ Z.pos k) 0) as [Hz|Hnz].
    + exists 0. rewrite Hz. split; [|left; destruct s; reflexivity].
      apply mul_1000_trunc_zero; [exact Hd|lia|].
      change (- Z.neg k) with (Z.pos k).
      apply Z.div_small_iff in Hz; lia.
    + destruct (mul_1000_trunc_floor s m (Z.neg k) Hd He) as (t & -> & Ht).
      change (- Z.neg k) with (Z.pos k) in Ht.
      exists (cond_Zopp s t). split; [reflexivity|].
      destruct s; cbn [cond_Zopp]; lia.
Qed.

(** ** The key as a string *)

Lemma pretty_N_char_no_dash (x : N) : Ascii.eqb (pretty_N_char x) "-"%char = false.
Proof. unfold pretty_N_char. repeat case_match; reflexivity. Qed.

Lemma pretty_N_go_no_dash (x : N) :
  forall s, no_dash s = true -> no_dash (pretty_N_go x s) = true.
Proof.
  induction (N.lt_wf_0 x) as [x _ IH]. intros s Hs.
  destruct (N.eq_dec x 0%N) as [->|Hx].
  - rewrite pretty_N_go_0. exact Hs.
  - rewrite pretty_N_go_step by lia. apply IH.
    + apply N.div_lt; lia.
    + cbn [no_dash]. rewrite pretty_N_char_no_dash. exact Hs.
Qed.

Lemma pretty_N_go_nonempty (x : N) :
  forall s, s <> EmptyString -> pretty_N_go x s <> EmptyString.
Proof.
  induction (N.lt_wf_0 x) as [x _ IH]. intros s Hs.
  destruct (N.eq_dec x 0%N) as [->|Hx].
  - rewrite pretty_N_go_0. exact Hs.
  - rewrite pretty_N_go_step by lia. apply IH.
    + apply N.div_lt; lia.
    + discriminate.
Qed.

Lemma pretty_N_shape (x : N) :
  no_dash (pretty x) = true /\ pretty x <> EmptyString.
Proof.
  unfold pretty, pretty_N. case_decide.
  - split; [reflexivity|discriminate].
  - split; [apply pretty_N_go_no_dash; reflexivity|].
    rewrite pretty_N_go_step by lia. apply pretty_N_go_nonempty. discriminate.
Qed.

Lemma dash_split (u : string) :
  forall u' v v',
    no_dash u = true -> no_dash u' = true ->
    u +:+ String "-" v = u' +:+ String "-" v' -> u = u' /\ v = v'.
Proof.
  induction u as [|c u IH]; intros [|c' u'] v v' Hu Hu' H; cbn in H.
  - injection H as <-. split; reflexivity.
  - injection H as <- _. cbn in Hu'. discriminate Hu'.
  - injection H as -> _. cbn in Hu. discriminate Hu.
  - injection H as <- H. cbn [no_dash] in Hu, Hu'.
    apply andb_prop in Hu as [_ Hu]. apply andb_prop in Hu' as [_ Hu'].
    destruct (IH u' v v' Hu Hu' H) as [-> ->]. split; reflexivity.
Qed.

(** [str(z)]: an optional minus sign, then the digits of [|z|]. *)
Lemma str_int_shape (z : Z) :
  str_int z = (if z <? 0 then String "-" (pretty (Z.abs_N z))
               else pretty (Z.abs_N z)).
Proof. destruct z; reflexivity. Qed.

Lemma bucket_key_inj (a b a' b' : Z) :
  str_int a +:+ "-" +:+ str_int b = str_int a' +:+ "-" +:+ str_int b' ->
  a = a' /\ b = b'.
Proof.
  rewrite (str_int_shape a), (str_int_shape a').
  destruct (pretty_N_shape (Z.abs_N a)) as [Hu Hne].
  destruct (pretty_N_shape (Z.abs_N a')) as [Hu' Hne'].
  change ("-" +:+ str_int b) with (String "-" (str_int b)).
  change ("-" +:+ str_int b') with (String "-" (str_int b')).
  destruct (Z.ltb_spec a 0) as [Ha|Ha]; destruct (Z.ltb_spec a' 0) as [Ha'|Ha'];
    cbn [String.app]; intros H.
  - injection H as H. apply dash_split in H as [Hp Hb]; [|assumption..].
    apply (inj pretty) in Hp. apply (inj pretty) in Hb. split; [lia|exact Hb].
  - exfalso. destruct (pretty (Z.abs_N a')) as [|c u']; [congruence|].
    cbn in H. injection H as <- _. cbn in Hu'. discriminate Hu'.
  - exfalso. destruct (pretty (Z.abs_N a)) as [|c u]; [congruence|].
    cbn in H. injection H as -> _. cbn in Hu. discriminate Hu.
  - apply dash_split in H as [Hp Hb]; [|assumption..].
    apply (inj pretty) in Hp. apply (inj pretty) in Hb. split; [lia|exact Hb].
Qed.

(** ** The bucket key *)

Lemma key_component_spec (x : float) (n : Z) :
  key_component x = Ok n ->
  exists y, float_mul_int x 1000 = Ok y /\ is_trunc (to_Q y) n.
Proof.
  unfold key_component.
  destruct (float_mul_int x 1000) as [y|e]; [|discriminate].
  cbn [mbind result_bind]. intros Hn. exists y. split; [reflexivity|].
  apply int_spec. exact Hn.
Qed.

(** C6 (as amended): the bucket key of a stored booking is computed from
    the pickup latitude and longitude alone; it is the decimal text of the
    two coordinates, each multiplied by 1000 in binary64 and truncated,
    joined by a dash; two pickups get the same key exactly when their two
    components agree. The component of a coordinate is the cell of the
    specification (the coordinate cut to three decimals) or the next cell
    away from zero, since the product can round up to a whole number: two
    pickups of one cell get components at most one apart, not always the
    same key, and two pickups with one key are in cells at most one apart.
    The pickups (14.1234, 121.5678) and (14.1239, 121.5671) are in one cell
    and share the key "14123-121567"; (14.1250, 121.5678) is in another
    cell and has the key "14125-121567". *)
Theorem bucket_key_of_pickup :
  (forall passenger_id pickup_lat pickup_lng dropoff_lat dropoff_lng
          passenger_count w b,
     created (create_booking passenger_id pickup_lat pickup_lng
                dropoff_lat dropoff_lng) w b \/
     created (create_group_booking passenger_id pickup_lat pickup_lng
                dropoff_lat dropoff_lng passenger_count) w b ->
     simplified_geohash pickup_lat pickup_lng
       = Ok (geohash (pickupLocation b))) /\
  (forall lat lng a b,
     key_component lat = Ok a -> key_component lng = Ok b ->
     simplified_geohash lat lng = Ok (str_int a +:+ "-" +:+ str_int b) /\
     (exists y, float_mul_int lat 1000 = Ok y /\ is_trunc (to_Q y) a) /\
     (exists y, float_mul_int lng 1000 = Ok y /\ is_trunc (to_Q y) b)) /\
  (forall lat1 lng1 lat2 lng2 key1 key2,
     simplified_geohash lat1 lng1 = Ok key1 ->
     simplified_geohash lat2 lng2 = Ok key2 ->
     (key1 = key2 <->
      key_component lat1 = key_component lat2 /\
      key_component lng1 = key_component lng2)) /\
  (forall x,
     coordinate x ->
     exists n,
       key_component x = Ok n /\
       (n = cell x \/
        (0 < cell x /\ n = cell x + 1) \/
        (cell x < 0 /\ n = cell x - 1))) /\
  (forall lat1 lng1 lat2 lng2,
     coordinate lat1 -> coordinate lng1 ->
     coordinate lat2 -> coordinate lng2 ->
     exists a1 b1 a2 b2,
       simplified_geohash lat1 lng1
         = Ok (str_int a1 +:+ "-" +:+ str_int b1) /\
       simplified_geohash lat2 lng2
         = Ok (str_int a2 +:+ "-" +:+ str_int b2) /\
       (same_cell lat1 lng1 lat2 lng2 ->
        Z.abs (a1 - a2) <= 1 /\ Z.abs (b1 - b2) <= 1) /\
       (a1 = a2 /\ b1 = b2 ->
        Z.abs (cell lat1 - cell lat2) <= 1 /\
        Z.abs (cell lng1 - cell lng2) <= 1)) /\
  simplified_geohash lat_14_1234 lng_121_5678 = Ok "14123-121567" /\
  simplified_geohash lat_14_1239 lng_121_5671 = Ok "14123-121567" /\
  simplified_geohash lat_14_1250 lng_121_5678 = Ok "14125-121567" /\
  same_cell lat_14_1234 lng_121_5678 lat_14_1239 lng_121_5671 /\
  ~ same_cell lat_14_1234 lng_121_5678 lat_14_1250 lng_121_5678.
Proof.
  split; [|split; [|split; [|split; [|split]]]].
  - intros pid lat lng dlat dlng pc w b [Hb|Hb].
    + apply created_single_inv in Hb as (pd & key & g & _ & Hkey & _ & ->).
      exact Hkey.
    + apply created_group_inv in Hb
        as (pd & key & fare & g & _ & _ & Hkey & _ & _ & ->).
      exact Hkey.
  - intros lat lng a b Ha Hb. split; [|split].
    + unfold simplified_geohash. rewrite Ha, Hb. reflexivity.
    + apply key_component_spec. exact Ha.
    + apply key_component_spec. exact Hb.
  - intros lat1 lng1 lat2 lng2 key1 key2 H1 H2.
    unfold simplified_geohash in H1, H2.
    destruct (key_component lat1) as [a1|e]; [|discriminate].
    destruct (key_component lng1) as [b1|e]; [|discriminate].
    destruct (key_component lat2) as [a2|e]; [|discriminate].
    destruct (key_component lng2) as [b2|e]; [|discriminate].
    cbn [mbind result_bind] in H1, H2.
    injection H1 as <-. injection H2 as <-. split.
    + intros H. apply bucket_key_inj in H as [-> ->]. split; reflexivity.
    + intros [[= ->] [= ->]]. reflexivity.
  - exact key_component_cell.
  - intros lat1 lng1 lat2 lng2 Hlat1 Hlng1 Hlat2 Hlng2.
    destruct (key_component_cell lat1 Hlat1) as (a1 & Ha1 & Hc1).
    destruct (key_component_cell lng1 Hlng1) as (b1 & Hb1 & Hd1).
    destruct (key_component_cell lat2 Hlat2) as (a2 & Ha2 & Hc2).
    destruct (key_component_cell lng2 Hlng2) as (b2 & Hb2 & Hd2).
    exists a1, b1, a2, b2. unfold simplified_geohash, same_cell.
    rewrite Ha1, Hb1, Ha2, Hb2. cbn [mbind result_bind].
    split; [reflexivity|]. split; [reflexivity|].
    split; intros [H1 H2]; lia.
  - split; [vm_compute; reflexivity|].
    split; [vm_compute; reflexivity|].
    split; [vm_compute; reflexivity|].
    split.
    + split; vm_compute; reflexivity.
    + intros [H _]. vm_compute in H. discriminate H.
Qed.

Lemma bucket_key_of_pickup_witness :
  exists a1 b1 a2 b2,
    simplified_geohash lat_14_123 lng_121_5678
      = Ok (str_int a1 +:+ "-" +:+ str_int b1) /\
    simplified_geohash lat_14_1225 lng_121_5678
      = Ok (str_int a2 +:+ "-" +:+ str_int b2) /\
    (same_cell lat_14_123 lng_121_5678 lat_14_1225 lng_121_5678 ->
     Z.abs (a1 - a2) <= 1 /\ Z.abs (b1 - b2) <= 1).
Proof.
  destruct bucket_key_of_pickup as (_ & _ & _ & _ & H & _).
  assert (Hc : forall x, is_double x = true -> is_finite x = true ->
                 Qle_bool (Qabs (to_Q x)) 1000000 = true -> coordinate x).
  { intros x Hd Hf Hx. repeat split; [exact Hd|exact Hf|].
    apply Qle_bool_iff. exact Hx. }
  destruct (H lat_14_123 lng_121_5678 lat_14_1225 lng_121_5678)
    as (a1 & b1 & a2 & b2 & H1 & H2 & H3 & _);
    try (apply Hc; reflexivity).
  exists a1, b1, a2, b2. repeat split; try assumption; apply H3; assumption.
Defined.

(** Two pickups of one cell with two keys: the doubles nearest to 14.123
    and to 14.1225 are both in the cell 14122, and their components are
    14123 and 14122. Near zero, the doubles nearest to 0.009 and to 0.0085
    are both in the cell 8, and their components are 9 and 8. *)
Lemma same_cell_different_keys :
  same_cell lat_14_123 lng_121_5678 lat_14_1225 lng_121_5678 /\
  cell lat_14_123 = 14122 /\
  cell lat_14_1225 = 14122 /\
  simplified_geohash lat_14_123 lng_121_5678 = Ok "14123-121567" /\
  simplified_geohash lat_14_1225 lng_121_5678 = Ok "14122-121567" /\
  cell (of_decimal 9 3) = 8 /\
  cell (of_decimal 85 4) = 8 /\
  key_component (of_decimal 9 3) = Ok 9 /\
  key_component (of_decimal 85 4) = Ok 8.
Proof.
  split; [split; vm_compute; reflexivity|].
  repeat match goal with |- _ /\ _ => split end; vm_compute; reflexivity.
Qed.

(** C10: a component of the key is the coordinate multiplied by 1000 (one
    binary64 multiplication) and truncated toward zero, not floored. So
    every latitude strictly between -0.001 and 0.001 has component 0, and
    the latitudes -0.0005 and 0.0005, on either side of zero, share it:
    the product at -0.0005 is -0.5, whose floor would be -1. The bounds
    are tight: the doubles 0.001 and -0.001 have components 1 and -1. *)
Theorem key_component_truncates :
  (forall x n,
     key_component x = Ok n ->
     exists y, float_mul_int x 1000 = Ok y /\ is_trunc (to_Q y) n) /\
  (forall x,
     is_double x = true -> is_finite x = true ->
     (- (1 # 1000) < to_Q x)%Q -> (to_Q x < 1 # 1000)%Q ->
     key_component x = Ok 0) /\
  key_component (of_decimal (-5) 4) = Ok 0 /\
  key_component (of_decimal 5 4) = Ok 0 /\
  float_mul_int (of_decimal (-5) 4) 1000
    = Ok (S754_finite true 4503599627370496 (-53)) /\
  Qfloor (to_Q (S754_finite true 4503599627370496 (-53))) = -1 /\
  key_component (of_decimal 1 3) = Ok 1 /\
  key_component (of_decimal (-1) 3) = Ok (-1).
Proof.
  split; [exact key_component_spec|].
  split; [exact key_component_small|].
  repeat match goal with |- _ /\ _ => split end; vm_compute; reflexivity.
Qed.

Lemma key_component_truncates_witness :
  key_component (of_decimal (-7) 4) = Ok 0 /\
  key_component (of_decimal 9 4) = Ok 0.
Proof.
  destruct key_component_truncates as (_ & H & _).
  split; apply H; reflexivity.
Defined.

(** ** Further properties of the fare *)

(** X1: whenever [calculate_fare] returns, for any distance (negative, or
    beyond the range where binary64 is exact) and any passenger count, the
    fare is at least the base fare plus the per-passenger charge, [25 +
    (passenger_count - 1) * 10]: the rounded per-km term is never negative. *)
Theorem fare_at_least_base (d p fare : Z) :
  calculate_fare d p = Ok fare -> 25 + (p - 1) * 10 <= fare.
Proof.
  rewrite calculate_fare_split.
  destruct (additional_fare d) as [n|e] eqn:Hn; [|discriminate].
  cbn [mbind result_bind]. intros [= <-].
  pose proof (additional_fare_nonneg d n Hn). lia.
Qed.

Lemma fare_at_least_base_witness : 25 + (1 - 1) * 10 <= 73.
Proof. apply (fare_at_least_base 7000 1 73). reflexivity. Defined.

(** X2: the fare is linear in the passenger count: at the same distance, [q]
    passengers pay the fare of [p] passengers plus [(q - p) * 10], and if the
    call raises for one count it raises the same exception for every count. *)
Theorem each_passenger_adds_ten (d p q : Z) :
  match calculate_fare d p with
  | Ok fare => calculate_fare d q = Ok (fare + (q - p) * 10)
  | Raise e => calculate_fare d q = Raise e
  end.
Proof.
  rewrite !calculate_fare_split.
  destruct (additional_fare d) as [n|e]; cbn [mbind result_bind].
  - f_equal. lia.
  - reflexivity.
Qed.

Lemma div_half_even_mono (n1 n2 d : Z) :
  0 < d -> n1 <= n2 -> div_half_even n1 d <= div_half_even n2 d.
Proof.
  intros Hd Hn.
  destruct (Z.eq_dec n1 n2) as [->|Hne]; [lia|].
  destruct (div_half_even_spec n1 d Hd) as [H1 _].
  destruct (div_half_even_spec n2 d Hd) as [H2 _].
  nia.
Qed.

Lemma fare_exact_mono (d1 d2 p : Z) :
  d1 <= d2 -> fare_exact d1 p <= fare_exact d2 p.
Proof.
  intros H. unfold fare_exact.
  pose proof (div_half_even_mono (Z.max 0 (d1 - 1000) * 8)
                (Z.max 0 (d2 - 1000) * 8) 1000 ltac:(lia) ltac:(lia)).
  lia.
Qed.

(** X3: up to ten kilometres the fare never decreases with the distance: for
    [0 <= d1 <= d2 <= 10000] both calls return and the fare at [d1] is at most
    the fare at [d2]. *)
Theorem fare_monotone_in_distance (d1 d2 p : Z) :
  0 <= d1 -> d1 <= d2 -> d2 <= 10000 ->
  exists f1 f2,
    calculate_fare d1 p = Ok f1 /\ calculate_fare d2 p = Ok f2 /\ f1 <= f2.
Proof.
  intros H0 H12 H2.
  exists (fare_exact d1 p), (fare_exact d2 p).
  split; [apply calculate_fare_exact_near; lia|].
  split; [apply calculate_fare_exact_near; lia|].
  apply fare_exact_mono. exact H12.
Qed.

Lemma fare_monotone_in_distance_witness :
  exists f1 f2,
    calculate_fare 1500 2 = Ok f1 /\ calculate_fare 4200 2 = Ok f2 /\ f1 <= f2.
Proof. apply (fare_monotone_in_distance 1500 4200 2); lia. Defined.

Lemma div_half_even_1000_zero (n : Z) :
  0 <= n <= 500 -> div_half_even n 1000 = 0.
Proof.
  intros Hn. destruct (div_half_even_spec n 1000 ltac:(lia)) as [H1 H2].
  assert (Hc : div_half_even n 1000 = 0 \/ div_half_even n 1000 = 1) by lia.
  destruct Hc as [Hc|Hc]; [exact Hc|exfalso].
  rewrite Hc in H1, H2. assert (n = 500) by lia. subst n.
  discriminate (H2 eq_refl).
Qed.

Lemma div_half_even_1000_pos (n : Z) :
  500 < n -> 0 < div_half_even n 1000.
Proof.
  intros Hn. destruct (div_half_even_spec n 1000 ltac:(lia)) as [H1 _]. lia.
Qed.

(** X4: the per-km surcharge starts at 1063 metres: from 0 to 1062 metres the
    fare is exactly the base [25 + (passenger_count - 1) * 10] (the term below
    0.5 rounds to 0), and from 1063 to 10000 metres it is strictly more. *)
Theorem first_surcharge_at_1063 (d p : Z) :
  (0 <= d <= 1062 -> calculate_fare d p = Ok (25 + (p - 1) * 10)) /\
  (1063 <= d <= 10000 ->
   exists fare, calculate_fare d p = Ok fare /\ 25 + (p - 1) * 10 < fare).
Proof.
  split.
  - intros Hd. rewrite calculate_fare_exact_near by lia. unfold fare_exact.
    rewrite div_half_even_1000_zero by lia. reflexivity.
  - intros Hd. exists (fare_exact d p).
    split; [apply calculate_fare_exact_near; lia|]. unfold fare_exact.
    pose proof (div_half_even_1000_pos (Z.max 0 (d - 1000) * 8) ltac:(lia)).
    lia.
Qed.

Lemma first_surcharge_at_1063_witness :
  calculate_fare 1062 1 = Ok (25 + (1 - 1) * 10) /\
  exists fare, calculate_fare 1063 1 = Ok fare /\ 25 + (1 - 1) * 10 < fare.
Proof.
  split.
  - apply (proj1 (first_surcharge_at_1063 1062 1)). lia.
  - apply (proj2 (first_surcharge_at_1063 1063 1)). lia.
Defined.

(** ** Further properties of the runs *)

(** X5: a successful group booking stores a document under the returned
    identifier, flagged as a group booking with the requested count; the fare
    it returns is the stored one, which is the fare of the stored distance for
    that count and lies between 35 and 77. *)
Theorem group_booking_fare_consistent (passenger_id : string)
    (pickup_lat pickup_lng dropoff_lat dropoff_lng : float)
    (passenger_count : Z) (w w' : World)
    (key : string) (count fare : option Z) (msg : string) :
  create_group_booking passenger_id pickup_lat pickup_lng
    dropoff_lat dropoff_lng passenger_count w
    = (Success key count fare msg, w') ->
  exists b,
    bookings w' !! key = Some b /\
    id b = key /\
    isGroupBooking b = Some true /\
    passengerCount b = Some passenger_count /\
    count = Some passenger_count /\
    fare = Some (estimatedFare b) /\
    estimatedFare b = fare_exact (estimatedDistance b) passenger_count /\
    35 <= estimatedFare b <= 77.
Proof.
  rewrite create_group_booking_run.
  destruct (valid_count passenger_count) eqn:Hv; [|discriminate].
  cbn [negb]. apply valid_count_spec in Hv.
  destruct (passengers w !! passenger_id) as [pd|]; [|discriminate].
  destruct (simplified_geohash pickup_lat pickup_lng) as [k|e]; [|discriminate].
  pose proof (next_randint_range w 0 1000 5000 ltac:(lia)) as Hd.
  rewrite calculate_fare_exact_near by lia.
  destruct (guardian_block pd) as [g|e]; [|discriminate].
  intros [= <- <- <- <- <-].
  eexists. split; [apply lookup_insert_eq|].
  cbn [booking_document id isGroupBooking passengerCount estimatedFare
       estimatedDistance fmap option_fmap option_map fst].
  repeat match goal with |- _ /\ _ => split end; try reflexivity.
  - pose proof (fare_exact_mono 1000 (next_randint w 0 1000 5000)
                  passenger_count ltac:(lia)) as Hlo.
    unfold fare_exact in Hlo at 1.
    change (div_half_even (Z.max 0 (1000 - 1000) * 8) 1000) with 0 in Hlo.
    lia.
  - pose proof (fare_exact_mono (next_randint w 0 1000 5000) 5000
                  passenger_count ltac:(lia)) as Hhi.
    unfold fare_exact in Hhi at 2.
    change (div_half_even (Z.max 0 (5000 - 1000) * 8) 1000) with 32 in Hhi.
    lia.
Qed.

Lemma group_booking_fare_consistent_witness :
  exists b,
    bookings (snd (create_group_booking "p2" lat_14_1234 lng_121_5678
                     lat_14_2 lng_121_6 3 demo_world)) !! "booking-0"
      = Some b /\
    estimatedFare b = fare_exact (estimatedDistance b) 3.
Proof.
  destruct (group_booking_fare_consistent "p2" lat_14_1234 lng_121_5678
              lat_14_2 lng_121_6 3 demo_world
              (snd (create_group_booking "p2" lat_14_1234 lng_121_5678
                      lat_14_2 lng_121_6 3 demo_world))
              "booking-0" (Some 3) (Some 48)
              "Group booking created successfully" eq_refl)
    as (b & Hb & _ & _ & _ & _ & _ & Hf & _).
  exists b. split; [exact Hb | exact Hf].
Defined.

(** X6: a run of either booking script that does not return a success
    leaves the bookings as they were, unless the failure comes from a line
    the script prints once the booking is written: then the booking is in
    the store under the generated identifier, and the handler reports the
    error of the console. On a console that takes the lines printed after
    the write, a failure writes nothing. No run, failed or not, touches the
    passengers. *)
Theorem failure_writes_nothing_unless_print_raised (console : Console)
    (passenger_id : string)
    (pickup_lat pickup_lng dropoff_lat dropoff_lng : float)
    (passenger_count : Z) (w : World) :
  let single := create_booking_on console passenger_id pickup_lat pickup_lng
                  dropoff_lat dropoff_lng w in
  let group := create_group_booking_on console passenger_id
                 pickup_lat pickup_lng dropoff_lat dropoff_lng
                 passenger_count w in
  let key := uuids w (generated w) in
  passengers (snd single) = passengers w /\
  passengers (snd group) = passengers w /\
  (succeeded (fst single) = false ->
   bookings (snd single) = bookings w \/
   exists e b,
     refusal console (booking_lines key) = Some e /\
     fst single = handled console "Error creating booking: " Failure e /\
     bookings (snd single) = <[key := b]> (bookings w) /\
     passengerId b = passenger_id) /\
  (succeeded (fst group) = false ->
   bookings (snd group) = bookings w \/
   exists e b,
     refusal console
       (group_booking_lines key passenger_count (estimatedFare b)) = Some e /\
     fst group = handled console "Error creating group booking: " Failure e /\
     bookings (snd group) = <[key := b]> (bookings w) /\
     passengerId b = passenger_id) /\
  (refusal console (booking_lines key) = None ->
   succeeded (fst single) = false -> bookings (snd single) = bookings w) /\
  ((forall fare,
      refusal console (group_booking_lines key passenger_count fare) = None) ->
   succeeded (fst group) = false -> bookings (snd group) = bookings w).
Proof.
  cbv zeta. rewrite create_booking_on_run, create_group_booking_on_run.
  cbv zeta.
  split; [|split; [|split; [|split; [|split]]]].
  - destruct (passengers w !! passenger_id) as [pd|];
      [|destruct (document passenger_id); reflexivity].
    destruct (simplified_geohash pickup_lat pickup_lng) as [k|e];
      [|reflexivity].
    destruct (guardian_block pd) as [g|e]; reflexivity.
  - destruct (negb (valid_count passenger_count)); [reflexivity|].
    destruct (passengers w !! passenger_id) as [pd|];
      [|destruct (document passenger_id); reflexivity].
    destruct (simplified_geohash pickup_lat pickup_lng) as [k|e];
      [|reflexivity].
    destruct (calculate_fare _ passenger_count) as [f|e]; [|reflexivity].
    destruct (guardian_block pd) as [g|e]; reflexivity.
  - destruct (passengers w !! passenger_id) as [pd|];
      [|destruct (document passenger_id); left; reflexivity].
    destruct (simplified_geohash pickup_lat pickup_lng) as [k|e];
      [|left; reflexivity].
    destruct (guardian_block pd) as [g|e]; [|left; reflexivity].
    destruct (refusal console (booking_lines (uuids w (generated w))))
      as [e|] eqn:Hr; cbn [fst snd succeeded success]; [|discriminate].
    intros _. right. exists e.
    exists (booking_document w passenger_id pickup_lat pickup_lng
              dropoff_lat dropoff_lng pd k None g).
    split; [reflexivity|]. split; [reflexivity|]. split; reflexivity.
  - destruct (negb (valid_count passenger_count)); [left; reflexivity|].
    destruct (passengers w !! passenger_id) as [pd|];
      [|destruct (document passenger_id); left; reflexivity].
    destruct (simplified_geohash pickup_lat pickup_lng) as [k|e];
      [|left; reflexivity].
    destruct (calculate_fare _ passenger_count) as [f|e];
      [|left; reflexivity].
    destruct (guardian_block pd) as [g|e]; [|left; reflexivity].
    destruct (refusal console
                (group_booking_lines (uuids w (generated w))
                   passenger_count f)) as [e|] eqn:Hr;
      cbn [fst snd succeeded success]; [|discriminate].
    intros _. right. exists e.
    exists (booking_document w passenger_id pickup_lat pickup_lng
              dropoff_lat dropoff_lng pd k (Some (passenger_count, f)) g).
    split; [exact Hr|]. split; [reflexivity|]. split; reflexivity.
  - intros Hr.
    destruct (passengers w !! passenger_id) as [pd|];
      [|destruct (document passenger_id); reflexivity].
    destruct (simplified_geohash pickup_lat pickup_lng) as [k|e];
      [|reflexivity].
    destruct (guardian_block pd) as [g|e]; [|reflexivity].
    rewrite Hr. cbn [fst succeeded success]. discriminate.
  - intros Hr.
    destruct (negb (valid_count passenger_count)); [reflexivity|].
    destruct (passengers w !! passenger_id) as [pd|];
      [|destruct (document passenger_id); reflexivity].
    destruct (simplified_geohash pickup_lat pickup_lng) as [k|e];
      [|reflexivity].
    destruct (calculate_fare _ passenger_count) as [f|e]; [|reflexivity].
    destruct (guardian_block pd) as [g|e]; [|reflexivity].
    rewrite Hr. cbn [fst succeeded success]. discriminate.
Qed.

Lemma failure_writes_nothing_unless_print_raised_witness :
  bookings (snd (create_booking_on ascii_console "p1" S754_nan lng_121_5678
                   lat_14_2 lng_121_6 demo_world)) = bookings demo_world /\
  bookings (snd (create_group_booking_on accepting "p1" lat_14_1234
                   lng_121_5678 lat_14_2 lng_121_6 7 demo_world))
    = bookings demo_world.
Proof.
  destruct (failure_writes_nothing_unless_print_raised ascii_console "p1"
              S754_nan lng_121_5678 lat_14_2 lng_121_6 2 demo_world)
    as (_ & _ & _ & _ & H1 & _).
  destruct (failure_writes_nothing_unless_print_raised accepting "p1"
              lat_14_1234 lng_121_5678 lat_14_2 lng_121_6 7 demo_world)
    as (_ & _ & _ & _ & _ & H2).
  split; [apply H1 | apply H2]; reflexivity.
Defined.

Lemma is_ascii_app (a b : string) :
  is_ascii (a +:+ b) = is_ascii a && is_ascii b.
Proof.
  induction a as [|c a IH]; [reflexivity|].
  change (is_ascii (String c (a +:+ b))
          = is_ascii (String c a) && is_ascii b).
  cbn [is_ascii]. rewrite IH, andb_assoc. reflexivity.
Qed.

(** X26: a booking that is written and reported as failed. When the
    passenger is known and the key, the fare and the guardian block
    evaluate, the booking is stored; if the console then refuses one of the
    lines the script prints, the handler returns the failure of that line
    (or the call raises, when the console refuses the line of the handler
    too) for a booking that is in the store. On a console whose encoding is
    ASCII this is every such run of the group script: its last line has
    characters outside ASCII. *)
Theorem written_and_reported_failed (console : Console)
    (passenger_id : string)
    (pickup_lat pickup_lng dropoff_lat dropoff_lng : float)
    (passenger_count : Z) (w : World)
    (passenger_data : dict) (key : string) (g : option GuardianNotification) :
  passengers w !! passenger_id = Some passenger_data ->
  simplified_geohash pickup_lat pickup_lng = Ok key ->
  guardian_block passenger_data = Ok g ->
  let booking_id := uuids w (generated w) in
  let single := create_booking_on console passenger_id pickup_lat pickup_lng
                  dropoff_lat dropoff_lng w in
  let group := create_group_booking_on console passenger_id
                 pickup_lat pickup_lng dropoff_lat dropoff_lng
                 passenger_count w in
  (forall e,
     refusal console (booking_lines booking_id) = Some e ->
     fst single = handled console "Error creating booking: " Failure e /\
     bookings (snd single) !! booking_id
       = Some (booking_document w passenger_id pickup_lat pickup_lng
                 dropoff_lat dropoff_lng passenger_data key None g)) /\
  (forall fare e,
     valid_count passenger_count = true ->
     calculate_fare (next_randint w 0 1000 5000) passenger_count = Ok fare ->
     refusal console (group_booking_lines booking_id passenger_count fare)
       = Some e ->
     fst group = handled console "Error creating group booking: " Failure e /\
     bookings (snd group) !! booking_id
       = Some (booking_document w passenger_id pickup_lat pickup_lng
                 dropoff_lat dropoff_lng passenger_data key
                 (Some (passenger_count, fare)) g)) /\
  (forall fare,
     refusal ascii_console
       (group_booking_lines booking_id passenger_count fare) <> None).
Proof.
  intros Hpd Hkey Hg. cbv zeta.
  rewrite create_booking_on_run, create_group_booking_on_run. cbv zeta.
  rewrite Hpd, Hkey, Hg. split; [|split].
  - intros e Hr. rewrite Hr. cbn [fst snd store bookings]. split; [reflexivity|].
    apply lookup_insert_eq.
  - intros fare e Hv Hfare Hr. rewrite Hv, Hfare, Hr.
    cbn [negb fst snd store bookings]. split; [reflexivity|].
    apply lookup_insert_eq.
  - intros fare. unfold group_booking_lines, refusal, ascii_console.
    destruct (is_ascii ("Created group booking with ID: " +:+ _));
      [|discriminate].
    destruct (is_ascii ("Passenger count: " +:+ _)); [|discriminate].
    rewrite !is_ascii_app.
    replace (is_ascii fare_sign) with false by reflexivity.
    rewrite andb_false_r. cbn [andb]. discriminate.
Qed.

Lemma written_and_reported_failed_witness :
  fst (create_group_booking_on ascii_console "p2" lat_14_1234 lng_121_5678
         lat_14_2 lng_121_6 3 demo_world)
    = Ok (Failure "ordinal not in range(128)") /\
  is_Some (bookings (snd (create_group_booking_on ascii_console "p2"
                            lat_14_1234 lng_121_5678 lat_14_2 lng_121_6 3
                            demo_world)) !! "booking-0").
Proof.
  destruct (written_and_reported_failed ascii_console "p2"
              lat_14_1234 lng_121_5678 lat_14_2 lng_121_6 3 demo_world
              {[ "name" := VStr "Solo Passenger" ]} "14123-121567" None
              eq_refl eq_refl eq_refl) as (_ & H & _).
  destruct (H 48 (ValueError "ordinal not in range(128)")
              eq_refl eq_refl eq_refl) as [Hr Hb].
  split; [exact Hr|]. eexists. exact Hb.
Defined.

(** X7: a successful run of either booking script uses exactly one fresh
    identifier, stores the booking of that passenger under it, and leaves
    every other booking as it was. *)
Theorem success_writes_one_document (passenger_id : string)
    (pickup_lat pickup_lng dropoff_lat dropoff_lng : float)
    (passenger_count : Z) (w w' : World)
    (key : string) (count fare : option Z) (msg : string) :
  create_booking passenger_id pickup_lat pickup_lng dropoff_lat dropoff_lng w
    = (Success key count fare msg, w') \/
  create_group_booking passenger_id pickup_lat pickup_lng
    dropoff_lat dropoff_lng passenger_count w
    = (Success key count fare msg, w') ->
  key = uuids w (generated w) /\
  generated w' = S (generated w) /\
  (exists b, bookings w' !! key = Some b /\ id b = key /\
             passengerId b = passenger_id) /\
  (forall other, other <> key -> bookings w' !! other = bookings w !! other).
Proof.
  intros [H|H].
  - rewrite create_booking_run in H.
    destruct (passengers w !! passenger_id) as [pd|]; [|discriminate].
    destruct (simplified_geohash pickup_lat pickup_lng) as [k|e];
      [|discriminate].
    destruct (guardian_block pd) as [g|e]; [|discriminate].
    injection H as <- _ _ _ <-.
    cbn [store advance generated bookings]. repeat split.
    + eexists. split; [apply lookup_insert_eq|]. split; reflexivity.
    + intros other Hne. apply lookup_insert_ne. congruence.
  - rewrite create_group_booking_run in H.
    destruct (valid_count passenger_count); [|discriminate]. cbn [negb] in H.
    destruct (passengers w !! passenger_id) as [pd|]; [|discriminate].
    destruct (simplified_geohash pickup_lat pickup_lng) as [k|e];
      [|discriminate].
    destruct (calculate_fare _ passenger_count) as [f|e]; [|discriminate].
    destruct (guardian_block pd) as [g|e]; [|discriminate].
    injection H as <- _ _ _ <-.
    cbn [store advance generated bookings]. repeat split.
    + eexists. split; [apply lookup_insert_eq|]. split; reflexivity.
    + intros other Hne. apply lookup_insert_ne. congruence.
Qed.

Lemma success_writes_one_document_witness :
  generated (snd (create_booking "p1" lat_14_1234 lng_121_5678
                    lat_14_2 lng_121_6 demo_world))
  = S (generated demo_world).
Proof.
  destruct (success_writes_one_document "p1" lat_14_1234 lng_121_5678
              lat_14_2 lng_121_6 2 demo_world
              (snd (create_booking "p1" lat_14_1234 lng_121_5678
                      lat_14_2 lng_121_6 demo_world))
              "booking-0" None None "Booking created successfully"
              (or_introl eq_refl)) as (_ & H & _).
  exact H.
Defined.

Lemma key_component_nonfinite (x : float) :
  is_finite x = false ->
  exists e, key_component x = Raise e /\ str_exn e = nonfinite_message x.
Proof.
  intros Hx. unfold key_component, float_mul_int.
  rewrite float_of_int_1000. cbn [mbind result_bind].
  destruct x as [s|s| |s m e]; try discriminate Hx.
  - eexists. split; reflexivity.
  - eexists. split; reflexivity.
Qed.

Lemma simplified_geohash_nonfinite (pickup_lat pickup_lng : float) :
  is_finite pickup_lat = false \/
  ((exists a, key_component pickup_lat = Ok a) /\
   is_finite pickup_lng = false) ->
  exists e,
    simplified_geohash pickup_lat pickup_lng = Raise e /\
    str_exn e = nonfinite_message
                  (if is_finite pickup_lat then pickup_lng else pickup_lat).
Proof.
  unfold simplified_geohash. intros [Hlat|[[a Ha] Hlng]].
  - destruct (key_component_nonfinite pickup_lat Hlat) as (e & He & Hm).
    rewrite He, Hlat. exists e. split; [reflexivity|exact Hm].
  - destruct (key_component_nonfinite pickup_lng Hlng) as (e & He & Hm).
    rewrite Ha, He. cbn [mbind result_bind].
    assert (Hf : is_finite pickup_lat = true).
    { destruct (is_finite pickup_lat) eqn:E; [reflexivity|].
      destruct (key_component_nonfinite pickup_lat E) as (e' & He' & _).
      congruence. }
    rewrite Hf. exists e. split; [reflexivity|exact Hm].
Qed.

(** X8: a pickup coordinate that is NaN or an infinity makes both scripts
    return a failure carrying the message of Python's [int] (for the latitude
    first, for the longitude if the latitude converts); the booking identifier
    has been generated by then and is lost, nothing is drawn and nothing is
    stored. *)
Theorem nonfinite_pickup_fails (passenger_id : string)
    (pickup_lat pickup_lng dropoff_lat dropoff_lng : float)
    (passenger_count : Z) (w : World) (passenger_data : dict) :
  passengers w !! passenger_id = Some passenger_data ->
  is_finite pickup_lat = false \/
  ((exists a, key_component pickup_lat = Ok a) /\
   is_finite pickup_lng = false) ->
  let failure :=
    Failure (nonfinite_message
               (if is_finite pickup_lat then pickup_lng else pickup_lat)) in
  create_booking passenger_id pickup_lat pickup_lng dropoff_lat dropoff_lng w
    = (failure, advance 0 1 w) /\
  (valid_count passenger_count = true ->
   create_group_booking passenger_id pickup_lat pickup_lng
     dropoff_lat dropoff_lng passenger_count w
     = (failure, advance 0 1 w)).
Proof.
  intros Hpd Hbad. cbv zeta.
  destruct (simplified_geohash_nonfinite pickup_lat pickup_lng Hbad)
    as (e & He & Hm).
  split.
  - rewrite create_booking_run, Hpd, He, Hm. reflexivity.
  - intros Hv. rewrite create_group_booking_run, Hv, Hpd, He, Hm. reflexivity.
Qed.

Lemma nonfinite_pickup_fails_witness :
  create_booking "p1" lat_14_1234 (S754_infinity true) lat_14_2 lng_121_6
    demo_world
  = (Failure "cannot convert float infinity to integer",
     advance 0 1 demo_world).
Proof.
  refine (proj1 (nonfinite_pickup_fails "p1" lat_14_1234 (S754_infinity true)
                   lat_14_2 lng_121_6 2 demo_world _ eq_refl _)).
  right. split; [exists 14123; reflexivity | reflexivity].
Defined.

(** X9: the dropoff coordinates are never validated: the response of either
    script does not depend on them, and a stored booking carries them as
    given, with the name [Dropoff at <lat>, <lng>] printed with six decimals,
    so that a NaN or an infinity is stored as such. *)
Theorem dropoff_never_validated (passenger_id : string)
    (pickup_lat pickup_lng dropoff_lat dropoff_lng
     dropoff_lat' dropoff_lng' : float)
    (passenger_count : Z) (w : World) :
  fst (create_booking passenger_id pickup_lat pickup_lng
         dropoff_lat dropoff_lng w)
  = fst (create_booking passenger_id pickup_lat pickup_lng
           dropoff_lat' dropoff_lng' w) /\
  fst (create_group_booking passenger_id pickup_lat pickup_lng
         dropoff_lat dropoff_lng passenger_count w)
  = fst (create_group_booking passenger_id pickup_lat pickup_lng
           dropoff_lat' dropoff_lng' passenger_count w) /\
  (forall b,
     created (create_booking passenger_id pickup_lat pickup_lng
                dropoff_lat dropoff_lng) w b \/
     created (create_group_booking passenger_id pickup_lat pickup_lng
                dropoff_lat dropoff_lng passenger_count) w b ->
     dropoff_latitude (dropoffLocation b) = dropoff_lat /\
     dropoff_longitude (dropoffLocation b) = dropoff_lng /\
     dropoff_name (dropoffLocation b)
       = "Dropoff at " +:+ format_6f dropoff_lat
           +:+ ", " +:+ format_6f dropoff_lng).
Proof.
  split; [|split].
  - rewrite !create_booking_run.
    destruct (passengers w !! passenger_id) as [pd|]; [|reflexivity].
    destruct (simplified_geohash pickup_lat pickup_lng); [|reflexivity].
    destruct (guardian_block pd); reflexivity.
  - rewrite !create_group_booking_run.
    destruct (negb (valid_count passenger_count)); [reflexivity|].
    destruct (passengers w !! passenger_id) as [pd|]; [|reflexivity].
    destruct (simplified_geohash pickup_lat pickup_lng); [|reflexivity].
    destruct (calculate_fare _ passenger_count); [|reflexivity].
    destruct (guardian_block pd); reflexivity.
  - intros b [Hb|Hb].
    + apply created_single_inv in Hb as (pd & key & g & _ & _ & _ & ->).
      repeat split.
    + apply created_group_inv in Hb
        as (pd & key & fare & g & _ & _ & _ & _ & _ & ->).
      repeat split.
Qed.

Lemma demo_nan_dropoff_created :
  created (create_booking "p2" lat_14_1234 lng_121_5678
             S754_nan (S754_infinity false))
    demo_world demo_nan_dropoff_booking.
Proof.
  exists "booking-0", None, None, "Booking created successfully".
  split; vm_compute; reflexivity.
Defined.

Lemma dropoff_never_validated_witness :
  dropoff_latitude (dropoffLocation demo_nan_dropoff_booking) = S754_nan /\
  dropoff_longitude (dropoffLocation demo_nan_dropoff_booking)
    = S754_infinity false /\
  dropoff_name (dropoffLocation demo_nan_dropoff_booking)
    = "Dropoff at nan, inf".
Proof.
  apply (proj2 (proj2 (dropoff_never_validated "p2" lat_14_1234 lng_121_5678
                         S754_nan (S754_infinity false) lat_14_2 lng_121_6
                         2 demo_world))).
  left. exact demo_nan_dropoff_created.
Defined.

Lemma guardian_block_not_a_map (passenger_data : dict) (v : value) :
  passenger_data !! "guardian" = Some v -> is_dict v = false ->
  guardian_block passenger_data
  = Raise (AttributeError
             ("'" +:+ type_name v +:+ "' object has no attribute 'get'")).
Proof.
  intros Hv Hd. unfold guardian_block. rewrite Hv.
  destruct v; try discriminate Hd; reflexivity.
Qed.

(** X10: a passenger whose ['guardian'] entry is present but is not a map
    (null, for one) cannot book: both scripts fail with the [AttributeError]
    of [.get], after the identifier is generated and the estimates are drawn
    (three draws in the single script, two in the group script), and store
    nothing. *)
Theorem guardian_not_a_map_fails (passenger_id : string)
    (pickup_lat pickup_lng dropoff_lat dropoff_lng : float)
    (passenger_count : Z) (w : World)
    (passenger_data : dict) (v : value) (key : string) :
  passengers w !! passenger_id = Some passenger_data ->
  passenger_data !! "guardian" = Some v ->
  is_dict v = false ->
  simplified_geohash pickup_lat pickup_lng = Ok key ->
  let failure :=
    Failure ("'" +:+ type_name v +:+ "' object has no attribute 'get'") in
  create_booking passenger_id pickup_lat pickup_lng dropoff_lat dropoff_lng w
    = (failure, advance 3 1 w) /\
  (valid_count passenger_count = true ->
   create_group_booking passenger_id pickup_lat pickup_lng
     dropoff_lat dropoff_lng passenger_count w
     = (failure, advance 2 1 w)).
Proof.
  intros Hpd Hv Hd Hkey. cbv zeta.
  pose proof (guardian_block_not_a_map passenger_data v Hv Hd) as Hg.
  split.
  - rewrite create_booking_run, Hpd, Hkey, Hg. reflexivity.
  - intros Hc. rewrite create_group_booking_run, Hc, Hpd, Hkey, Hg.
    pose proof (next_randint_range w 0 1000 5000 ltac:(lia)) as Hr.
    rewrite calculate_fare_exact_near by lia. reflexivity.
Qed.

Lemma guardian_not_a_map_fails_witness :
  create_booking "p3" lat_14_1234 lng_121_5678 lat_14_2 lng_121_6
    demo_null_guardian_world
  = (Failure "'NoneType' object has no attribute 'get'",
     advance 3 1 demo_null_guardian_world).
Proof.
  exact (proj1 (guardian_not_a_map_fails "p3" lat_14_1234 lng_121_5678
                  lat_14_2 lng_121_6 2 demo_null_guardian_world
                  {[ "name" := VStr "Ward"; "guardian" := VNone ]} VNone
                  "14123-121567" eq_refl eq_refl eq_refl eq_refl)).
Defined.

(** X11: two single bookings made one after the other take consecutive
    identifiers and consecutive triples of draws (the second gets draws 3, 4
    and 5), and both are in the store afterwards, unless the two identifiers
    collide, in which case the second has replaced the first. *)
Theorem two_bookings_in_a_row (passenger_id passenger_id' : string)
    (pickup_lat pickup_lng dropoff_lat dropoff_lng : float)
    (pickup_lat' pickup_lng' dropoff_lat' dropoff_lng' : float)
    (w : World) (b1 b2 : Booking) :
  let first := create_booking passenger_id pickup_lat pickup_lng
                 dropoff_lat dropoff_lng in
  let second := create_booking passenger_id' pickup_lat' pickup_lng'
                  dropoff_lat' dropoff_lng' in
  created first w b1 ->
  created second (snd (first w)) b2 ->
  id b1 = uuids w (generated w) /\
  id b2 = uuids w (S (generated w)) /\
  estimatedDistance b2 = next_randint w 3 1000 5000 /\
  estimatedDuration b2 = next_randint w 4 300 1200 /\
  estimatedFare b2 = next_randint w 5 25 100 /\
  bookings (snd (second (snd (first w)))) !! id b2 = Some b2 /\
  bookings (snd (second (snd (first w)))) !! id b1
    = Some (if decide (id b2 = id b1) then b2 else b1).
Proof.
  cbv zeta. intros H1 H2.
  apply created_single_inv in H1 as (pd & key & g & Hpd & Hkey & Hg & ->).
  assert (Hw1 :
    snd (create_booking passenger_id pickup_lat pickup_lng
           dropoff_lat dropoff_lng w)
    = store (uuids w (generated w))
        (booking_document w passenger_id pickup_lat pickup_lng
           dropoff_lat dropoff_lng pd key None g) (advance 3 1 w)).
  { rewrite create_booking_run, Hpd, Hkey, Hg. reflexivity. }
  rewrite Hw1 in *.
  set (b1 := booking_document w passenger_id pickup_lat pickup_lng
               dropoff_lat dropoff_lng pd key None g) in *.
  set (w1 := store (uuids w (generated w)) b1 (advance 3 1 w)) in *.
  apply created_single_inv in H2
    as (pd' & key' & g' & Hpd' & Hkey' & Hg' & ->).
  rewrite create_booking_run, Hpd', Hkey', Hg'.
  cbn [snd store bookings advance].
  repeat match goal with |- _ /\ _ => split end; try reflexivity.
  - apply lookup_insert_eq.
  - set (b2 := booking_document w1 passenger_id' pickup_lat' pickup_lng'
                 dropoff_lat' dropoff_lng' pd' key' None g').
    destruct (decide (id b2 = id b1)) as [E|E].
    + rewrite <- E. apply lookup_insert_eq.
    + rewrite lookup_insert_ne by exact E. apply lookup_insert_eq.
Qed.

Lemma two_bookings_in_a_row_witness :
  bookings (snd (create_booking "p2" lat_14_1250 lng_121_5678
                   lat_14_2 lng_121_6
                   (snd (create_booking "p1" lat_14_1234 lng_121_5678
                           lat_14_2 lng_121_6 demo_world))))
    !! id demo_single_booking
  = Some (if decide (id demo_second_booking = id demo_single_booking)
          then demo_second_booking else demo_single_booking).
Proof.
  refine (proj2 (proj2 (proj2 (proj2 (proj2 (proj2
            (two_bookings_in_a_row "p1" "p2" lat_14_1234 lng_121_5678
               lat_14_2 lng_121_6 lat_14_1250 lng_121_5678 lat_14_2 lng_121_6
               demo_world demo_single_booking demo_second_booking
               demo_single_booking_created _))))))).
  exists "booking-1", None, None, "Booking created successfully".
  split; vm_compute; reflexivity.
Defined.

(** ** Further properties of the bucket key *)

Lemma binary_round_aux_opp (s : bool) (m e : Z) (l : location) :
  binary_round_aux prec emax (negb s) m e l
  = SFopp (binary_round_aux prec emax s m e l).
Proof.
  unfold binary_round_aux.
  destruct (shr_fexp prec emax m e l) as [mrs' e'].
  destruct (shr_fexp prec emax _ e' loc_Exact) as [mrs'' e''].
  destruct (shr_m mrs''); [reflexivity| |reflexivity].
  destruct (e'' <=? emax - prec); reflexivity.
Qed.

Lemma mul_opp_l (x y : float) : mul (SFopp x) y = SFopp (mul x y).
Proof.
  unfold mul.
  destruct x as [sx|sx| |sx mx ex], y as [sy|sy| |sy my ey];
    try reflexivity; cbn [SFopp SFmul];
    try (destruct sx, sy; reflexivity).
  replace (xorb (negb sx) sy) with (negb (xorb sx sy))
    by (destruct sx, sy; reflexivity).
  apply binary_round_aux_opp.
Qed.

Lemma int_opp (x : float) :
  int (SFopp x) = match int x with
                  | Ok n => Ok (- n)
                  | Raise e => Raise e
                  end.
Proof.
  destruct x as [s|s| |s m e]; try reflexivity.
  cbn [SFopp int trunc]. f_equal.
  destruct (0 <=? e), s; cbn [negb cond_Zopp]; lia.
Qed.

(** X12: a key component is symmetric about zero: the component of [-x] is the
    opposite of the component of [x], and it fails exactly when that of [x]
    fails, with the same exception. *)
Theorem key_component_odd (x : float) :
  key_component (SFopp x)
  = match key_component x with
    | Ok n => Ok (- n)
    | Raise e => Raise e
    end.
Proof.
  unfold key_component, float_mul_int. rewrite float_of_int_1000.
  cbn [mbind result_bind]. rewrite mul_opp_l. apply int_opp.
Qed.

(** X13: for a double of real-world size (at most 1000000 in absolute value)
    the key component is defined and is, in absolute value, the whole part of
    the exact product of the coordinate by 1000, or one more when the rounding
    of the product carries it to the next whole number; it has the sign of the
    coordinate. The grid cell is thus the exact one or its neighbour away from
    zero. *)
Theorem key_component_floor (x : float) :
  is_double x = true -> is_finite x = true ->
  (Qabs (to_Q x) <= 1000000)%Q ->
  exists n,
    key_component x = Ok n /\
    Qfloor (1000 * Qabs (to_Q x)) <= Z.abs n
      <= Qfloor (1000 * Qabs (to_Q x)) + 1 /\
    ((0 <= to_Q x)%Q -> 0 <= n) /\
    ((to_Q x <= 0)%Q -> n <= 0).
Proof.
  intros Hd Hf Hx. unfold key_component, float_mul_int.
  rewrite float_of_int_1000. cbn [mbind result_bind].
  destruct x as [s|s| |s m e]; try discriminate Hf.
  - exists 0. split; [destruct s; reflexivity|].
    split; [vm_compute; split; discriminate|]. split; intros _; lia.
  - pose proof (coordinate_exponent s m e Hd Hx) as He.
    destruct (mul_1000_trunc_floor s m e Hd He) as (t & -> & Ht).
    exists (cond_Zopp s t). split; [reflexivity|].
    destruct e as [|e|k]; try lia.
    assert (HD : Z.pos (2 ^ k) = 2 ^ Z.pos k)
      by (rewrite Pos2Z.inj_pow; reflexivity).
    change (- Z.neg k) with (Z.pos k) in Ht. rewrite <- HD in Ht.
    assert (H0 : 0 <= Z.pos m * 1000 / Z.pos (2 ^ k))
      by (apply Z.div_pos; lia).
    assert (HF : Qfloor (1000 * Qabs (to_Q (S754_finite s m (Z.neg k))))
                 = Z.pos m * 1000 / Z.pos (2 ^ k)).
    { unfold to_Q, Qabs, Qmult, Qfloor, inject_Z. cbn [Qnum Qden].
      replace (Z.abs (cond_Zopp s (Z.pos m))) with (Z.pos m)
        by (destruct s; reflexivity).
      f_equal. lia. }
    rewrite HF. split; [destruct s; cbn [cond_Zopp]; lia|].
    unfold to_Q, Qle. cbn [Qnum Qden].
    split; intros H; destruct s; cbn [cond_Zopp] in *; lia.
Qed.

Lemma key_component_floor_witness :
  exists n,
    key_component (of_decimal 14123 3) = Ok n /\
    Qfloor (1000 * Qabs (to_Q (of_decimal 14123 3))) <= Z.abs n
      <= Qfloor (1000 * Qabs (to_Q (of_decimal 14123 3))) + 1.
Proof.
  destruct (key_component_floor (of_decimal 14123 3) eq_refl eq_refl)
    as (n & Hn & Hb & _).
  - apply Qle_bool_iff. reflexivity.
  - exists n. split; assumption.
Defined.

(** Both cases occur: the double nearest to 14.123 is below it, and its
    product by 1000 rounds up to 14123.0; the double nearest to 1.005 is
    below it too, and its product stays below 1005. *)
Remark key_component_both_cases :
  key_component (of_decimal 14123 3)
    = Ok (Qfloor (1000 * to_Q (of_decimal 14123 3)) + 1) /\
  key_component (of_decimal 1005 3)
    = Ok (Qfloor (1000 * to_Q (of_decimal 1005 3))) /\
  key_component (of_decimal 1005 3) = Ok 1004.
Proof. repeat split; vm_compute; reflexivity. Qed.

(** ** [create_passenger.py] *)

Lemma create_passenger_on_run (console : Console) (server_time : Z)
    (phone_number : string) (w : World) :
  create_passenger_on console server_time phone_number w
  = (match console ("Created passenger account with ID: "
                      +:+ uuids w (generated w)) with
     | None =>
         Ok (PassengerCreated (uuids w (generated w))
               "Passenger account created successfully")
     | Some e =>
         handled console "Error creating passenger: " PassengerFailure e
     end,
     {| passengers :=
          <[uuids w (generated w) :=
              passenger_document server_time (uuids w (generated w))
                phone_number]> (passengers w);
        bookings := bookings w;
        entropy := entropy w; drawn := drawn w;
        uuids := uuids w; generated := S (generated w) |}).
Proof.
  unfold create_passenger_on, try_except, handled, print, mbind, M_bind,
    uuid4_str, set_passenger, mret, M_ret.
  cbn [uuids generated].
  destruct (console ("Created passenger account with ID: " +:+ _)) as [e|];
    [|reflexivity].
  destruct (console ("Error creating passenger: " +:+ _)); reflexivity.
Qed.

Lemma create_passenger_run (server_time : Z) (phone_number : string)
    (w : World) :
  create_passenger server_time phone_number w
  = (PassengerCreated (uuids w (generated w))
       "Passenger account created successfully",
     {| passengers :=
          <[uuids w (generated w) :=
              passenger_document server_time (uuids w (generated w))
                phone_number]> (passengers w);
        bookings := bookings w;
        entropy := entropy w; drawn := drawn w;
        uuids := uuids w; generated := S (generated w) |}).
Proof.
  unfold create_passenger, returned. rewrite create_passenger_on_run.
  reflexivity.
Qed.

(** X14: [create_passenger] writes the account before it prints its line,
    so the response depends on the console and the account does not: when
    the call returns a success, the account is in the store under the
    returned identifier, with the given phone number; when the console
    refuses the line, the handler returns the error of the console (or the
    call raises, when the console refuses the line of the handler too) and
    the account is in the store all the same, under an identifier the
    caller is not given. *)
Theorem create_passenger_writes_then_prints (console : Console)
    (server_time : Z) (phone_number : string) (w : World) :
  let run := create_passenger_on console server_time phone_number w in
  let key := uuids w (generated w) in
  let line := "Created passenger account with ID: " +:+ key in
  (forall passenger_id message,
     fst run = Ok (PassengerCreated passenger_id message) ->
     passenger_id = key /\ console line = None /\
     passengers (snd run) !! passenger_id
       = Some (passenger_document server_time key phone_number)) /\
  (forall e,
     console line = Some e ->
     fst run = handled console "Error creating passenger: " PassengerFailure e /\
     (forall passenger_id message,
        fst run <> Ok (PassengerCreated passenger_id message)) /\
     passengers (snd run) !! key
       = Some (passenger_document server_time key phone_number)) /\
  (forall other,
     other <> key -> passengers (snd run) !! other = passengers w !! other) /\
  bookings (snd run) = bookings w.
Proof.
  cbv zeta. rewrite create_passenger_on_run.
  cbn [fst snd passengers bookings].
  split; [|split; [|split]].
  - intros pid msg.
    destruct (console ("Created passenger account with ID: " +:+ _))
      as [e|] eqn:Hc.
    + unfold handled.
      destruct (console ("Error creating passenger: " +:+ _));
        intros H; discriminate H.
    + intros [= <- _]. split; [reflexivity|]. split; [reflexivity|].
      apply lookup_insert_eq.
  - intros e ->. split; [reflexivity|]. split.
    + intros pid msg. unfold handled.
      destruct (console ("Error creating passenger: " +:+ _));
        intros H; discriminate H.
    + apply lookup_insert_eq.
  - intros other Hne. apply lookup_insert_ne. congruence.
  - reflexivity.
Qed.

Lemma create_passenger_writes_then_prints_witness :
  fst (create_passenger_on
         (fun _ => Some (ValueError "I/O operation on closed file."))
         1700000000 "09171234567" demo_world)
    = Raise (ValueError "I/O operation on closed file.") /\
  is_Some (passengers
             (snd (create_passenger_on
                     (fun _ => Some (ValueError "I/O operation on closed file."))
                     1700000000 "09171234567" demo_world)) !! "booking-0").
Proof.
  destruct (create_passenger_writes_then_prints
              (fun _ => Some (ValueError "I/O operation on closed file."))
              1700000000 "09171234567" demo_world) as (_ & H & _).
  destruct (H (ValueError "I/O operation on closed file.") eq_refl)
    as (Hr & _ & Hp).
  split; [exact Hr|]. eexists. exact Hp.
Defined.

Lemma guardian_block_test_passenger (server_time : Z)
    (passenger_id phone_number : string) :
  guardian_block (passenger_document server_time passenger_id phone_number)
  = Ok (Some test_guardian_notification).
Proof. reflexivity. Qed.

(** X15: a passenger made by [create_passenger] can book at once: for a pickup
    whose key evaluates, [create_booking] on the returned identifier stores a
    booking with the name [Test Passenger], the given phone number and a
    guardian notification for the test guardian. *)
Theorem created_passenger_can_book (server_time : Z) (phone_number : string)
    (pickup_lat pickup_lng dropoff_lat dropoff_lng : float)
    (w : World) (key : string) :
  simplified_geohash pickup_lat pickup_lng = Ok key ->
  let passenger_id := uuids w (generated w) in
  exists b,
    created (create_booking passenger_id pickup_lat pickup_lng
               dropoff_lat dropoff_lng)
      (snd (create_passenger server_time phone_number w)) b /\
    passengerId b = passenger_id /\
    passengerName b = VStr "Test Passenger" /\
    passengerPhone b = VStr phone_number /\
    guardianNotification b = Some test_guardian_notification.
Proof.
  intros Hkey. cbv zeta. rewrite create_passenger_run. cbn [snd].
  set (w1 := {| passengers := _ |}).
  eexists. split.
  - unfold created. rewrite create_booking_run.
    assert (Hpd : passengers w1 !! uuids w (generated w)
                  = Some (passenger_document server_time
                            (uuids w (generated w)) phone_number))
      by apply lookup_insert_eq.
    rewrite Hpd, Hkey, guardian_block_test_passenger.
    do 4 eexists. cbn [fst snd]. split; [reflexivity|].
    unfold store. cbn [bookings]. apply lookup_insert_eq.
  - repeat split.
Qed.

Lemma created_passenger_can_book_witness :
  exists b,
    created (create_booking "booking-0" lat_14_1234 lng_121_5678
               lat_14_2 lng_121_6)
      (snd (create_passenger 1700000000 "09171234567" demo_world)) b /\
    passengerPhone b = VStr "09171234567" /\
    guardianNotification b = Some test_guardian_notification.
Proof.
  destruct (created_passenger_can_book 1700000000 "09171234567"
              lat_14_1234 lng_121_5678 lat_14_2 lng_121_6 demo_world
              "14123-121567" eq_refl) as (b & Hb & _ & _ & Hphone & Hg).
  exists b. repeat split; assumption.
Defined.

(** X16: [create_passenger] does not look for an existing account: called
    twice with the same phone number it makes two accounts, under two
    identifiers, with that same number. *)
Theorem same_phone_twice_two_accounts (server_time server_time' : Z)
    (phone_number : string) (w : World) :
  let first := uuids w (generated w) in
  let second := uuids w (S (generated w)) in
  let w2 := snd (create_passenger server_time' phone_number
                   (snd (create_passenger server_time phone_number w))) in
  first <> second ->
  fst (create_passenger server_time' phone_number
         (snd (create_passenger server_time phone_number w)))
    = PassengerCreated second "Passenger account created successfully" /\
  exists p1 p2,
    passengers w2 !! first = Some p1 /\
    passengers w2 !! second = Some p2 /\
    p1 !! "phoneNumber" = Some (VStr phone_number) /\
    p2 !! "phoneNumber" = Some (VStr phone_number).
Proof.
  cbv zeta. intros Hne. rewrite !create_passenger_run.
  cbn [fst snd passengers uuids generated]. split; [reflexivity|].
  exists (passenger_document server_time (uuids w (generated w)) phone_number),
    (passenger_document server_time' (uuids w (S (generated w))) phone_number).
  repeat match goal with |- _ /\ _ => split end; try reflexivity.
  - rewrite lookup_insert_ne by congruence. apply lookup_insert_eq.
  - apply lookup_insert_eq.
Qed.

Lemma same_phone_twice_two_accounts_witness :
  exists p1 p2,
    passengers (snd (create_passenger 1700000060 "0917"
                       (snd (create_passenger 1700000000 "0917" demo_world))))
      !! "booking-0" = Some p1 /\
    passengers (snd (create_passenger 1700000060 "0917"
                       (snd (create_passenger 1700000000 "0917" demo_world))))
      !! "booking-1" = Some p2 /\
    p1 !! "phoneNumber" = Some (VStr "0917") /\
    p2 !! "phoneNumber" = Some (VStr "0917").
Proof.
  refine (proj2 (same_phone_twice_two_accounts 1700000000 1700000060 "0917"
                   demo_world _)).
  discriminate.
Defined.

(** ** [mapbox_search.py] *)

Lemma collect_dicts (l : list value) :
  Forall (fun v => is_dict v = true) l ->
  exists places,
    Mapbox.collect l = Mapbox.Done places /\
    length places = length l /\
    forall (i : nat) (d : dict),
      l !! i = Some (VDict d) -> places !! i = Some (Mapbox.place_of_dict d).
Proof.
  induction l as [|v l IH]; intros Hall.
  - exists []. repeat split. intros i d H. discriminate H.
  - inversion Hall as [|? ? Hv Hl]; subst.
    destruct (IH Hl) as (places & Hc & Hlen & Hnth).
    destruct v; try discriminate Hv.
    exists (Mapbox.place_of_dict d :: places).
    cbn [Mapbox.collect]. rewrite Hc. split; [reflexivity|].
    split; [cbn; lia|].
    intros [|i] d' H.
    + injection H as <-. reflexivity.
    + apply (Hnth i d' H).
Qed.

(** X17: when the service answers with a JSON object whose [suggestions] is a
    list of objects, [search_mapbox] returns one place per suggestion, in
    order, each with the four fields [name], [full_address], [place_formatted]
    and [mapbox_id] of its suggestion, [None] where the key is missing. *)
Theorem search_gives_one_place_per_suggestion
    (token : option string) (http : string -> Mapbox.http_answer)
    (query language : string) (proximity session_token : option string)
    (data : dict) (suggestions : list value) :
  http (Mapbox.search_url token query language proximity session_token)
    = Mapbox.Json (VDict data) ->
  data !! "suggestions" = Some (VList suggestions) ->
  Forall (fun v => is_dict v = true) suggestions ->
  exists places,
    Mapbox.search_mapbox token http query language proximity session_token
      = Mapbox.Done (Some places) /\
    length places = length suggestions /\
    forall (i : nat) (d : dict),
      suggestions !! i = Some (VDict d) ->
      places !! i = Some (Mapbox.place_of_dict d).
Proof.
  intros Hhttp Hs Hall. unfold Mapbox.search_mapbox. cbv zeta.
  rewrite Hhttp. cbn [Mapbox.get]. rewrite Hs.
  cbn [default from_option Datatypes.id mbind Mapbox.res_bind Mapbox.iterate].
  destruct (collect_dicts suggestions Hall) as (places & Hc & Hlen & Hnth).
  rewrite Hc. exists places. repeat split; assumption.
Qed.

Lemma search_gives_one_place_per_suggestion_witness :
  exists places,
    Mapbox.search_mapbox (Some "token")
      (demo_http (VDict {[ "suggestions" := VList demo_suggestions ]}))
      "St. Paul" "en" None None
      = Mapbox.Done (Some places) /\
    length places = length demo_suggestions /\
    forall (i : nat) (d : dict),
      demo_suggestions !! i = Some (VDict d) ->
      places !! i = Some (Mapbox.place_of_dict d).
Proof.
  apply (search_gives_one_place_per_suggestion (Some "token")
           (demo_http (VDict {[ "suggestions" := VList demo_suggestions ]}))
           "St. Paul" "en" None None
           {[ "suggestions" := VList demo_suggestions ]} demo_suggestions).
  - reflexivity.
  - reflexivity.
  - repeat constructor.
Defined.

Lemma collect_bad (good rest : list value) (bad : value) :
  Forall (fun v => is_dict v = true) good -> is_dict bad = false ->
  Mapbox.collect (good ++ bad :: rest)
  = Mapbox.Raised
      (Mapbox.AttributeError
         ("'" +:+ type_name bad +:+ "' object has no attribute 'get'")).
Proof.
  intros Hgood Hbad. induction Hgood as [|v good Hv Hgood IH].
  - cbn [app Mapbox.collect]. destruct bad; try discriminate Hbad; reflexivity.
  - destruct v; try discriminate Hv.
    cbn [app Mapbox.collect]. cbn [app] in IH. rewrite IH. reflexivity.
Qed.

(** X18: a suggestion that is not an object makes [search_mapbox] raise an
    [AttributeError], which its handler (for [RequestException] only) does not
    catch: the places collected so far are lost and no [None] is returned. *)
Theorem malformed_suggestion_raises
    (token : option string) (http : string -> Mapbox.http_answer)
    (query language : string) (proximity session_token : option string)
    (data : dict) (good rest : list value) (bad : value) :
  http (Mapbox.search_url token query language proximity session_token)
    = Mapbox.Json (VDict data) ->
  data !! "suggestions" = Some (VList (good ++ bad :: rest)) ->
  Forall (fun v => is_dict v = true) good ->
  is_dict bad = false ->
  Mapbox.search_mapbox token http query language proximity session_token
  = Mapbox.Raised
      (Mapbox.AttributeError
         ("'" +:+ type_name bad +:+ "' object has no attribute 'get'")).
Proof.
  intros Hhttp Hs Hgood Hbad. unfold Mapbox.search_mapbox. cbv zeta.
  rewrite Hhttp. cbn [Mapbox.get]. rewrite Hs.
  cbn [default from_option Datatypes.id mbind Mapbox.res_bind Mapbox.iterate].
  rewrite (collect_bad good rest bad Hgood Hbad). reflexivity.
Qed.

Lemma malformed_suggestion_raises_witness :
  Mapbox.search_mapbox (Some "token")
    (demo_http (VDict {[ "suggestions" :=
                           VList (demo_suggestions ++ VStr "x" :: []) ]}))
    "St. Paul" "en" None None
  = Mapbox.Raised
      (Mapbox.AttributeError "'str' object has no attribute 'get'").
Proof.
  apply (malformed_suggestion_raises (Some "token")
           (demo_http (VDict {[ "suggestions" :=
                                  VList (demo_suggestions ++ VStr "x" :: []) ]}))
           "St. Paul" "en" None None
           {[ "suggestions" := VList (demo_suggestions ++ VStr "x" :: []) ]}
           demo_suggestions [] (VStr "x")).
  - reflexivity.
  - reflexivity.
  - repeat constructor.
  - reflexivity.
Defined.

Lemma app_string_assoc (a b c : string) : (a +:+ b) +:+ c = a +:+ (b +:+ c).
Proof.
  induction a as [|x a IH]; [reflexivity|].
  change (String x ((a +:+ b) +:+ c) = String x (a +:+ (b +:+ c))).
  rewrite IH. reflexivity.
Qed.

(** X19: the query is put in the URL unescaped: the query [q&language=x] with
    the language [l] gives the very URL that the query [q] with the language
    [x&language=l] gives, so the text of a query can add parameters to the
    request. *)
Theorem query_is_not_escaped (token : option string)
    (query language extra : string) (proximity session_token : option string) :
  Mapbox.search_url token (query +:+ "&language=" +:+ extra) language
    proximity session_token
  = Mapbox.search_url token query (extra +:+ "&language=" +:+ language)
      proximity session_token.
Proof.
  unfold Mapbox.search_url. cbv zeta.
  assert (H : Mapbox.base_url +:+ "?q=" +:+ (query +:+ "&language=" +:+ extra)
                +:+ "&language=" +:+ language
                +:+ "&access_token=" +:+ Mapbox.str_optional token
              = Mapbox.base_url +:+ "?q=" +:+ query +:+ "&language="
                  +:+ (extra +:+ "&language=" +:+ language)
                  +:+ "&access_token=" +:+ Mapbox.str_optional token).
  { f_equal. f_equal. rewrite !app_string_assoc. reflexivity. }
  rewrite H. reflexivity.
Qed.

(** X20: a successful response of an unexpected shape: a body that is not an
    object raises [AttributeError], a [suggestions] entry that cannot be
    iterated over (null, a number, a boolean) raises [TypeError], both past
    the handler; a body without [suggestions] gives the empty list. *)
Theorem unexpected_body_escapes_handler
    (token : option string) (http : string -> Mapbox.http_answer)
    (query language : string) (proximity session_token : option string)
    (body : value) :
  http (Mapbox.search_url token query language proximity session_token)
    = Mapbox.Json body ->
  (is_dict body = false ->
   Mapbox.search_mapbox token http query language proximity session_token
   = Mapbox.Raised
       (Mapbox.AttributeError
          ("'" +:+ type_name body +:+ "' object has no attribute 'get'"))) /\
  (forall (data : dict) (v : value),
     body = VDict data -> data !! "suggestions" = Some v ->
     Mapbox.iterable v = false ->
     Mapbox.search_mapbox token http query language proximity session_token
     = Mapbox.Raised
         (Mapbox.TypeError
            ("'" +:+ type_name v +:+ "' object is not iterable"))) /\
  (forall data : dict,
     body = VDict data -> data !! "suggestions" = None ->
     Mapbox.search_mapbox token http query language proximity session_token
     = Mapbox.Done (Some [])).
Proof.
  intros Hhttp. unfold Mapbox.search_mapbox. cbv zeta. rewrite Hhttp.
  split; [|split].
  - intros Hb. destruct body; try discriminate Hb; reflexivity.
  - intros data v -> Hs Hv. cbn [Mapbox.get]. rewrite Hs.
    cbn [default from_option Datatypes.id mbind Mapbox.res_bind].
    destruct v; try discriminate Hv; reflexivity.
  - intros data -> Hs. cbn [Mapbox.get]. rewrite Hs. reflexivity.
Qed.

Lemma unexpected_body_escapes_handler_witness :
  Mapbox.search_mapbox (Some "token")
    (demo_http (VDict {[ "suggestions" := VNone ]}))
    "St. Paul" "en" None None
  = Mapbox.Raised
      (Mapbox.TypeError "'NoneType' object is not iterable").
Proof.
  exact (proj1 (proj2
    (unexpected_body_escapes_handler (Some "token")
       (demo_http (VDict {[ "suggestions" := VNone ]}))
       "St. Paul" "en" None None
       (VDict {[ "suggestions" := VNone ]}) eq_refl))
    {[ "suggestions" := VNone ]} VNone eq_refl eq_refl eq_refl).
Defined.

(** ** [create_verified_driver.py] *)

(** X21: the phone number the driver script works with always starts with [+]:
    a number that has one is kept, any other gets one prepended (the empty
    text included), and doing it twice changes nothing more. *)
Theorem phone_number_gets_plus (phone_number : string) :
  Driver.startswith_plus (Driver.e164 phone_number) = true /\
  Driver.e164 (Driver.e164 phone_number) = Driver.e164 phone_number /\
  (Driver.startswith_plus phone_number = true ->
   Driver.e164 phone_number = phone_number) /\
  (Driver.startswith_plus phone_number = false ->
   Driver.e164 phone_number = String "+" phone_number).
Proof.
  unfold Driver.e164.
  destruct (Driver.startswith_plus phone_number) eqn:H; cbn [negb].
  - rewrite H. cbn [negb]. repeat split. discriminate.
  - cbn. repeat split. discriminate.
Qed.

(** X22: a successful [create_verified_driver] has stored the driver document
    and the wallet under one identifier, the [uid] the identity provider gave
    for the normalised phone number (found, or else created); the wallet holds
    300.0, the response carries the normalised number, and the documents of
    other drivers are as they were. *)
Theorem driver_and_wallet_share_id (auth : Driver.Auth)
    (driver_time wallet_time : Z) (phone_number name : string)
    (s s' : Driver.Store) (uid phone message : string) :
  Driver.create_verified_driver auth driver_time wallet_time
    phone_number name s
    = (Driver.DriverCreated uid phone message, s') ->
  Driver.resolved_uid auth phone_number name = Driver.Answers uid /\
  phone = Driver.e164 phone_number /\
  Driver.drivers s' !! uid
    = Some (Driver.driver_document driver_time uid name phone) /\
  Driver.wallets s' !! uid = Some (Driver.wallet_document wallet_time uid) /\
  Driver.wallet_document wallet_time uid !! "balance"
    = Some (VFloat (of_int 300)) /\
  (forall other, other <> uid ->
     Driver.drivers s' !! other = Driver.drivers s !! other /\
     Driver.wallets s' !! other = Driver.wallets s !! other).
Proof.
  unfold Driver.create_verified_driver, Driver.resolved_uid. cbv zeta.
  destruct (Driver.get_user_by_phone_number auth (Driver.e164 phone_number))
    as [u| |msg]; [| |discriminate].
  - destruct (Driver.set_custom_user_claims auth u); [|discriminate].
    intros [= <- <- _ <-]. cbn [Driver.drivers Driver.wallets].
    split; [reflexivity|]. split; [reflexivity|].
    split; [apply lookup_insert_eq|]. split; [apply lookup_insert_eq|].
    split; [reflexivity|].
    intros other Ho. split; apply lookup_insert_ne; congruence.
  - destruct (Driver.create_user auth (Driver.e164 phone_number) name)
      as [u|msg]; [|discriminate].
    destruct (Driver.set_custom_user_claims auth u); [|discriminate].
    intros [= <- <- _ <-]. cbn [Driver.drivers Driver.wallets].
    split; [reflexivity|]. split; [reflexivity|].
    split; [apply lookup_insert_eq|]. split; [apply lookup_insert_eq|].
    split; [reflexivity|].
    intros other Ho. split; apply lookup_insert_ne; congruence.
Qed.

Lemma driver_and_wallet_share_id_witness :
  Driver.resolved_uid demo_auth "639170000002" "Test Driver"
    = Driver.Answers "uid-of-+639170000002" /\
  Driver.wallets
    (snd (Driver.create_verified_driver demo_auth 1700000000 1700000001
            "639170000002" "Test Driver" demo_store))
    !! "uid-of-+639170000002"
    = Some (Driver.wallet_document 1700000001 "uid-of-+639170000002").
Proof.
  destruct (driver_and_wallet_share_id demo_auth 1700000000 1700000001
              "639170000002" "Test Driver" demo_store
              (snd (Driver.create_verified_driver demo_auth 1700000000
                      1700000001 "639170000002" "Test Driver" demo_store))
              "uid-of-+639170000002" "+639170000002"
              "Verified driver account and wallet created successfully"
              eq_refl)
    as (Hu & _ & _ & Hw & _).
  exact (conj Hu Hw).
Defined.






